(** * ESP8266 AT-command transport, HTTP and Firebase REST client

    A shallow embedding of the MakeCode [esp8266] namespace (core, [http.ts]
    and [firebase.ts]) and the properties of its command exchange, session
    handling and value parsing.

    The program talks to two external collaborators, a millisecond clock and a
    serial channel.  Both are modelled as oracles: the state carries the
    successive readings [input.runningTime()] will return and the successive
    chunks [serial.readString()] will return, and it logs every string handed
    to [serial.writeString].  A run is a deterministic function of these two
    sequences.

    A string of the model stands for the program's string with the same
    character codes, all below 256, and [JS.len] is its [.length], a count of
    characters.  The channel carries text as UTF-8: a character below 128
    travels as one byte and the others as two ([wireLength]), so a length in
    characters is a length in bytes for ASCII text only. *)

From Stdlib Require Import ZArith List Bool Lia String Ascii DecimalString.
From Stdlib Require Import QArith Qpower Floats Sorted DecimalNat.
Import ListNotations.

Open Scope string_scope.
Open Scope Z_scope.

(** ** String primitives of the host language *)

Module JS.

Definition CR : ascii := "013"%char.
Definition LF : ascii := "010"%char.
Definition CRLF : string := String CR (String LF EmptyString).
Definition QUOTE : string := String "034"%char EmptyString.

(** [s.length]: the number of characters of [s], which is its number of bytes
    on the channel when [s] is ASCII. *)
Definition len (s : string) : Z := Z.of_nat (String.length s).

(** Search of [sub] in [s], the current position being [i]. *)
Fixpoint indexOfAt (sub s : string) (i : Z) : Z :=
  if String.prefix sub s then i
  else match s with
       | EmptyString => -1
       | String _ s' => indexOfAt sub s' (i + 1)
       end.

Fixpoint skip (n : nat) (s : string) : string :=
  match n, s with
  | O, _ => s
  | S _, EmptyString => EmptyString
  | S n', String _ s' => skip n' s'
  end.

Fixpoint take (n : nat) (s : string) : string :=
  match n, s with
  | O, _ => EmptyString
  | S _, EmptyString => EmptyString
  | S n', String c s' => String c (take n' s')
  end.

(** [s.indexOf(sub)] *)
Definition indexOf (s sub : string) : Z := indexOfAt sub s 0.

(** [s.indexOf(sub, from)]: the start position is clamped to [0 .. s.length]. *)
Definition indexOfFrom (s sub : string) (from : Z) : Z :=
  let k := Nat.min (Z.to_nat from) (String.length s) in
  indexOfAt sub (skip k s) (Z.of_nat k).

(** A negative start counts from the end of the string. *)
Definition startPos (s : string) (start : Z) : nat :=
  if start <? 0 then Z.to_nat (Z.max (len s + start) 0) else Z.to_nat start.

(** [s.substr(start)] *)
Definition substrFrom (s : string) (start : Z) : string :=
  skip (startPos s start) s.

(** [s.substr(start, length)] *)
Definition substr (s : string) (start length : Z) : string :=
  take (Z.to_nat length) (skip (startPos s start) s).

(** [s.charAt(i)]: a string of one character, empty out of range. *)
Definition charAt (s : string) (i : Z) : string :=
  if i <? 0 then EmptyString else take 1 (skip (Z.to_nat i) s).

(** Decimal rendering of a length, as [+] does between a string and a number. *)
Definition ofNat (n : nat) : string := NilEmpty.string_of_uint (Nat.to_uint n).

(** [text + n] for a non-negative integer [n] *)
Definition ofZ (n : Z) : string := ofNat (Z.to_nat n).

End JS.

(** [contains s sub]: [sub] occurs in [s], that is [s.indexOf(sub) >= 0]. *)
Definition contains (s sub : string) : bool := 0 <=? JS.indexOf s sub.

(** ** Program state and the two oracles *)

Record State := mkState {
  (* core *)
  esp8266Initialized : bool;
  rxData : string;
  wifiConnected : bool;
  (* firebase.ts *)
  firebaseApiKey : string;
  firebaseDatabaseURL : string;
  firebaseProjectId : string;
  firebasePath : string;
  firebaseDataSent : bool;
  (* environment *)
  clock : list Z;           (* readings input.runningTime() will return *)
  serialIn : list string;   (* chunks serial.readString() will return *)
  serialOut : list string   (* strings written so far, oldest first *)
}.

Definition set_esp8266Initialized (v : bool) (s : State) : State :=
  mkState v (rxData s) (wifiConnected s) (firebaseApiKey s)
    (firebaseDatabaseURL s) (firebaseProjectId s) (firebasePath s)
    (firebaseDataSent s) (clock s) (serialIn s) (serialOut s).

Definition set_rxData (v : string) (s : State) : State :=
  mkState (esp8266Initialized s) v (wifiConnected s) (firebaseApiKey s)
    (firebaseDatabaseURL s) (firebaseProjectId s) (firebasePath s)
    (firebaseDataSent s) (clock s) (serialIn s) (serialOut s).

Definition set_wifiConnected (v : bool) (s : State) : State :=
  mkState (esp8266Initialized s) (rxData s) v (firebaseApiKey s)
    (firebaseDatabaseURL s) (firebaseProjectId s) (firebasePath s)
    (firebaseDataSent s) (clock s) (serialIn s) (serialOut s).

Definition set_firebaseDataSent (v : bool) (s : State) : State :=
  mkState (esp8266Initialized s) (rxData s) (wifiConnected s) (firebaseApiKey s)
    (firebaseDatabaseURL s) (firebaseProjectId s) (firebasePath s)
    v (clock s) (serialIn s) (serialOut s).

Definition set_clock (v : list Z) (s : State) : State :=
  mkState (esp8266Initialized s) (rxData s) (wifiConnected s) (firebaseApiKey s)
    (firebaseDatabaseURL s) (firebaseProjectId s) (firebasePath s)
    (firebaseDataSent s) v (serialIn s) (serialOut s).

Definition set_serialIn (v : list string) (s : State) : State :=
  mkState (esp8266Initialized s) (rxData s) (wifiConnected s) (firebaseApiKey s)
    (firebaseDatabaseURL s) (firebaseProjectId s) (firebasePath s)
    (firebaseDataSent s) (clock s) v (serialOut s).

Definition set_serialOut (v : list string) (s : State) : State :=
  mkState (esp8266Initialized s) (rxData s) (wifiConnected s) (firebaseApiKey s)
    (firebaseDatabaseURL s) (firebaseProjectId s) (firebasePath s)
    (firebaseDataSent s) (clock s) (serialIn s) v.

(** ** The state monad of the embedding

    [None] means that the recorded clock trace ended before the call did: the
    trace is too short to tell how the call ends. *)

Definition M (A : Type) : Type := State -> option (A * State).

Definition ret {A} (a : A) : M A := fun s => Some (a, s).

Definition bind {A B} (m : M A) (k : A -> M B) : M B :=
  fun s => match m s with
           | Some (a, s') => k a s'
           | None => None
           end.

Declare Scope esp_scope.
Delimit Scope esp_scope with esp.
Notation "x <- m ;; k" := (bind m (fun x => k))
  (at level 61, m at next level, right associativity) : esp_scope.
Notation "m ;; k" := (bind m (fun _ => k))
  (at level 61, right associativity) : esp_scope.
Open Scope esp_scope.

Definition get {A} (f : State -> A) : M A := fun s => Some (f s, s).
Definition modify (f : State -> State) : M unit := fun s => Some (tt, f s).

(** [input.runningTime()] *)
Definition input_runningTime : M Z :=
  fun s => match clock s with
           | [] => None
           | t :: rest => Some (t, set_clock rest s)
           end.

(** [serial.readString()]: what is available now, nothing once the channel
    has gone silent. *)
Definition serial_readString : M string :=
  fun s => match serialIn s with
           | [] => Some (EmptyString, s)
           | x :: rest => Some (x, set_serialIn rest s)
           end.

(** [serial.writeString(text)] *)
Definition serial_writeString (text : string) : M unit :=
  modify (fun s => set_serialOut (serialOut s ++ [text]) s).

(** [basic.pause(ms)]: the time it takes shows in the next clock reading. *)
Definition basic_pause (ms : Z) : M unit := ret tt.

(** [serial.redirect(tx, rx, baudrate)]: pin glue, no effect on the model. *)
Definition serial_redirect (tx rx baudrate : Z) : M unit := ret tt.

(** [while (cond) { body }] where the body may [return] from the enclosing
    function: [Some a] is such a return, [None] is falling out of the loop.
    Every test of the loops below reads the clock once, so one more round than
    there are readings left is always enough. *)
Fixpoint while_fuel {A} (fuel : nat) (cond : M bool) (body : M (option A))
  : M (option A) :=
  match fuel with
  | O => fun _ => None
  | S n =>
      c <- cond ;;
      if c : bool then
        r <- body ;;
        match r with
        | Some a => ret (Some a)
        | None => while_fuel n cond body
        end
      else ret None
  end.

Definition while {A} (cond : M bool) (body : M (option A)) : M (option A) :=
  fun s => while_fuel (S (List.length (clock s))) cond body s.

(** [input.runningTime() - start < timeout] *)
Definition beforeDeadline (start timeout : Z) : M bool :=
  now <- input_runningTime ;;
  ret (now - start <? timeout).

(** ** Core: command exchange and response accumulator *)

Definition error (code : Z) : M unit := ret tt.

(** One round of the polling loop of [sendCommand]. *)
Definition sendCommand_poll (expected : string) : M (option bool) :=
  chunk <- serial_readString ;;
  modify (fun s => set_rxData (rxData s ++ chunk) s) ;;
  rx <- get rxData ;;
  if 0 <=? JS.indexOf rx expected then ret (Some true)
  else if 0 <=? JS.indexOf rx "ERROR" then ret (Some false)
  else ret None.

Definition sendCommand (command : string) (expected : option string)
  (timeout : Z) : M bool :=
  modify (set_rxData EmptyString) ;;
  serial_readString ;;
  serial_writeString (command ++ JS.CRLF) ;;
  match expected with
  | None => ret true
  | Some expected =>
      start <- input_runningTime ;;
      r <- while (beforeDeadline start timeout) (sendCommand_poll expected) ;;
      match r with
      | Some b => ret b
      | None => ret false
      end
  end.

(** One round of the polling loop of [getResponse]. *)
Definition getResponse_poll (expected : string) : M (option string) :=
  chunk <- serial_readString ;;
  modify (fun s => set_rxData (rxData s ++ chunk) s) ;;
  rx <- get rxData ;;
  if negb (expected =? EmptyString)%string && (0 <=? JS.indexOf rx expected)
  then ret (Some rx)
  else basic_pause 50 ;; ret None.

Definition getResponse (expected : string) (timeout : Z) : M string :=
  modify (set_rxData EmptyString) ;;
  start <- input_runningTime ;;
  r <- while (beforeDeadline start timeout) (getResponse_poll expected) ;;
  match r with
  | Some rx => ret rx
  | None => get rxData
  end.

Definition isWifiConnected : M bool := get wifiConnected.

Definition setWifiConnected (status : bool) : M unit :=
  modify (set_wifiConnected status).

(** ** Core: link and session state *)

Definition init (tx rx baudrate : Z) : M unit :=
  serial_redirect tx rx baudrate ;;
  basic_pause 100 ;;
  (* Reset ESP8266 *)
  ok <- sendCommand "AT+RST" (Some "ready") 5000 ;;
  if negb ok then error 1
  else
    (* Disable echo *)
    ok <- sendCommand "ATE0" (Some "OK") 1000 ;;
    if negb ok then error 2
    else
      (* Set to station mode *)
      ok <- sendCommand "AT+CWMODE=1" (Some "OK") 1000 ;;
      if negb ok then error 3
      else modify (set_esp8266Initialized true).

Definition connectWiFi (ssid password : string) : M bool :=
  initialized <- get esp8266Initialized ;;
  if negb initialized then ret false
  else
    modify (set_wifiConnected false) ;;
    ok <- sendCommand
            ("AT+CWJAP=" ++ JS.QUOTE ++ ssid ++ JS.QUOTE ++ ","
               ++ JS.QUOTE ++ password ++ JS.QUOTE)
            (Some "WIFI GOT IP") 20000 ;;
    if ok then modify (set_wifiConnected true) ;; ret true
    else ret false.

Definition isConnected : M bool := get wifiConnected.

Definition disconnectWiFi : M unit :=
  sendCommand "AT+CWQAP" (Some "OK") 1000 ;;
  modify (set_wifiConnected false).

(** ** http.ts *)

(** [AT+CIPSTART="<proto>","<host>",<port>] *)
Definition cipstart (proto host port : string) : string :=
  "AT+CIPSTART=" ++ JS.QUOTE ++ proto ++ JS.QUOTE ++ "," ++ JS.QUOTE ++ host
    ++ JS.QUOTE ++ "," ++ port.

(** The drain loop of the HTTP functions:
    [while (input.runningTime() - start < window)
       { rxData += serial.readString(); basic.pause(200) }] *)
Definition drain_poll : M (option unit) :=
  chunk <- serial_readString ;;
  modify (fun s => set_rxData (rxData s ++ chunk) s) ;;
  basic_pause 200 ;;
  ret None.

Definition drain (window : Z) : M unit :=
  start <- input_runningTime ;;
  while (beforeDeadline start window) drain_poll ;;
  ret tt.

Definition getRawFromServer_request (serverIp path : string) : string :=
  "GET " ++ path ++ " HTTP/1.1" ++ JS.CRLF ++
  "Host: " ++ serverIp ++ JS.CRLF ++
  "Connection: close" ++ JS.CRLF ++ JS.CRLF.

Definition getRawFromServer (serverIp ssid password path : string) : M string :=
  initialized <- get esp8266Initialized ;;
  if negb initialized then ret EmptyString
  else
    (* Connect to WiFi if not connected *)
    wifi <- isWifiConnected ;;
    connected <- (if negb wifi then connectWiFi ssid password else ret true) ;;
    if negb connected then ret EmptyString
    else
      modify (set_rxData EmptyString) ;;
      serial_readString ;;
      (* TCP Connection *)
      ok <- sendCommand (cipstart "TCP" serverIp "80") (Some "CONNECT") 8000 ;;
      if negb ok then ret EmptyString
      else
        let httpRequest := getRawFromServer_request serverIp path in
        ok <- sendCommand ("AT+CIPSEND=" ++ JS.ofZ (JS.len httpRequest + 2))
                (Some ">") 5000 ;;
        if negb ok then sendCommand "AT+CIPCLOSE" None 1000 ;; ret EmptyString
        else
          serial_writeString httpRequest ;;
          drain 8000 ;;
          sendCommand "AT+CIPCLOSE" None 1000 ;;
          get rxData.

Definition sendToServer_request (serverIp data : string) : string :=
  "GET /tes.php?" ++ data ++ " HTTP/1.1" ++ JS.CRLF ++
  "Host: " ++ serverIp ++ JS.CRLF ++
  "Connection: close" ++ JS.CRLF ++ JS.CRLF.

Definition sendToServer (serverIp ssid password data : string) : M bool :=
  initialized <- get esp8266Initialized ;;
  if negb initialized then ret false
  else
    (* Connect to WiFi if not connected *)
    wifi <- isWifiConnected ;;
    connected <- (if negb wifi then connectWiFi ssid password else ret true) ;;
    if negb connected then ret false
    else
      (* TCP Connection *)
      ok <- sendCommand (cipstart "TCP" serverIp "80") (Some "CONNECT") 8000 ;;
      if negb ok then ret false
      else
        let httpRequest := sendToServer_request serverIp data in
        let len := JS.len httpRequest + 2 in
        ok <- sendCommand ("AT+CIPSEND=" ++ JS.ofZ len) (Some ">") 5000 ;;
        if negb ok then sendCommand "AT+CIPCLOSE" None 1000 ;; ret false
        else
          serial_writeString httpRequest ;;
          basic_pause 4000 ;;
          sendCommand "AT+CIPCLOSE" None 1000 ;;
          ret true.

Definition httpGet_request (serverIp path : string) : string :=
  "GET " ++ path ++ " HTTP/1.1" ++ JS.CRLF ++
  "Host: " ++ serverIp ++ JS.CRLF ++
  "Connection: close" ++ JS.CRLF ++ JS.CRLF.

Definition httpGet (serverIp path : string) : M string :=
  initialized <- get esp8266Initialized ;;
  if negb initialized then ret EmptyString
  else
    wifi <- isWifiConnected ;;
    if negb wifi then ret EmptyString
    else
      modify (set_rxData EmptyString) ;;
      serial_readString ;;
      (* TCP Connection *)
      ok <- sendCommand (cipstart "TCP" serverIp "80") (Some "CONNECT") 5000 ;;
      if negb ok then ret EmptyString
      else
        let httpRequest := httpGet_request serverIp path in
        ok <- sendCommand ("AT+CIPSEND=" ++ JS.ofZ (JS.len httpRequest))
                (Some ">") 3000 ;;
        if negb ok then sendCommand "AT+CIPCLOSE" None 1000 ;; ret EmptyString
        else
          serial_writeString httpRequest ;;
          drain 5000 ;;
          sendCommand "AT+CIPCLOSE" None 1000 ;;
          get rxData.

Definition httpPost_request (serverIp path data : string) : string :=
  "POST " ++ path ++ " HTTP/1.1" ++ JS.CRLF ++
  "Host: " ++ serverIp ++ JS.CRLF ++
  "Content-Type: application/json" ++ JS.CRLF ++
  "Content-Length: " ++ JS.ofZ (JS.len data) ++ JS.CRLF ++
  "Connection: close" ++ JS.CRLF ++ JS.CRLF ++
  data.

Definition httpPost (serverIp path data : string) : M string :=
  initialized <- get esp8266Initialized ;;
  if negb initialized then ret EmptyString
  else
    wifi <- isWifiConnected ;;
    if negb wifi then ret EmptyString
    else
      modify (set_rxData EmptyString) ;;
      serial_readString ;;
      (* TCP Connection *)
      ok <- sendCommand (cipstart "TCP" serverIp "80") (Some "CONNECT") 5000 ;;
      if negb ok then ret EmptyString
      else
        let httpRequest := httpPost_request serverIp path data in
        ok <- sendCommand ("AT+CIPSEND=" ++ JS.ofZ (JS.len httpRequest))
                (Some ">") 3000 ;;
        if negb ok then sendCommand "AT+CIPCLOSE" None 1000 ;; ret EmptyString
        else
          serial_writeString httpRequest ;;
          drain 5000 ;;
          sendCommand "AT+CIPCLOSE" None 1000 ;;
          get rxData.

(** ** firebase.ts: helpers *)

Definition extractHost (url : string) : string :=
  let host := url in
  let host := if 0 <=? JS.indexOf host "https://" then JS.substrFrom host 8 else host in
  let host := if 0 <=? JS.indexOf host "http://" then JS.substrFrom host 7 else host in
  let host :=
    if (JS.charAt host (JS.len host - 1) =? "/")%string
    then JS.substr host 0 (JS.len host - 1) else host in
  host.

Definition cleanPath (path : string) : string :=
  if (JS.charAt path 0 =? "/")%string then JS.substrFrom path 1 else path.

(** The host language's [number].  At run time it is a binary64 float; exact
    rationals are the second instance, for reasoning without rounding. *)
Class Number (num : Type) := {
  fromZ : Z -> num;          (* an integer literal or a digit *)
  nadd : num -> num -> num;
  nmul : num -> num -> num;
  ndiv : num -> num -> num;
  nneg : num -> num;
  pow10 : Z -> num           (* Math.pow(10, k) *)
}.

#[export] Instance Number_Q : Number Q := {
  fromZ := inject_Z;
  nadd := Qplus;
  nmul := Qmult;
  ndiv := Qdiv;
  nneg := Qopp;
  pow10 := fun k => Qpower (inject_Z 10) k
}.

(** Powers of ten by repeated product.  The product is exact, and so equal to
    [Math.pow(10, k)], for [k <= 22]; beyond that it drifts from the library
    function (from [k = 25] on), and nothing below evaluates it there: the
    parser reaches [k] only on the [k]-th digit after a decimal point. *)
Fixpoint pow10_float (k : nat) : float :=
  match k with
  | O => 1%float
  | S k' => PrimFloat.mul 10%float (pow10_float k')
  end.

#[export] Instance Number_float : Number float := {
  fromZ := fun z => PrimFloat.of_uint63 (Uint63.of_Z z);
  nadd := PrimFloat.add;
  nmul := PrimFloat.mul;
  ndiv := PrimFloat.div;
  nneg := PrimFloat.opp;
  pow10 := fun k => pow10_float (Z.to_nat k)
}.

Section Parser.

Context {num : Type} `{Number num}.

(** The locals of [parseStringToNumber]. *)
Record ParseState := mkParse {
  result : num;
  isNegative : bool;
  hasDecimal : bool;
  decimalPlace : Z
}.

Definition isDigit (char : ascii) : bool :=
  (Ascii.leb "0" char && Ascii.leb char "9")%char.

(** One round of the [for] loop, at index [i] on character [char]. *)
Definition parseStep (i : Z) (char : ascii) (st : ParseState) : ParseState :=
  if (Ascii.eqb char "-" && (i =? 0))%bool then
    mkParse (result st) true (hasDecimal st) (decimalPlace st)
  else if Ascii.eqb char "." then
    mkParse (result st) (isNegative st) true (decimalPlace st)
  else if isDigit char then
    let digit := Z.of_nat (nat_of_ascii char) - 48 in
    if hasDecimal st then
      let decimalPlace' := decimalPlace st + 1 in
      mkParse (nadd (result st) (ndiv (fromZ digit) (pow10 decimalPlace')))
        (isNegative st) (hasDecimal st) decimalPlace'
    else
      mkParse (nadd (nmul (result st) (fromZ 10)) (fromZ digit))
        (isNegative st) (hasDecimal st) (decimalPlace st)
  else st.

Fixpoint parseLoop (valueStr : string) (i : Z) (st : ParseState) : ParseState :=
  match valueStr with
  | EmptyString => st
  | String char rest => parseLoop rest (i + 1) (parseStep i char st)
  end.

Definition parseStringToNumber (valueStr : string) : num :=
  let st := parseLoop valueStr 0 (mkParse (fromZ 0) false false 0) in
  if isNegative st then nneg (result st) else result st.

End Parser.

Arguments ParseState num : clear implicits.

(** ** firebase.ts: read path *)

Definition CRLFCRLF : string := JS.CRLF ++ JS.CRLF.

Definition isNumericChar (char : ascii) : bool :=
  isDigit char || Ascii.eqb char "." || Ascii.eqb char "-".

(** The clean-up loop at the end of [readFirebaseString], over the characters
    of [body] still to visit. *)
Fixpoint cleanBodyLoop (body cleanBody : string) : string :=
  match body with
  | EmptyString => cleanBody
  | String char rest =>
      if isNumericChar char then cleanBodyLoop rest (cleanBody ++ String char EmptyString)
      else if 0 <? JS.len cleanBody then cleanBody
      else cleanBodyLoop rest cleanBody
  end.

(** [readFirebaseString] from "Parse response" on: the value read off the
    drained [response]. *)
Definition readFirebaseString_parse (response : string) : string :=
  if JS.indexOf response "200 OK" <? 0 then EmptyString
  else
    (* Find JSON body (after double CRLF) *)
    let bodyStart := JS.indexOf response CRLFCRLF in
    if bodyStart <? 0 then EmptyString
    else
      let body := JS.substrFrom response (bodyStart + 4) in
      (* Remove "null" responses *)
      if 0 <=? JS.indexOf body "null" then EmptyString
      else
        let endQuote := JS.indexOfFrom body JS.QUOTE 1 in
        (* Extract string value (remove quotes) *)
        if (JS.charAt body 0 =? JS.QUOTE)%string && (0 <? endQuote)
        then JS.substr body 1 (endQuote - 1)
        else
          (* Return as-is for numbers (clean up) *)
          cleanBodyLoop body EmptyString.

Definition readFirebaseString_request (fullPath host apiKey : string) : string :=
  let requestPath := "/" ++ fullPath ++ ".json?auth=" ++ apiKey in
  "GET " ++ requestPath ++ " HTTP/1.1" ++ JS.CRLF ++
  "Host: " ++ host ++ JS.CRLF ++
  "Connection: close" ++ JS.CRLF ++
  JS.CRLF.

(** [readFirebaseString] up to "Close connection": the drained response, or
    [None] when the call gives up before it has one. *)
Definition readFirebaseString_exchange (deviceName : string) : M (option string) :=
  (* Validate WiFi connection *)
  wifi <- isWifiConnected ;;
  if negb wifi then ret None
  else
    (* Validate Firebase configuration *)
    url <- get firebaseDatabaseURL ;;
    key <- get firebaseApiKey ;;
    if (url =? EmptyString)%string || (key =? EmptyString)%string then ret None
    else
      (* Build full path to /value field *)
      base <- get firebasePath ;;
      let fullPath := cleanPath (base ++ "/" ++ deviceName ++ "/value") in
      let host := extractHost url in
      (* Connect to Firebase via SSL *)
      ok <- sendCommand (cipstart "SSL" host "443") (Some "OK") 5000 ;;
      if negb ok then ret None
      else
        (* Build GET request *)
        key <- get firebaseApiKey ;;
        let httpRequest := readFirebaseString_request fullPath host key in
        (* Send request *)
        ok <- sendCommand ("AT+CIPSEND=" ++ JS.ofZ (JS.len httpRequest))
                (Some "OK") 2000 ;;
        if negb ok then sendCommand "AT+CIPCLOSE" (Some "OK") 1000 ;; ret None
        else
          serial_writeString httpRequest ;;
          basic_pause 100 ;;
          (* Wait for response (longer timeout for HTTPS) *)
          response <- getResponse EmptyString 3000 ;;
          (* Close connection *)
          sendCommand "AT+CIPCLOSE" (Some "OK") 500 ;;
          ret (Some response).

Definition readFirebaseString (deviceName : string) : M string :=
  r <- readFirebaseString_exchange deviceName ;;
  match r with
  | None => ret EmptyString
  | Some response => ret (readFirebaseString_parse response)
  end.

Definition readFirebaseNumber {num} `{Number num} (deviceName : string) : M num :=
  valueStr <- readFirebaseString deviceName ;;
  if (valueStr =? EmptyString)%string then ret (fromZ 0)
  else ret (parseStringToNumber valueStr).

Definition readFirebaseBoolean (deviceName : string) : M bool :=
  value <- readFirebaseString deviceName ;;
  ret ((value =? "1")%string || (value =? "true")%string || (value =? "TRUE")%string).

(** ** firebase.ts: write and delete paths *)

Definition sendFirebaseData_request (path host apiKey jsonData : string) : string :=
  let requestPath := "/" ++ path ++ ".json?auth=" ++ apiKey in
  "PATCH " ++ requestPath ++ " HTTP/1.1" ++ JS.CRLF ++
  "Host: " ++ host ++ JS.CRLF ++
  "Content-Type: application/json" ++ JS.CRLF ++
  "Content-Length: " ++ JS.ofZ (JS.len jsonData) ++ JS.CRLF ++
  "Connection: close" ++ JS.CRLF ++
  JS.CRLF ++
  jsonData.

Definition sendFirebaseData (path jsonData : string) : M unit :=
  modify (set_firebaseDataSent false) ;;
  (* Validate WiFi connection *)
  wifi <- isWifiConnected ;;
  if negb wifi then ret tt
  else
    (* Validate Firebase configuration *)
    url <- get firebaseDatabaseURL ;;
    key <- get firebaseApiKey ;;
    if (url =? EmptyString)%string || (key =? EmptyString)%string then ret tt
    else
      (* Clean path and extract host *)
      let path := cleanPath path in
      let host := extractHost url in
      (* Connect to Firebase *)
      ok <- sendCommand (cipstart "SSL" host "443") (Some "OK") 3000 ;;
      if negb ok then ret tt
      else
        (* Build PATCH request (updates without overwriting) *)
        key <- get firebaseApiKey ;;
        let httpRequest := sendFirebaseData_request path host key jsonData in
        (* Send request *)
        ok <- sendCommand ("AT+CIPSEND=" ++ JS.ofZ (JS.len httpRequest))
                (Some "OK") 1000 ;;
        if negb ok then sendCommand "AT+CIPCLOSE" (Some "OK") 1000 ;; ret tt
        else
          sendCommand httpRequest None 100 ;;
          (* Wait for SEND OK *)
          ack <- getResponse "SEND OK" 1500 ;;
          if (ack =? EmptyString)%string
          then sendCommand "AT+CIPCLOSE" (Some "OK") 500 ;; ret tt
          else
            (* Check response status *)
            response <- getResponse EmptyString 1500 ;;
            (* Check if response contains 200 OK *)
            (if negb (response =? EmptyString)%string
                && (0 <=? JS.indexOf response "200")
             then modify (set_firebaseDataSent true) else ret tt) ;;
            (* Close connection *)
            sendCommand "AT+CIPCLOSE" (Some "OK") 500 ;;
            ret tt.

Definition isFirebaseDataSent : M bool := get firebaseDataSent.

Definition firebaseDelete_request (fullPath host apiKey : string) : string :=
  let requestPath := "/" ++ fullPath ++ ".json?auth=" ++ apiKey in
  "DELETE " ++ requestPath ++ " HTTP/1.1" ++ JS.CRLF ++
  "Host: " ++ host ++ JS.CRLF ++
  "Connection: close" ++ JS.CRLF ++
  JS.CRLF.

Definition firebaseDelete (deviceName : string) : M unit :=
  (* Validate WiFi connection *)
  wifi <- isWifiConnected ;;
  if negb wifi then ret tt
  else
    (* Validate Firebase configuration *)
    url <- get firebaseDatabaseURL ;;
    key <- get firebaseApiKey ;;
    if (url =? EmptyString)%string || (key =? EmptyString)%string then ret tt
    else
      base <- get firebasePath ;;
      let fullPath := cleanPath (base ++ "/" ++ deviceName) in
      let host := extractHost url in
      (* Connect to Firebase *)
      ok <- sendCommand (cipstart "SSL" host "443") (Some "OK") 3000 ;;
      if negb ok then ret tt
      else
        (* Build DELETE request *)
        key <- get firebaseApiKey ;;
        let httpRequest := firebaseDelete_request fullPath host key in
        (* Send request *)
        ok <- sendCommand ("AT+CIPSEND=" ++ JS.ofZ (JS.len httpRequest))
                (Some "OK") 1000 ;;
        if negb ok then sendCommand "AT+CIPCLOSE" (Some "OK") 1000 ;; ret tt
        else
          serial_writeString httpRequest ;;
          basic_pause 500 ;;
          (* Close connection *)
          sendCommand "AT+CIPCLOSE" (Some "OK") 500 ;;
          ret tt.

(** ** Specification vocabulary *)

(** [occurs sub s]: [sub] is a prefix of some suffix of [s]. *)
Fixpoint occurs (sub s : string) : bool :=
  String.prefix sub s ||
  match s with
  | EmptyString => false
  | String _ s' => occurs sub s'
  end.

(** The receive buffer after poll number [k] (from 0) of an exchange whose
    polls read [chunks]: everything read so far. *)
Definition snapshot (chunks : list string) (k : nat) : string :=
  fold_right String.append EmptyString (firstn (S k) chunks).

(** Polls [0 .. k] all start before the deadline: [ticks] are the clock
    readings after the one that gave [start]. *)
Definition polled (start timeout : Z) (ticks : list Z) (k : nat) : Prop :=
  forall j, (j <= k)%nat -> exists t, nth_error ticks j = Some t /\ t - start < timeout.

(** The state in which [sendCommand] starts to wait: buffer cleared, stale
    input discarded, command written. *)
Definition commandSent (command : string) (s : State) : State :=
  set_serialOut (serialOut s ++ [command ++ JS.CRLF])
    (set_serialIn (tl (serialIn s)) (set_rxData EmptyString s)).

(** How a poll sequence ends, in terms of the successive buffer snapshots
    [snap 0], [snap 1], ...: the marker [e] is seen at poll [k] and no earlier
    snapshot held ["ERROR"]; ["ERROR"] is in the buffer at poll [k] while [e]
    is not; the deadline passes at clock reading [n] with neither seen. *)
Definition matchedAt (e : string) (start timeout : Z) (ticks : list Z)
  (snap : nat -> string) (k : nat) : Prop :=
  polled start timeout ticks k /\
  contains (snap k) e = true /\
  forall j, (j < k)%nat -> contains (snap j) "ERROR" = false.

Definition erroredAt (e : string) (start timeout : Z) (ticks : list Z)
  (snap : nat -> string) (k : nat) : Prop :=
  polled start timeout ticks k /\
  contains (snap k) "ERROR" = true /\
  contains (snap k) e = false.

Definition timedOutAt (e : string) (start timeout : Z) (ticks : list Z)
  (snap : nat -> string) (n : nat) : Prop :=
  (forall j, (j < n)%nat -> exists t, nth_error ticks j = Some t /\ t - start < timeout) /\
  (exists t, nth_error ticks n = Some t /\ timeout <= t - start) /\
  forall j, (j < n)%nat ->
    contains (snap j) e = false /\ contains (snap j) "ERROR" = false.

(** The state after one poll has read the clock and the channel. *)
Definition pollState (ticks : list Z) (s : State) : State :=
  set_rxData (rxData s ++ hd EmptyString (serialIn s))
    (set_serialIn (tl (serialIn s)) (set_clock ticks s)).

(** [s'] differs from [s] at most in the receive buffer and in how far the
    clock and the input of the channel have been read: the program variables
    other than [rxData], and the output log, are those of [s]. *)
Definition sameButChannel (s s' : State) : Prop :=
  esp8266Initialized s' = esp8266Initialized s /\
  wifiConnected s' = wifiConnected s /\
  firebaseApiKey s' = firebaseApiKey s /\
  firebaseDatabaseURL s' = firebaseDatabaseURL s /\
  firebaseProjectId s' = firebaseProjectId s /\
  firebasePath s' = firebasePath s /\
  firebaseDataSent s' = firebaseDataSent s /\
  serialOut s' = serialOut s.

(** [serial.writeString(text)] as a state change. *)
Definition written (text : string) (s : State) : State :=
  set_serialOut (serialOut s ++ [text]) s.

(** The state a run ends in ([s] itself when the clock trace is too short). *)
Definition after {A} (m : M A) (s : State) : State :=
  match m s with
  | Some (_, s') => s'
  | None => s
  end.

(** A configured, connected module with a silent channel and no clock
    readings; the examples below supply both. *)
Definition idle : State :=
  mkState true EmptyString true "KEY" "https://p.firebaseio.com/" "p" "iot"
    false [] [] [].

Definition run (ticks : list Z) (chunks : list string) (s : State) : State :=
  set_clock ticks (set_serialIn chunks s).

(** A module that was brought up before and now stays silent after the reset
    command until the deadline has passed. *)
Definition silentReset : State := run [0; 5000] [] idle.

(** A module that answers every bring-up command at once. *)
Definition promptReset : State :=
  run [0; 1; 2; 3; 4; 5] [""; "ready"; ""; "OK"; ""; "OK"]
    (set_esp8266Initialized false idle).

(** A command as [sendCommand] writes it: terminated by CR-LF. *)
Definition line (command : string) : string := command ++ JS.CRLF.

(** A module that is powered for the first time and stays silent. *)
Definition silentBoot : State :=
  run [0; 5000] [] (set_esp8266Initialized false idle).

(** The call wrote the session-open command [open] and, as the last thing
    before it returned, the close command. *)
Definition closesSession (open : string) (s s' : State) : Prop :=
  exists mid : list string,
    serialOut s' = (serialOut s ++ [line open] ++ mid ++ [line "AT+CIPCLOSE"])%list.

(** A read of [iot/temp/value] that is answered with [response]: both
    commands are acknowledged at once, the response arrives in one piece, and
    the next clock reading is past the 3000 ms window. *)
Definition readRun (response : string) : State :=
  run [0; 1; 2; 3; 4; 5; 4000; 4001; 4002]
    [""; "OK"; ""; "OK"; response; ""; "OK"] idle.

Definition response200 (body : string) : string :=
  "HTTP/1.1 200 OK" ++ CRLFCRLF ++ body.

(** A write during which the module never says [SEND OK]: it reports that it
    is busy while the code waits for the acknowledgement, and the HTTP status
    line arrives during the second wait. *)
Definition ackMissing : State :=
  run [0; 1; 2; 3; 4; 5; 2000; 2001; 2002; 4000; 4001; 4002]
    [""; "OK"; ""; "OK"; ""; "busy s..."; "HTTP/1.1 200 OK"; ""; "OK"] idle.

(** A plain HTTP exchange: connect and prompt are answered at once. *)
Definition httpRun : State :=
  run [0; 1; 2; 3; 4; 5; 9000] [""; ""; "CONNECT"; ""; ">"; "HTTP/1.1 200 OK"] idle.

Definition sendRun : State :=
  run [0; 1; 2; 3] [""; "CONNECT"; ""; ">"] idle.

(** *** Vocabulary for the value read off a response *)

(** The first line of a response: the text before the first CR-LF. *)
Definition statusLine (response : string) : string :=
  let eol := JS.indexOf response JS.CRLF in
  if eol <? 0 then response else JS.substr response 0 eol.

(** The text after the first CRLF-CRLF separator. *)
Definition bodyOf (response : string) : string :=
  JS.substrFrom response (JS.indexOf response CRLFCRLF + 4).

Fixpoint takeWhile (p : ascii -> bool) (s : string) : string :=
  match s with
  | EmptyString => EmptyString
  | String c rest => if p c then String c (takeWhile p rest) else EmptyString
  end.

Fixpoint dropWhile (p : ascii -> bool) (s : string) : string :=
  match s with
  | EmptyString => EmptyString
  | String c rest => if p c then dropWhile p rest else s
  end.

Definition quoteChar : ascii := "034"%char.

Definition notQuote (c : ascii) : bool := negb (Ascii.eqb c quoteChar).

(** The first maximal run of digits, dots and minus signs of [body]. *)
Definition numericRun (body : string) : string :=
  takeWhile isNumericChar (dropWhile (fun c => negb (isNumericChar c)) body).

(** [body] starts with a quote and has another one after it. *)
Definition quoted (body : string) : bool :=
  match body with
  | EmptyString => false
  | String c rest => Ascii.eqb c quoteChar && occurs JS.QUOTE rest
  end.

(** The text after the first character of [body] up to the next quote. *)
Definition betweenQuotes (body : string) : string :=
  match body with
  | EmptyString => EmptyString
  | String _ rest => takeWhile notQuote rest
  end.

(** What [readFirebaseString] makes of the body of a 200 response. *)
Definition valueOf (body : string) : string :=
  if contains body "null" then EmptyString
  else if quoted body then betweenQuotes body
  else numericRun body.

(** The scan as the specification words it: an optional leading minus, then digits
    and dots, up to the first other character. *)
Definition statedScan (body : string) : string :=
  let digits := takeWhile (fun c => isDigit c || Ascii.eqb c ".") in
  match body with
  | String "-" rest => String "-" (digits rest)
  | _ => digits body
  end.

(** The value as the specification words it. *)
Definition statedValue (body : string) : string :=
  if (body =? "null")%string then EmptyString
  else match body with
       | String c rest =>
           if Ascii.eqb c quoteChar then takeWhile notQuote rest
           else statedScan body
       | EmptyString => EmptyString
       end.

(** A 404 response whose body happens to read ["200 OK"]. *)
Definition response404 : string :=
  "HTTP/1.1 404 Not Found" ++ CRLFCRLF ++ JS.QUOTE ++ "200 OK" ++ JS.QUOTE.

(** A 200 response whose body is the JSON string ["null"], quotes included. *)
Definition responseNullString : string :=
  response200 (JS.QUOTE ++ "null" ++ JS.QUOTE).

(** *** Vocabulary for host extraction *)

(** The test [extractHost] makes: the last character is a slash. *)
Definition endsWithSlash (s : string) : bool :=
  (JS.charAt s (JS.len s - 1) =? "/")%string.

(** The last character of [String c s]. *)
Fixpoint lastOr (c : ascii) (s : string) : ascii :=
  match s with
  | EmptyString => c
  | String d rest => lastOr d rest
  end.

(** A bare host: no scheme marker inside and no slash at the end. *)
Definition bareHost (h : string) : Prop :=
  contains h "https://" = false /\
  contains h "http://" = false /\
  endsWithSlash h = false.

(** A URL of the expected shape: at most one scheme in front of a bare host
    and at most one slash behind it. *)
Inductive wellFormedURL (h : string) : string -> Prop :=
| WellFormed (scheme slash : string) :
    bareHost h ->
    scheme = EmptyString \/ scheme = "http://" \/ scheme = "https://" ->
    slash = EmptyString \/ slash = "/" ->
    wellFormedURL h (scheme ++ h ++ slash).

(** *** A clock that keeps ticking *)

(** The clock readings still to come rise strictly, and there are at least
    [n] of them. *)
Definition ticking (n : nat) (s : State) : Prop :=
  StronglySorted Z.lt (clock s) /\ (n <= List.length (clock s))%nat.

(** Clock readings that suffice for one wait of [timeout] milliseconds. *)
Definition budget (timeout : Z) : nat := S (S (Z.to_nat timeout)).

(** ** firebase.ts: configuration, body locator and typed wrappers *)

Definition set_firebaseApiKey (v : string) (s : State) : State :=
  mkState (esp8266Initialized s) (rxData s) (wifiConnected s) v
    (firebaseDatabaseURL s) (firebaseProjectId s) (firebasePath s)
    (firebaseDataSent s) (clock s) (serialIn s) (serialOut s).

Definition set_firebaseDatabaseURL (v : string) (s : State) : State :=
  mkState (esp8266Initialized s) (rxData s) (wifiConnected s) (firebaseApiKey s)
    v (firebaseProjectId s) (firebasePath s)
    (firebaseDataSent s) (clock s) (serialIn s) (serialOut s).

Definition set_firebaseProjectId (v : string) (s : State) : State :=
  mkState (esp8266Initialized s) (rxData s) (wifiConnected s) (firebaseApiKey s)
    (firebaseDatabaseURL s) v (firebasePath s)
    (firebaseDataSent s) (clock s) (serialIn s) (serialOut s).

Definition set_firebasePath (v : string) (s : State) : State :=
  mkState (esp8266Initialized s) (rxData s) (wifiConnected s) (firebaseApiKey s)
    (firebaseDatabaseURL s) (firebaseProjectId s) v
    (firebaseDataSent s) (clock s) (serialIn s) (serialOut s).

Definition extractJsonFromResponse (response : string) : string :=
  (* Find body after headers (double CRLF) *)
  let bodyStart := JS.indexOf response CRLFCRLF in
  if 0 <=? bodyStart then
    let body := JS.substrFrom response (bodyStart + 4) in
    (* Find JSON start *)
    let jsonStart := JS.indexOf body "{" in
    if 0 <=? jsonStart then JS.substrFrom body jsonStart
    else
      (* Or return direct value (for simple reads) *)
      body
  else
    (* Fallback: find +IPD marker (old method) *)
    let ipdIndex := JS.indexOf response "+IPD" in
    if 0 <=? ipdIndex then
      let colonIndex := JS.indexOfFrom response ":" ipdIndex in
      if 0 <=? colonIndex then
        let httpData := JS.substrFrom response (colonIndex + 1) in
        let bodyStart := JS.indexOf httpData CRLFCRLF in
        let httpData :=
          if 0 <=? bodyStart then JS.substrFrom httpData (bodyStart + 4)
          else httpData in
        let jsonStart := JS.indexOf httpData "{" in
        if 0 <=? jsonStart then JS.substrFrom httpData jsonStart
        else httpData
      else EmptyString
    else EmptyString.

Definition configureFirebase (apiKey databaseURL projectId : string) : M unit :=
  modify (set_firebaseApiKey apiKey) ;;
  modify (set_firebaseDatabaseURL databaseURL) ;;
  modify (set_firebaseProjectId projectId).

Definition setFirebasePath (path : string) : M unit :=
  modify (set_firebasePath path).

(** The project id [quickFirebaseSetup] reads off the URL. *)
Definition quickFirebaseSetup_projectId (url : string) : string :=
  let hostStart := JS.indexOf url "://" in
  if 0 <=? hostStart then
    let host := JS.substrFrom url (hostStart + 3) in
    let dotIndex := JS.indexOf host "." in
    if 0 <? dotIndex then JS.substr host 0 dotIndex else EmptyString
  else EmptyString.

Definition quickFirebaseSetup (url apiKey : string) : M unit :=
  let projectId := quickFirebaseSetup_projectId url in
  configureFirebase apiKey url projectId ;;
  setFirebasePath "iot".

Definition readFirebaseValue {num} `{Number num} (deviceName : string) : M num :=
  readFirebaseNumber deviceName.

Definition firebaseIsOn (deviceName : string) : M bool :=
  readFirebaseBoolean deviceName.

Definition firebaseIsOff (deviceName : string) : M bool :=
  on <- readFirebaseBoolean deviceName ;;
  ret (negb on).

Definition firebaseGetDimmer {num} `{Number num} (deviceName : string) : M num :=
  readFirebaseNumber deviceName.

Definition firebaseWriteString_json (deviceName value : string) : string :=
  "{" ++ JS.QUOTE ++ deviceName ++ JS.QUOTE ++ ":{" ++ JS.QUOTE ++ "value"
    ++ JS.QUOTE ++ ":" ++ JS.QUOTE ++ value ++ JS.QUOTE ++ "}}".

Definition firebaseWriteString (deviceName value : string) : M unit :=
  base <- get firebasePath ;;
  sendFirebaseData base (firebaseWriteString_json deviceName value).

Definition firebaseWriteBoolean_json (deviceName : string) (value : bool) : string :=
  let val := if value then 1 else 0 in
  "{" ++ JS.QUOTE ++ deviceName ++ JS.QUOTE ++ ":{" ++ JS.QUOTE ++ "value"
    ++ JS.QUOTE ++ ":" ++ JS.ofZ val ++ "}}".

Definition firebaseWriteBoolean (deviceName : string) (value : bool) : M unit :=
  base <- get firebasePath ;;
  sendFirebaseData base (firebaseWriteBoolean_json deviceName value).

Definition firebaseSendJSON (jsonData : string) : M unit :=
  base <- get firebasePath ;;
  sendFirebaseData base jsonData.

(** ** Further specification vocabulary *)

(** The receive buffer of [getResponse] after [n] polls: the first [n]
    chunks read, in order. *)
Definition drained (chunks : list string) (n : nat) : string :=
  fold_right String.append EmptyString (firstn n chunks).

(** [getResponse] sees the marker [e] at poll [k] (from 0), and at none
    before: [buf n] is the buffer after [n] polls. *)
Definition foundAt (e : string) (start timeout : Z) (ticks : list Z)
  (buf : nat -> string) (k : nat) : Prop :=
  polled start timeout ticks k /\
  e <> EmptyString /\
  contains (buf (S k)) e = true /\
  forall j, (j < k)%nat -> contains (buf (S j)) e = false.

(** The deadline of [getResponse] passes at clock reading [n], after [n]
    polls none of which saw the marker (no marker is looked for when [e] is
    empty). *)
Definition expiredAt (e : string) (start timeout : Z) (ticks : list Z)
  (buf : nat -> string) (n : nat) : Prop :=
  (forall j, (j < n)%nat -> exists t, nth_error ticks j = Some t /\ t - start < timeout) /\
  (exists t, nth_error ticks n = Some t /\ timeout <= t - start) /\
  (e = EmptyString \/ forall j, (j < n)%nat -> contains (buf (S j)) e = false).

(** What [readFirebaseBoolean] makes of the string read. *)
Definition isTrueText (value : string) : bool :=
  (value =? "1")%string || (value =? "true")%string || (value =? "TRUE")%string.

(** A clock that reads [from], [from + 1], ... for [n] readings. *)
Definition countingClock (from : Z) (n : nat) : list Z :=
  List.map (fun k => from + Z.of_nat k) (seq 0 n).

(** The [AT+CWJAP] command of [connectWiFi]. *)
Definition cwjap (ssid password : string) : string :=
  "AT+CWJAP=" ++ JS.QUOTE ++ ssid ++ JS.QUOTE ++ ","
    ++ JS.QUOTE ++ password ++ JS.QUOTE.

(** Every character of [s] satisfies [p]. *)
Fixpoint allChars (p : ascii -> bool) (s : string) : bool :=
  match s with
  | EmptyString => true
  | String c rest => p c && allChars p rest
  end.

(** A module that answers the join request at once. *)
Definition joinRun : State :=
  run [0; 1] [""; "WIFI CONNECTED WIFI GOT IP"] (set_wifiConnected false idle).

(** A module that refuses the join request, while the flag is still set from
    an earlier association. *)
Definition joinRefused : State := run [0; 1] [""; "+CWJAP:3 FAIL ERROR"] idle.

(** A silent channel and a clock that counts five readings. *)
Definition silentTicking : State := run (countingClock 0 5) [] idle.

(** A silent channel and a clock with enough readings for the 1000 ms wait of
    [disconnectWiFi]. *)
Definition silentSecond : State := run (countingClock 0 (budget 1000)) [] idle.

(** The module holds its Firebase configuration and is associated. *)
Definition restReady (s : State) : Prop :=
  wifiConnected s = true /\
  firebaseDatabaseURL s <> EmptyString /\
  firebaseApiKey s <> EmptyString.

(** The session-open command of the REST calls. *)
Definition restOpen (s : State) : string :=
  line (cipstart "SSL" (extractHost (firebaseDatabaseURL s)) "443").

(** A module that accepts a write and answers it in full. *)
Definition writeRun : State :=
  run [0; 1; 2; 3; 4; 5; 6; 7; 2000; 2001; 2002]
    [""; "OK"; ""; "OK"; ""; "SEND OK"; "HTTP/1.1 200 OK"; ""; "OK"] idle.

(** An associated module without a database URL. *)
Definition unconfigured : State := set_firebaseDatabaseURL EmptyString idle.

(** The state of the parser over the rationals while it reads the integer part:
    no dot seen yet, and [acc] read so far. *)
Definition readingInteger (st : ParseState Q) (neg : bool) (acc : nat) : Prop :=
  (result st == inject_Z (Z.of_nat acc))%Q /\
  isNegative st = neg /\ hasDecimal st = false /\ decimalPlace st = 0.

(** While the fraction is read: [k] digits seen after the dot, worth [acc]
    units of [10^-k], on top of the integer part [base]. *)
Definition readingFraction (st : ParseState Q) (neg : bool) (base : Q)
  (acc k : nat) : Prop :=
  (result st == base + inject_Z (Z.of_nat acc) / inject_Z (10 ^ Z.of_nat k))%Q /\
  isNegative st = neg /\ hasDecimal st = true /\ decimalPlace st = Z.of_nat k.

(** A character that UTF-8 encodes as one byte. *)
Definition isAscii (c : ascii) : bool := (nat_of_ascii c <? 128)%nat.

(** The number of bytes [serial.writeString] puts on the channel for [text]. *)
Fixpoint wireLength (text : string) : Z :=
  match text with
  | EmptyString => 0
  | String c rest => (if isAscii c then 1 else 2) + wireLength rest
  end.

(** The [n] readings of a clock that is read once a millisecond from time
    [from] on. *)
Fixpoint millisecondClock (from : Z) (n : nat) : list Z :=
  match n with
  | O => []
  | S n' => from :: millisecondClock (from + 1) n'
  end.

(** A configured, connected module whose clock is read once a millisecond, for
    longer than any one call waits, and whose channel delivers [chunks] and
    then stays silent. *)
Definition answered (chunks : list string) : State :=
  run (millisecondClock 0 (Z.to_nat 14000)) chunks idle.

(** The exchange [m], started in [s], comes back with true. *)
Definition succeeds (m : M bool) (s : State) : Prop :=
  option_map fst (m s) = Some true.

(** * Properties *)

(** ** Strings *)

Lemma append_empty_r (s : string) : s ++ EmptyString = s.
Proof. induction s; simpl; congruence. Qed.

Lemma append_assoc (a b c : string) : (a ++ b) ++ c = a ++ (b ++ c).
Proof. induction a; simpl; congruence. Qed.

Lemma prefix_app (p a b : string) :
  String.prefix p a = true -> String.prefix p (a ++ b) = true.
Proof.
  revert a; induction p as [|c p IH]; intros a Hp.
  - destruct (a ++ b); reflexivity.
  - destruct a as [|d a]; simpl in *; [discriminate|].
    destruct (ascii_dec c d); [auto | discriminate].
Qed.

Lemma indexOfAt_occurs (sub s : string) (i : Z) :
  0 <= i -> (0 <=? JS.indexOfAt sub s i) = occurs sub s.
Proof.
  revert i; induction s as [|c s IH]; intros i Hi;
    cbn [JS.indexOfAt occurs].
  - destruct (String.prefix sub EmptyString); simpl; [apply Z.leb_le; lia | reflexivity].
  - destruct (String.prefix sub (String c s)); simpl.
    + apply Z.leb_le; lia.
    + apply IH; lia.
Qed.

Lemma contains_occurs (s sub : string) : contains s sub = occurs sub s.
Proof. apply indexOfAt_occurs; lia. Qed.

Lemma occurs_app_l (sub a b : string) :
  occurs sub a = true -> occurs sub (a ++ b) = true.
Proof.
  induction a as [|c a IH]; intros H.
  - cbn [occurs] in H. rewrite orb_false_r in H.
    destruct sub; [|discriminate]. destruct b; reflexivity.
  - cbn [occurs] in H. apply orb_true_iff in H.
    change (String c a ++ b) with (String c (a ++ b)). cbn [occurs].
    destruct H as [H|H].
    + change (String c (a ++ b)) with (String c a ++ b).
      rewrite (prefix_app _ _ _ H). reflexivity.
    + rewrite (IH H). apply orb_true_r.
Qed.

Lemma contains_app_l (a b sub : string) :
  contains a sub = true -> contains (a ++ b) sub = true.
Proof. rewrite !contains_occurs. apply occurs_app_l. Qed.

(** ** The monad *)

Lemma bind_inv {A B} (m : M A) (k : A -> M B) (s s' : State) (b : B) :
  bind m k s = Some (b, s') ->
  exists a s1, m s = Some (a, s1) /\ k a s1 = Some (b, s').
Proof.
  unfold bind. destruct (m s) as [[a s1]|]; [|discriminate].
  intros H. exists a, s1. auto.
Qed.

Lemma bind_eq {A B} (m : M A) (k : A -> M B) (s s1 : State) (a : A) :
  m s = Some (a, s1) -> bind m k s = k a s1.
Proof. unfold bind. intros ->. reflexivity. Qed.

(** ** The polling loop of [sendCommand] *)

Lemma snapshot_0 (chunks : list string) :
  snapshot chunks 0 = hd EmptyString chunks.
Proof. destruct chunks; simpl; [reflexivity | apply append_empty_r]. Qed.

Lemma snapshot_S (chunks : list string) (k : nat) :
  snapshot chunks (S k) = hd EmptyString chunks ++ snapshot (tl chunks) k.
Proof. destruct chunks; [destruct k|]; reflexivity. Qed.

Lemma sendCommand_loop_step (e : string) (start timeout : Z) (n : nat)
  (s : State) (t : Z) (ticks : list Z) :
  clock s = t :: ticks ->
  while_fuel (S n) (beforeDeadline start timeout) (sendCommand_poll e) s =
  if t - start <? timeout then
    let s1 := pollState ticks s in
    if contains (rxData s1) e then Some (Some true, s1)
    else if contains (rxData s1) "ERROR" then Some (Some false, s1)
    else while_fuel n (beforeDeadline start timeout) (sendCommand_poll e) s1
  else Some (None, set_clock ticks s).
Proof.
  intros Hc. destruct s as [i rx w k u p fp ds c si so]. simpl in Hc. subst c.
  cbn [while_fuel]. unfold bind at 1. unfold beforeDeadline at 1.
  unfold bind at 1. unfold input_runningTime at 1. cbn [clock].
  unfold ret at 1. destruct (t - start <? timeout); [|reflexivity].
  unfold bind at 1. unfold sendCommand_poll, pollState, contains.
  destruct si as [|x si]; cbn;
    destruct (0 <=? JS.indexOfAt e _ 0); try reflexivity;
    destruct (0 <=? JS.indexOfAt "ERROR" _ 0); reflexivity.
Qed.

Lemma polled_cons (start timeout t : Z) (ticks : list Z) (k : nat) :
  polled start timeout (t :: ticks) (S k) <->
  t - start < timeout /\ polled start timeout ticks k.
Proof.
  unfold polled. split.
  - intros H. split.
    + destruct (H 0%nat ltac:(lia)) as (u & Hu & Hlt). simpl in Hu.
      injection Hu as <-. exact Hlt.
    + intros j Hj. apply (H (S j)). lia.
  - intros [Ht H] [|j] Hj.
    + exists t. auto.
    + apply H. lia.
Qed.

Lemma polled_0 (start timeout t : Z) (ticks : list Z) :
  polled start timeout (t :: ticks) 0 <-> t - start < timeout.
Proof.
  unfold polled. split.
  - intros H. destruct (H 0%nat ltac:(lia)) as (u & Hu & Hlt).
    simpl in Hu. injection Hu as <-. exact Hlt.
  - intros Ht j Hj. assert (j = 0%nat) as -> by lia. exists t. auto.
Qed.

Lemma polled_first (start timeout t : Z) (ticks : list Z) (k : nat) :
  polled start timeout (t :: ticks) k -> t - start < timeout.
Proof.
  intros H. destruct (H 0%nat ltac:(lia)) as (u & Hu & Hlt).
  simpl in Hu. injection Hu as <-. exact Hlt.
Qed.

Lemma polled_nil (start timeout : Z) (k : nat) : ~ polled start timeout [] k.
Proof.
  intros H. destruct (H 0%nat ltac:(lia)) as (u & Hu & _). discriminate.
Qed.

(** The buffer snapshots seen from state [s] on. *)
Lemma pollState_snap (ticks : list Z) (s : State) (k : nat) :
  rxData (pollState ticks s) ++ snapshot (serialIn (pollState ticks s)) k =
  rxData s ++ snapshot (serialIn s) (S k).
Proof.
  unfold pollState, set_rxData, set_serialIn, set_clock; cbn [rxData serialIn].
  rewrite snapshot_S. apply append_assoc.
Qed.

Lemma pollState_rx (ticks : list Z) (s : State) :
  rxData (pollState ticks s) = rxData s ++ snapshot (serialIn s) 0.
Proof.
  unfold pollState, set_rxData, set_serialIn, set_clock; cbn [rxData serialIn].
  rewrite snapshot_0. reflexivity.
Qed.

Lemma sendCommand_loop_true (e : string) (start timeout : Z) :
  forall (ticks : list Z) (s : State),
    clock s = ticks ->
    (exists s', while_fuel (S (List.length ticks)) (beforeDeadline start timeout)
                  (sendCommand_poll e) s = Some (Some true, s')) <->
    (exists k, matchedAt e start timeout ticks
                 (fun j => rxData s ++ snapshot (serialIn s) j) k).
Proof.
  induction ticks as [|t ticks IH]; intros s Hc.
  - split.
    + intros [s' H]. cbn in H. unfold bind, beforeDeadline, bind, input_runningTime in H.
      rewrite Hc in H. discriminate.
    + intros (k & Hp & _). destruct (polled_nil _ _ _ Hp).
  - cbn [List.length]. rewrite (sendCommand_loop_step _ _ _ _ _ _ _ Hc).
    destruct (Z.ltb_spec (t - start) timeout) as [Hlt|Hge].
    + cbv zeta. rewrite pollState_rx.
      destruct (contains (rxData s ++ snapshot (serialIn s) 0) e) eqn:He.
      * split; [|eauto]. intros _. exists 0%nat. split; [|split].
        -- apply polled_0; exact Hlt.
        -- exact He.
        -- intros j Hj; lia.
      * destruct (contains (rxData s ++ snapshot (serialIn s) 0) "ERROR") eqn:Herr.
        -- split; [intros [s' H]; discriminate|].
           intros ([|k] & Hp & Hk & Hno); [congruence|].
           rewrite (Hno 0%nat ltac:(lia)) in Herr. discriminate.
        -- rewrite (IH (pollState ticks s) eq_refl). split.
           ++ intros (k & Hp & Hk & Hno). exists (S k). split; [|split].
              ** apply polled_cons; auto.
              ** rewrite <- pollState_snap with (ticks := ticks). exact Hk.
              ** intros [|j] Hj; [exact Herr|].
                 rewrite <- pollState_snap with (ticks := ticks). apply Hno. lia.
           ++ intros ([|k] & Hp & Hk & Hno); [congruence|].
              exists k. split; [|split].
              ** apply polled_cons in Hp. tauto.
              ** rewrite pollState_snap. exact Hk.
              ** intros j Hj. rewrite pollState_snap. apply Hno. lia.
    + split; [intros [s' H]; discriminate|].
      intros (k & Hp & _). apply polled_first in Hp. lia.
Qed.

Lemma snapshot_grows (chunks : list string) (k : nat) :
  exists x, snapshot chunks k = snapshot chunks 0 ++ x.
Proof.
  destruct k as [|k].
  - exists EmptyString. symmetry. apply append_empty_r.
  - rewrite snapshot_S, snapshot_0. eauto.
Qed.

Lemma contains_snapshot_0 (acc : string) (chunks : list string) (k : nat) (sub : string) :
  contains (acc ++ snapshot chunks 0) sub = true ->
  contains (acc ++ snapshot chunks k) sub = true.
Proof.
  intros H. destruct (snapshot_grows chunks k) as [x ->].
  rewrite <- append_assoc. apply contains_app_l. exact H.
Qed.

Lemma sendCommand_loop_false (e : string) (start timeout : Z) :
  forall (ticks : list Z) (s : State),
    clock s = ticks ->
    (exists s', while_fuel (S (List.length ticks)) (beforeDeadline start timeout)
                  (sendCommand_poll e) s = Some (Some false, s') \/
                while_fuel (S (List.length ticks)) (beforeDeadline start timeout)
                  (sendCommand_poll e) s = Some (None, s')) <->
    ((exists k, erroredAt e start timeout ticks
                  (fun j => rxData s ++ snapshot (serialIn s) j) k) \/
     (exists n, timedOutAt e start timeout ticks
                  (fun j => rxData s ++ snapshot (serialIn s) j) n)).
Proof.
  induction ticks as [|t ticks IH]; intros s Hc.
  - split.
    + intros [s' H]. cbn in H. unfold bind, beforeDeadline, bind, input_runningTime in H.
      rewrite Hc in H. destruct H; discriminate.
    + intros [(k & Hp & _)|(n & _ & (t & Ht & _) & _)].
      * destruct (polled_nil _ _ _ Hp).
      * destruct n; discriminate.
  - cbn [List.length]. rewrite (sendCommand_loop_step _ _ _ _ _ _ _ Hc).
    destruct (Z.ltb_spec (t - start) timeout) as [Hlt|Hge].
    + cbv zeta. rewrite pollState_rx.
      destruct (contains (rxData s ++ snapshot (serialIn s) 0) e) eqn:He.
      * split; [intros [s' [H|H]]; discriminate|].
        intros [(k & Hp & Herr & Hk)|(n & Hbefore & (u & Hu & Hle) & Hno)].
        -- rewrite (contains_snapshot_0 _ _ k _ He) in Hk. discriminate.
        -- destruct n as [|n].
           ++ simpl in Hu. injection Hu as <-. lia.
           ++ destruct (Hno 0%nat ltac:(lia)) as [H0 _]. congruence.
      * destruct (contains (rxData s ++ snapshot (serialIn s) 0) "ERROR") eqn:Herr.
        -- split; [|eauto]. intros _. left. exists 0%nat. split; [|split]; auto.
           apply polled_0; exact Hlt.
        -- rewrite (IH (pollState ticks s) eq_refl). split.
           ++ intros [(k & Hp & Hk & Hno)|(n & Hbefore & (u & Hu & Hle) & Hno)].
              ** left. exists (S k). split; [|split].
                 --- apply polled_cons; auto.
                 --- rewrite <- pollState_snap with (ticks := ticks). exact Hk.
                 --- rewrite <- pollState_snap with (ticks := ticks). exact Hno.
              ** right. exists (S n). split; [|split].
                 --- intros [|j] Hj; [exists t; auto|]. apply Hbefore. lia.
                 --- exists u. auto.
                 --- intros [|j] Hj; [auto|].
                     rewrite <- !pollState_snap with (ticks := ticks).
                     apply Hno. lia.
           ++ intros [([|k] & Hp & Hk & Hno)|([|n] & Hbefore & (u & Hu & Hle) & Hno)].
              ** congruence.
              ** left. exists k. split; [|split].
                 --- apply polled_cons in Hp. tauto.
                 --- rewrite pollState_snap. exact Hk.
                 --- rewrite pollState_snap. exact Hno.
              ** simpl in Hu. injection Hu as <-. lia.
              ** right. exists n. split; [|split].
                 --- intros j Hj. apply (Hbefore (S j)). lia.
                 --- exists u. auto.
                 --- intros j Hj. rewrite !pollState_snap. apply Hno. lia.
    + split; [|eauto]. intros _. right. exists 0%nat. split; [|split].
      * intros j Hj; lia.
      * exists t. auto.
      * intros j Hj; lia.
Qed.

(** [sendCommand] with a marker, as its polling loop run from the state in
    which the command has been written. *)
Lemma sendCommand_unfold (command e : string) (timeout : Z) (s : State) :
  sendCommand command (Some e) timeout s =
  match clock s with
  | [] => None
  | start :: ticks =>
      match while_fuel (S (List.length ticks)) (beforeDeadline start timeout)
              (sendCommand_poll e) (set_clock ticks (commandSent command s)) with
      | Some (Some b, s') => Some (b, s')
      | Some (None, s') => Some (false, s')
      | None => None
      end
  end.
Proof.
  destruct s as [i rx w k u p fp ds c si so].
  destruct c as [|start ticks]; destruct si as [|x si]; try reflexivity.
  - unfold sendCommand, commandSent, while, bind. cbn -[while_fuel].
    unfold set_clock, set_serialOut, set_serialIn, set_rxData. cbn -[while_fuel].
    match goal with
    | |- context [while_fuel ?n ?c ?b ?st] =>
        destruct (while_fuel n c b st) as [[[r|] s']|]
    end; reflexivity.
  - unfold sendCommand, commandSent, while, bind. cbn -[while_fuel].
    unfold set_clock, set_serialOut, set_serialIn, set_rxData. cbn -[while_fuel].
    match goal with
    | |- context [while_fuel ?n ?c ?b ?st] =>
        destruct (while_fuel n c b st) as [[[r|] s']|]
    end; reflexivity.
Qed.

Lemma sendCommand_none (command : string) (timeout : Z) (s : State) :
  sendCommand command None timeout s = Some (true, commandSent command s).
Proof.
  destruct s as [i rx w k u p fp ds c si so]. destruct si; reflexivity.
Qed.

(** C1. For every command, marker [e] and timeout: [sendCommand] returns true
    exactly when some poll that starts before the deadline finds [e] in the
    accumulated buffer and no earlier poll's buffer held ["ERROR"] (the marker
    is tested first, so a buffer holding both counts as success); it returns
    false exactly when a poll before the deadline finds ["ERROR"] in a buffer
    without [e], or the deadline passes with neither seen; with no marker it
    returns true at once, reading neither the clock nor any reply. *)
Theorem sendCommand_spec (command e : string) (timeout : Z) (s : State) :
  let start := hd 0 (clock s) in
  let ticks := tl (clock s) in
  let snap := snapshot (tl (serialIn s)) in
  ((exists s', sendCommand command (Some e) timeout s = Some (true, s')) <->
   (exists k, matchedAt e start timeout ticks snap k)) /\
  ((exists s', sendCommand command (Some e) timeout s = Some (false, s')) <->
   ((exists k, erroredAt e start timeout ticks snap k) \/
    (exists n, timedOutAt e start timeout ticks snap n))) /\
  sendCommand command None timeout s = Some (true, commandSent command s).
Proof.
  cbv zeta. split; [|split]; [| |apply sendCommand_none].
  - rewrite sendCommand_unfold. destruct (clock s) as [|start ticks] eqn:Hc.
    + split; [intros [s' H]; discriminate|].
      intros (k & Hp & _). destruct (polled_nil _ _ _ Hp).
    + cbn [hd tl].
      rewrite <- (sendCommand_loop_true e start timeout ticks
                    (set_clock ticks (commandSent command s)) eq_refl).
      split.
      * intros [s' H].
        destruct (while_fuel _ _ _ _) as [[[[|]|] s1]|]; try discriminate. eauto.
      * intros [s' H]. rewrite H. eauto.
  - rewrite sendCommand_unfold. destruct (clock s) as [|start ticks] eqn:Hc.
    + split; [intros [s' H]; discriminate|].
      intros [(k & Hp & _)|(n & _ & (t & Ht & _) & _)].
      * destruct (polled_nil _ _ _ Hp).
      * destruct n; discriminate.
    + cbn [hd tl].
      rewrite <- (sendCommand_loop_false e start timeout ticks
                    (set_clock ticks (commandSent command s)) eq_refl).
      split.
      * intros [s' H].
        destruct (while_fuel _ _ _ _) as [[[[|]|] s1]|]; try discriminate; eauto.
      * intros [s' [H|H]]; rewrite H; eauto.
Qed.

(** ** Frame properties: what an exchange leaves alone *)

Lemma ret_inv {A} (a b : A) (s s' : State) :
  ret a s = Some (b, s') -> b = a /\ s' = s.
Proof. unfold ret. intros H; injection H as <- <-. auto. Qed.

Lemma get_inv {A} (f : State -> A) (a : A) (s s' : State) :
  get f s = Some (a, s') -> a = f s /\ s' = s.
Proof. unfold get. intros H; injection H as <- <-. auto. Qed.

Lemma modify_inv (f : State -> State) (u : unit) (s s' : State) :
  modify f s = Some (u, s') -> s' = f s.
Proof. unfold modify. intros H; injection H as <-. auto. Qed.

Ltac minv :=
  repeat match goal with
    | H : bind _ _ _ = Some _ |- _ =>
        let a := fresh "a" in
        let s := fresh "s" in
        let E := fresh "E" in
        apply bind_inv in H; destruct H as (a & s & E & H)
    | H : ret _ _ = Some _ |- _ => apply ret_inv in H; destruct H; subst
    | H : get _ _ = Some _ |- _ => apply get_inv in H; destruct H; subst
    | H : isWifiConnected _ = Some _ |- _ => apply get_inv in H; destruct H; subst
    | H : modify _ _ = Some _ |- _ => apply modify_inv in H; subst
    | H : basic_pause _ _ = Some _ |- _ => apply ret_inv in H; destruct H; subst
    | H : serial_redirect _ _ _ _ = Some _ |- _ => apply ret_inv in H; destruct H; subst
    | H : error _ _ = Some _ |- _ => apply ret_inv in H; destruct H; subst
    | H : serial_writeString _ _ = Some _ |- _ => apply modify_inv in H; subst
    end.

Lemma sameButChannel_refl (s : State) : sameButChannel s s.
Proof. repeat split. Qed.

Lemma sameButChannel_trans (s1 s2 s3 : State) :
  sameButChannel s1 s2 -> sameButChannel s2 s3 -> sameButChannel s1 s3.
Proof.
  unfold sameButChannel. intros H1 H2.
  repeat match goal with H : _ /\ _ |- _ => destruct H end.
  repeat split; congruence.
Qed.

Lemma sameButChannel_rxData (v : string) (s : State) :
  sameButChannel s (set_rxData v s).
Proof. repeat split. Qed.

Lemma sameButChannel_clock (v : list Z) (s : State) :
  sameButChannel s (set_clock v s).
Proof. repeat split. Qed.

Lemma sameButChannel_serialIn (v : list string) (s : State) :
  sameButChannel s (set_serialIn v s).
Proof. repeat split. Qed.

Create HintDb frame.

#[local] Hint Resolve sameButChannel_refl sameButChannel_rxData
  sameButChannel_clock sameButChannel_serialIn : frame.

Lemma input_runningTime_frame (t : Z) (s s' : State) :
  input_runningTime s = Some (t, s') -> sameButChannel s s'.
Proof.
  unfold input_runningTime. destruct (clock s); [discriminate|].
  intros H; injection H as <- <-. auto with frame.
Qed.

Lemma serial_readString_frame (x : string) (s s' : State) :
  serial_readString s = Some (x, s') -> sameButChannel s s'.
Proof.
  unfold serial_readString. destruct (serialIn s);
    intros H; injection H as <- <-; auto with frame.
Qed.

Lemma beforeDeadline_frame (start timeout : Z) (b : bool) (s s' : State) :
  beforeDeadline start timeout s = Some (b, s') -> sameButChannel s s'.
Proof.
  unfold beforeDeadline. intros H. minv.
  eapply input_runningTime_frame; eauto.
Qed.

(** An invariant kept by the test and by the body is kept by the loop. *)
Lemma while_fuel_inv {A} (P : State -> Prop) (cond : M bool) (body : M (option A)) :
  (forall s b s', cond s = Some (b, s') -> P s -> P s') ->
  (forall s r s', body s = Some (r, s') -> P s -> P s') ->
  forall fuel s r s',
    while_fuel fuel cond body s = Some (r, s') -> P s -> P s'.
Proof.
  intros Hcond Hbody. induction fuel as [|n IH]; intros s r s' H HP.
  - discriminate.
  - cbn [while_fuel] in H. apply bind_inv in H. destruct H as (c & s1 & Ec & H).
    pose proof (Hcond _ _ _ Ec HP) as HP1. destruct c.
    + apply bind_inv in H. destruct H as (r1 & s2 & Eb & H).
      pose proof (Hbody _ _ _ Eb HP1) as HP2. destruct r1.
      * apply ret_inv in H. destruct H; subst. exact HP2.
      * eapply IH; eauto.
    + apply ret_inv in H. destruct H; subst. exact HP1.
Qed.

Lemma while_frame {A} (cond : M bool) (body : M (option A)) :
  (forall s b s', cond s = Some (b, s') -> sameButChannel s s') ->
  (forall s r s', body s = Some (r, s') -> sameButChannel s s') ->
  forall s r s', while cond body s = Some (r, s') -> sameButChannel s s'.
Proof.
  intros Hcond Hbody s r s' H. unfold while in H.
  apply (while_fuel_inv (sameButChannel s) cond body) in H;
    eauto using sameButChannel_trans with frame.
Qed.

Lemma sendCommand_poll_frame (e : string) (r : option bool) (s s' : State) :
  sendCommand_poll e s = Some (r, s') -> sameButChannel s s'.
Proof.
  unfold sendCommand_poll. intros H. minv.
  apply serial_readString_frame in E.
  eapply sameButChannel_trans; [exact E|].
  destruct (0 <=? _); [|destruct (0 <=? _)]; minv; auto with frame.
Qed.

Lemma getResponse_poll_frame (e : string) (r : option string) (s s' : State) :
  getResponse_poll e s = Some (r, s') -> sameButChannel s s'.
Proof.
  unfold getResponse_poll. intros H. minv.
  apply serial_readString_frame in E.
  eapply sameButChannel_trans; [exact E|].
  destruct (_ && _); minv; auto with frame.
Qed.

Lemma drain_poll_frame (r : option unit) (s s' : State) :
  drain_poll s = Some (r, s') -> sameButChannel s s'.
Proof.
  unfold drain_poll. intros H. minv.
  apply serial_readString_frame in E.
  eapply sameButChannel_trans; [exact E|]. auto with frame.
Qed.

(** Turn what is known of the primitive steps into frame facts. *)
Ltac frames :=
  repeat match goal with
    | H : input_runningTime _ = Some _ |- _ => apply input_runningTime_frame in H
    | H : serial_readString _ = Some _ |- _ => apply serial_readString_frame in H
    | H : while (beforeDeadline _ _) (sendCommand_poll _) _ = Some _ |- _ =>
        apply while_frame in H;
        [| intros; eapply beforeDeadline_frame; eauto
         | intros; eapply sendCommand_poll_frame; eauto]
    | H : while (beforeDeadline _ _) (getResponse_poll _) _ = Some _ |- _ =>
        apply while_frame in H;
        [| intros; eapply beforeDeadline_frame; eauto
         | intros; eapply getResponse_poll_frame; eauto]
    | H : while (beforeDeadline _ _) drain_poll _ = Some _ |- _ =>
        apply while_frame in H;
        [| intros; eapply beforeDeadline_frame; eauto
         | intros; eapply drain_poll_frame; eauto]
    end.

(** Close a frame goal by chaining the frame facts at hand. *)
Ltac chain :=
  repeat match goal with
    | H : sameButChannel ?a ?b |- sameButChannel ?a _ =>
        apply (sameButChannel_trans a b); [exact H | clear H]
    end;
  auto with frame.

(** [sendCommand] writes its command, terminated by CR-LF, and nothing else;
    it changes no program variable but the receive buffer. *)
Lemma sendCommand_frame (command : string) (e : option string) (timeout : Z)
  (b : bool) (s s' : State) :
  sendCommand command e timeout s = Some (b, s') ->
  sameButChannel (written (command ++ JS.CRLF) s) s'.
Proof.
  unfold sendCommand. intros H. minv. frames.
  match goal with
  | H : sameButChannel (set_rxData _ s) ?s1 |- _ =>
      assert (Hpre : sameButChannel (written (command ++ JS.CRLF) s)
                       (set_serialOut (serialOut s1 ++ [command ++ JS.CRLF]) s1));
      [ destruct H as (?&?&?&?&?&?&?&Ho); unfold written; cbn in *;
        repeat split; auto; rewrite Ho; reflexivity
      | clear H ]
  end.
  destruct e as [e|]; minv; [|exact Hpre]. frames.
  match goal with
  | H : match ?r with Some _ => _ | None => _ end _ = Some _ |- _ =>
      destruct r; minv
  end; chain.
Qed.

Lemma getResponse_frame (e : string) (timeout : Z) (r : string) (s s' : State) :
  getResponse e timeout s = Some (r, s') -> sameButChannel s s'.
Proof.
  unfold getResponse. intros H. minv. frames.
  match goal with
  | H : match ?r with Some _ => _ | None => _ end _ = Some _ |- _ =>
      destruct r; minv
  end;
    (apply (sameButChannel_trans _ _ _ (sameButChannel_rxData EmptyString s));
     chain).
Qed.

Lemma drain_frame (window : Z) (u : unit) (s s' : State) :
  drain window s = Some (u, s') -> sameButChannel s s'.
Proof.
  unfold drain. intros H. minv. frames. chain.
Qed.

(** ** Bring-up *)

Lemma sendCommand_out (command : string) (e : option string) (timeout : Z)
  (b : bool) (s s' : State) :
  sendCommand command e timeout s = Some (b, s') ->
  serialOut s' = (serialOut s ++ [line command])%list.
Proof. intros H. apply sendCommand_frame in H. apply H. Qed.

Lemma sendCommand_initialized (command : string) (e : option string) (timeout : Z)
  (b : bool) (s s' : State) :
  sendCommand command e timeout s = Some (b, s') ->
  esp8266Initialized s' = esp8266Initialized s.
Proof. intros H. apply sendCommand_frame in H. apply H. Qed.

(** C5 as stated does not hold: a module that was initialised before
    and does not answer the reset keeps [esp8266Initialized = true] after the
    aborted bring-up. *)
Lemma init_abort_keeps_flag_counterexample :
  ~ (forall tx rx baudrate s s',
        init tx rx baudrate s = Some (tt, s') ->
        (exists s1, sendCommand "AT+RST" (Some "ready") 5000 s = Some (false, s1)) ->
        esp8266Initialized s' = false).
Proof.
  intros H.
  specialize (H 8 12 115200 silentReset (after (init 8 12 115200) silentReset)).
  assert (E : esp8266Initialized (after (init 8 12 115200) silentReset) = true)
    by (vm_compute; reflexivity).
  rewrite H in E; [discriminate | vm_compute; reflexivity |].
  eexists. vm_compute. reflexivity.
Qed.

(** C5 (amended). [init] issues reset, echo-off and station-mode in this
    order, each gated on its marker, and stops at the first step that fails:
    the later commands are not written.  It never clears the flag: an aborted
    bring-up leaves [esp8266Initialized] at its prior value (so false when it
    was false before the call), and the flag is set to true exactly when all
    three steps succeed. *)
Theorem init_spec (tx rx baudrate : Z) (s s' : State) :
  init tx rx baudrate s = Some (tt, s') ->
  let rst := sendCommand "AT+RST" (Some "ready") 5000 in
  let ate := sendCommand "ATE0" (Some "OK") 1000 in
  let cwmode := sendCommand "AT+CWMODE=1" (Some "OK") 1000 in
  (rst s = Some (false, s') /\
   esp8266Initialized s' = esp8266Initialized s /\
   serialOut s' = (serialOut s ++ [line "AT+RST"])%list)
  \/
  (exists s1,
      rst s = Some (true, s1) /\ ate s1 = Some (false, s') /\
      esp8266Initialized s' = esp8266Initialized s /\
      serialOut s' = (serialOut s ++ [line "AT+RST"; line "ATE0"])%list)
  \/
  (exists s1 s2,
      rst s = Some (true, s1) /\ ate s1 = Some (true, s2) /\
      cwmode s2 = Some (false, s') /\
      esp8266Initialized s' = esp8266Initialized s /\
      serialOut s' = (serialOut s ++
        [line "AT+RST"; line "ATE0"; line "AT+CWMODE=1"])%list)
  \/
  (exists s1 s2 s3,
      rst s = Some (true, s1) /\ ate s1 = Some (true, s2) /\
      cwmode s2 = Some (true, s3) /\
      s' = set_esp8266Initialized true s3 /\
      esp8266Initialized s' = true /\
      serialOut s' = (serialOut s ++
        [line "AT+RST"; line "ATE0"; line "AT+CWMODE=1"])%list).
Proof.
  intros H. cbv zeta. unfold init in H. minv.
  match goal with
  | E : sendCommand "AT+RST" _ _ s = Some (?ok, ?s1) |- _ =>
      rename E into E1; destruct ok; cbn [negb] in H; minv
  end.
  2: { left. split; [exact E1|]. split.
       - eapply sendCommand_initialized; eauto.
       - eapply sendCommand_out; eauto. }
  match goal with
  | E : sendCommand "ATE0" _ _ ?s1 = Some (?ok, _) |- _ =>
      rename E into E2; destruct ok; cbn [negb] in H; minv
  end.
  2: { right; left. eexists. split; [exact E1|]. split; [exact E2|]. split.
       - rewrite (sendCommand_initialized _ _ _ _ _ _ E2).
         eapply sendCommand_initialized; eauto.
       - rewrite (sendCommand_out _ _ _ _ _ _ E2), (sendCommand_out _ _ _ _ _ _ E1).
         rewrite <- app_assoc. reflexivity. }
  match goal with
  | E : sendCommand "AT+CWMODE=1" _ _ ?s1 = Some (?ok, _) |- _ =>
      rename E into E3; destruct ok; cbn [negb] in H; minv
  end.
  2: { right; right; left. do 2 eexists.
       split; [exact E1|]. split; [exact E2|]. split; [exact E3|]. split.
       - rewrite (sendCommand_initialized _ _ _ _ _ _ E3).
         rewrite (sendCommand_initialized _ _ _ _ _ _ E2).
         eapply sendCommand_initialized; eauto.
       - rewrite (sendCommand_out _ _ _ _ _ _ E3), (sendCommand_out _ _ _ _ _ _ E2),
           (sendCommand_out _ _ _ _ _ _ E1).
         rewrite <- !app_assoc. reflexivity. }
  right; right; right. do 3 eexists.
  split; [exact E1|]. split; [exact E2|]. split; [exact E3|].
  split; [reflexivity|]. split; [reflexivity|].
  cbn [serialOut set_esp8266Initialized].
  rewrite (sendCommand_out _ _ _ _ _ _ E3), (sendCommand_out _ _ _ _ _ _ E2),
    (sendCommand_out _ _ _ _ _ _ E1).
  rewrite <- !app_assoc. reflexivity.
Qed.

Lemma init_spec_witness :
  init 8 12 115200 silentBoot = Some (tt, after (init 8 12 115200) silentBoot) /\
  esp8266Initialized (after (init 8 12 115200) silentBoot) = false.
Proof.
  assert (H0 : init 8 12 115200 silentBoot
               = Some (tt, after (init 8 12 115200) silentBoot))
    by (vm_compute; reflexivity).
  split; [exact H0|].
  pose proof (init_spec 8 12 115200 silentBoot _ H0) as W. cbv zeta in W.
  destruct W as [(_ & Hf & _)|[(s1 & E & _)|[(s1 & s2 & E & _)|
                 (s1 & s2 & s3 & E & _)]]].
  - exact Hf.
  - vm_compute in E. discriminate.
  - vm_compute in E. discriminate.
  - vm_compute in E. discriminate.
Defined.

(** ** Sessions are closed on every path *)

Lemma getResponse_out (e : string) (timeout : Z) (r : string) (s s' : State) :
  getResponse e timeout s = Some (r, s') -> serialOut s' = serialOut s.
Proof. intros H. apply getResponse_frame in H. apply H. Qed.

Lemma drain_out (window : Z) (u : unit) (s s' : State) :
  drain window s = Some (u, s') -> serialOut s' = serialOut s.
Proof. intros H. apply drain_frame in H. apply H. Qed.

Lemma serial_readString_out (x : string) (s s' : State) :
  serial_readString s = Some (x, s') -> serialOut s' = serialOut s.
Proof. intros H. apply serial_readString_frame in H. apply H. Qed.

(** Replace what is known of the exchanges by what they wrote, and rewrite
    the output log of the final state down to that of the first. *)
Ltac outs :=
  repeat match goal with
    | H : sendCommand _ _ _ _ = Some _ |- _ => apply sendCommand_out in H
    | H : getResponse _ _ _ = Some _ |- _ => apply getResponse_out in H
    | H : drain _ _ = Some _ |- _ => apply drain_out in H
    | H : serial_readString _ = Some _ |- _ => apply serial_readString_out in H
    end;
  unfold set_rxData, set_firebaseDataSent, set_serialOut in *;
  cbn [serialOut] in *;
  repeat match goal with
    | H : serialOut ?x = _ |- context [serialOut ?x] => rewrite H
    end.

(** Split on the outcome of the exchange the code tests next. *)
Ltac on_ok H :=
  match type of H with
  | (if negb ?ok then _ else _) _ = Some _ =>
      is_var ok; destruct ok; cbn [negb] in H; minv
  end.

(** The log of the final state is the initial one followed by the open
    command, the given commands and the close command. *)
Tactic Notation "logged" uconstr(mid) :=
  unfold closesSession; outs; eexists mid; rewrite <- !app_assoc; reflexivity.

Lemma eqb_empty_false (x : string) :
  x <> EmptyString -> (x =? EmptyString)%string = false.
Proof. apply String.eqb_neq. Qed.

Lemma readFirebaseString_closes (deviceName : string) (s s1 s' : State) (r : string) :
  wifiConnected s = true ->
  firebaseDatabaseURL s <> EmptyString ->
  firebaseApiKey s <> EmptyString ->
  let open := cipstart "SSL" (extractHost (firebaseDatabaseURL s)) "443" in
  sendCommand open (Some "OK") 5000 s = Some (true, s1) ->
  readFirebaseString deviceName s = Some (r, s') ->
  closesSession open s s'.
Proof.
  intros Hw Hu Hk open Hopen H. subst open.
  unfold readFirebaseString, readFirebaseString_exchange in H. minv.
  rewrite Hw in *. cbn [negb] in *. minv.
  rewrite (eqb_empty_false _ Hu), (eqb_empty_false _ Hk) in *. cbn [orb] in *. minv.
  match goal with
  | E : sendCommand (cipstart _ _ _) _ _ s = Some _ |- _ =>
      rewrite Hopen in E; injection E as <- <-
  end.
  cbn [negb] in *. minv.
  match goal with
  | E : (if negb ?ok then _ else _) _ = Some _ |- _ => on_ok E
  end.
  - logged [_; _].
  - logged [_].
Qed.

(** Two runs of the same step from the same state end alike. *)
Ltac same_run :=
  repeat match goal with
    | H1 : ?m ?s = Some ?x, H2 : ?m ?s = Some ?y |- _ =>
        rewrite H1 in H2; inversion H2; subst; clear H2
    end.

Lemma sendFirebaseData_closes (path jsonData : string) (s s1 s' : State) :
  wifiConnected s = true ->
  firebaseDatabaseURL s <> EmptyString ->
  firebaseApiKey s <> EmptyString ->
  let open := cipstart "SSL" (extractHost (firebaseDatabaseURL s)) "443" in
  (modify (set_firebaseDataSent false) ;;
   sendCommand open (Some "OK") 3000) s = Some (true, s1) ->
  sendFirebaseData path jsonData s = Some (tt, s') ->
  closesSession open s s'.
Proof.
  intros Hw Hu Hk open Hopen H. subst open.
  unfold sendFirebaseData in H. minv.
  cbn [wifiConnected firebaseDatabaseURL firebaseApiKey set_firebaseDataSent] in *.
  rewrite Hw in *. cbn [negb] in *. minv.
  cbn [wifiConnected firebaseDatabaseURL firebaseApiKey set_firebaseDataSent] in *.
  rewrite (eqb_empty_false _ Hu), (eqb_empty_false _ Hk) in *. cbn [orb] in *. minv.
  same_run. cbn [negb] in *. minv.
  match goal with
  | E : (if negb ?ok then _ else _) _ = Some _ |- _ => on_ok E
  end.
  - match goal with
    | E : (if (?ack =? EmptyString)%string then _ else _) _ = Some _ |- _ =>
        destruct (ack =? EmptyString)%string; minv
    end.
    + logged [_; _].
    + match goal with
      | E : (if ?c then _ else _) _ = Some _ |- _ => destruct c; minv
      end; logged [_; _].
  - logged [_].
Qed.

Lemma firebaseDelete_closes (deviceName : string) (s s1 s' : State) :
  wifiConnected s = true ->
  firebaseDatabaseURL s <> EmptyString ->
  firebaseApiKey s <> EmptyString ->
  let open := cipstart "SSL" (extractHost (firebaseDatabaseURL s)) "443" in
  sendCommand open (Some "OK") 3000 s = Some (true, s1) ->
  firebaseDelete deviceName s = Some (tt, s') ->
  closesSession open s s'.
Proof.
  intros Hw Hu Hk open Hopen H. subst open.
  unfold firebaseDelete in H. minv.
  rewrite Hw in *. cbn [negb] in *. minv.
  rewrite (eqb_empty_false _ Hu), (eqb_empty_false _ Hk) in *. cbn [orb] in *. minv.
  same_run. cbn [negb] in *. minv.
  match goal with
  | E : (if negb ?ok then _ else _) _ = Some _ |- _ => on_ok E
  end.
  - logged [_; _].
  - logged [_].
Qed.

Lemma httpGet_closes (serverIp path : string) (s s1 s' : State) (r : string) :
  esp8266Initialized s = true ->
  wifiConnected s = true ->
  let open := cipstart "TCP" serverIp "80" in
  (modify (set_rxData EmptyString) ;;
   serial_readString ;;
   sendCommand open (Some "CONNECT") 5000) s = Some (true, s1) ->
  httpGet serverIp path s = Some (r, s') ->
  closesSession open s s'.
Proof.
  intros Hi Hw open Hopen H. subst open.
  unfold httpGet in H. minv.
  rewrite Hi in *. cbn [negb] in *. minv.
  rewrite Hw in *. cbn [negb] in *. minv.
  same_run. cbn [negb] in *. minv.
  match goal with
  | E : (if negb ?ok then _ else _) _ = Some _ |- _ => on_ok E
  end.
  - logged [_; _].
  - logged [_].
Qed.

Lemma httpPost_closes (serverIp path data : string) (s s1 s' : State) (r : string) :
  esp8266Initialized s = true ->
  wifiConnected s = true ->
  let open := cipstart "TCP" serverIp "80" in
  (modify (set_rxData EmptyString) ;;
   serial_readString ;;
   sendCommand open (Some "CONNECT") 5000) s = Some (true, s1) ->
  httpPost serverIp path data s = Some (r, s') ->
  closesSession open s s'.
Proof.
  intros Hi Hw open Hopen H. subst open.
  unfold httpPost in H. minv.
  rewrite Hi in *. cbn [negb] in *. minv.
  rewrite Hw in *. cbn [negb] in *. minv.
  same_run. cbn [negb] in *. minv.
  match goal with
  | E : (if negb ?ok then _ else _) _ = Some _ |- _ => on_ok E
  end.
  - logged [_; _].
  - logged [_].
Qed.

(** ** The write path and its acknowledgement *)

(** C3, at the failing input.  The module never says [SEND OK]; it says
    something else during the 1500 ms acknowledgement wait, and a status line
    arrives during the second wait.  [sendFirebaseData] nevertheless reports
    success: the acknowledgement test only asks for a non-empty buffer. *)
Theorem sendFirebaseData_without_ack :
  sendFirebaseData "iot" "{}" ackMissing
    = Some (tt, after (sendFirebaseData "iot" "{}") ackMissing) /\
  firebaseDataSent (after (sendFirebaseData "iot" "{}") ackMissing) = true /\
  contains (fold_right String.append EmptyString (serialIn ackMissing)) "SEND OK" = false.
Proof. split; [|split]; vm_compute; reflexivity. Qed.

(** ** Send intent of the plain HTTP calls *)

(** C8, at the failing input.  [getRawFromServer] and [sendToServer] announce
    two bytes more than the request they then write: the request for path ["/"]
    on host ["1.2.3.4"] is 52 bytes long and [AT+CIPSEND=54] is sent;
    [httpGet] announces 52 for the same request. *)
Theorem sendIntent_length_mismatch :
  let req := getRawFromServer_request "1.2.3.4" "/" in
  JS.len req = 52 /\
  serialOut (after (getRawFromServer "1.2.3.4" "ssid" "pw" "/") httpRun)
    = [line (cipstart "TCP" "1.2.3.4" "80"); line "AT+CIPSEND=54"; req;
       line "AT+CIPCLOSE"] /\
  serialOut (after (httpGet "1.2.3.4" "/") httpRun)
    = [line (cipstart "TCP" "1.2.3.4" "80"); line "AT+CIPSEND=52"; req;
       line "AT+CIPCLOSE"] /\
  let req' := sendToServer_request "1.2.3.4" "sensor=123" in
  JS.len req' = 70 /\
  serialOut (after (sendToServer "1.2.3.4" "ssid" "pw" "sensor=123") sendRun)
    = [line (cipstart "TCP" "1.2.3.4" "80"); line "AT+CIPSEND=72"; req';
       line "AT+CIPCLOSE"].
Proof. cbv zeta. split; [|split; [|split; [|split]]]; vm_compute; reflexivity. Qed.

(** ** The read path: from the drained response to the value *)

Lemma readFirebaseString_of_exchange (deviceName : string) (s s' : State)
  (r : option string) :
  readFirebaseString_exchange deviceName s = Some (r, s') ->
  readFirebaseString deviceName s =
  Some (match r with
        | Some response => readFirebaseString_parse response
        | None => EmptyString
        end, s').
Proof.
  intros H. unfold readFirebaseString. rewrite (bind_eq _ _ _ _ _ H).
  destruct r; reflexivity.
Qed.

Lemma readFirebaseString_parse_without_200 (response : string) :
  contains response "200 OK" = false ->
  readFirebaseString_parse response = EmptyString.
Proof.
  intros Hno. unfold readFirebaseString_parse. unfold contains in Hno.
  apply Z.leb_gt in Hno. apply Z.ltb_lt in Hno. rewrite Hno. reflexivity.
Qed.

(** C4 as stated does not hold: the test is on the whole response, so
    a 404 response whose body reads ["200 OK"] yields that text. *)
Lemma read_non200_status_counterexample :
  ~ (forall deviceName s response s',
        readFirebaseString_exchange deviceName s = Some (Some response, s') ->
        contains (statusLine response) "200 OK" = false ->
        readFirebaseString deviceName s = Some (EmptyString, s')).
Proof.
  intros H.
  specialize (H "temp" (readRun response404) response404
                (after (readFirebaseString_exchange "temp") (readRun response404))).
  assert (E : readFirebaseString "temp" (readRun response404)
              = Some ("200 OK",
                      after (readFirebaseString_exchange "temp") (readRun response404)))
    by (vm_compute; reflexivity).
  rewrite H in E; [discriminate | vm_compute; reflexivity | vm_compute; reflexivity].
Qed.

(** C4 (amended). If ["200 OK"] occurs nowhere in the drained response,
    status line, headers and body taken together, [readFirebaseString]
    returns the empty string. *)
Theorem read_without_200_is_empty (deviceName response : string) (s s' : State) :
  readFirebaseString_exchange deviceName s = Some (Some response, s') ->
  contains response "200 OK" = false ->
  readFirebaseString deviceName s = Some (EmptyString, s').
Proof.
  intros H Hno. rewrite (readFirebaseString_of_exchange _ _ _ _ H).
  rewrite (readFirebaseString_parse_without_200 _ Hno). reflexivity.
Qed.

Lemma read_without_200_is_empty_witness :
  let s := readRun "HTTP/1.1 404 Not Found" in
  readFirebaseString_exchange "temp" s
    = Some (Some "HTTP/1.1 404 Not Found",
            after (readFirebaseString_exchange "temp") s) /\
  readFirebaseString "temp" s
    = Some (EmptyString, after (readFirebaseString_exchange "temp") s).
Proof.
  cbv zeta.
  assert (H : readFirebaseString_exchange "temp" (readRun "HTTP/1.1 404 Not Found")
              = Some (Some "HTTP/1.1 404 Not Found",
                      after (readFirebaseString_exchange "temp")
                        (readRun "HTTP/1.1 404 Not Found")))
    by (vm_compute; reflexivity).
  split; [exact H|].
  apply (read_without_200_is_empty "temp" "HTTP/1.1 404 Not Found" _ _ H).
  vm_compute; reflexivity.
Defined.

(** *** The clean-up loop is the first numeric run *)

Lemma cleanBodyLoop_started (body cleanBody : string) :
  cleanBody <> EmptyString ->
  cleanBodyLoop body cleanBody = cleanBody ++ takeWhile isNumericChar body.
Proof.
  revert cleanBody. induction body as [|c rest IH]; intros acc Hacc;
    cbn [cleanBodyLoop takeWhile].
  - symmetry. apply append_empty_r.
  - destruct (isNumericChar c).
    + rewrite IH by (destruct acc; discriminate).
      rewrite append_assoc. reflexivity.
    + destruct acc as [|a acc]; [congruence|].
      rewrite append_empty_r. reflexivity.
Qed.

Lemma cleanBodyLoop_numericRun (body : string) :
  cleanBodyLoop body EmptyString = numericRun body.
Proof.
  unfold numericRun. induction body as [|c rest IH];
    cbn [cleanBodyLoop dropWhile takeWhile]; [reflexivity|].
  destruct (isNumericChar c) eqn:Hc; cbn [negb].
  - rewrite cleanBodyLoop_started by discriminate.
    cbn [takeWhile]. rewrite Hc. reflexivity.
  - exact IH.
Qed.

(** *** The quote test and the slice between the quotes *)

Lemma indexOfAt_range (sub s : string) (i : Z) :
  JS.indexOfAt sub s i = -1 \/ i <= JS.indexOfAt sub s i.
Proof.
  revert i. induction s as [|c s IH]; intros i; cbn [JS.indexOfAt].
  - destruct (String.prefix sub EmptyString); [right; lia | left; reflexivity].
  - destruct (String.prefix sub (String c s)); [right; lia|].
    destruct (IH (i + 1)); [left; assumption | right; lia].
Qed.

Lemma prefix_QUOTE (c : ascii) (s : string) :
  String.prefix JS.QUOTE (String c s) = Ascii.eqb c quoteChar.
Proof.
  unfold JS.QUOTE, quoteChar. cbn [String.prefix].
  destruct (ascii_dec "034" c) as [<-|Hne].
  - destruct s; reflexivity.
  - symmetry. apply Ascii.eqb_neq. congruence.
Qed.

Lemma indexOfFrom_1 (c : ascii) (rest sub : string) :
  JS.indexOfFrom (String c rest) sub 1 = JS.indexOfAt sub rest 1.
Proof. reflexivity. Qed.

Lemma charAt_0 (c : ascii) (rest : string) :
  JS.charAt (String c rest) 0 = String c EmptyString.
Proof. reflexivity. Qed.

Lemma quote_test (body : string) :
  (JS.charAt body 0 =? JS.QUOTE)%string && (0 <? JS.indexOfFrom body JS.QUOTE 1)
  = quoted body.
Proof.
  destruct body as [|c rest]; [reflexivity|].
  unfold quoted. rewrite indexOfFrom_1, charAt_0.
  change ((String c EmptyString =? JS.QUOTE)%string) with
    (Ascii.eqb c quoteChar && true).
  rewrite andb_true_r. f_equal.
  rewrite <- (indexOfAt_occurs JS.QUOTE rest 1) by lia.
  destruct (indexOfAt_range JS.QUOTE rest 1) as [E|E].
  - rewrite E. reflexivity.
  - transitivity true; [apply Z.ltb_lt | symmetry; apply Z.leb_le]; lia.
Qed.

Lemma take_to_quote (rest : string) (i : Z) :
  0 <= i -> occurs JS.QUOTE rest = true ->
  JS.take (Z.to_nat (JS.indexOfAt JS.QUOTE rest i - i)) rest = takeWhile notQuote rest.
Proof.
  revert i. induction rest as [|c rest IH]; intros i Hi Hocc.
  - discriminate.
  - cbn [occurs] in Hocc. cbn [JS.indexOfAt takeWhile]. unfold notQuote at 1.
    rewrite prefix_QUOTE in *. destruct (Ascii.eqb c quoteChar); cbn [negb].
    + rewrite Z.sub_diag. reflexivity.
    + cbn [orb] in Hocc.
      assert (Hr : i + 1 <= JS.indexOfAt JS.QUOTE rest (i + 1)).
      { destruct (indexOfAt_range JS.QUOTE rest (i + 1)) as [E|E]; [|exact E].
        rewrite <- (indexOfAt_occurs JS.QUOTE rest (i + 1)) in Hocc by lia.
        rewrite E in Hocc. discriminate. }
      replace (Z.to_nat (JS.indexOfAt JS.QUOTE rest (i + 1) - i))
        with (S (Z.to_nat (JS.indexOfAt JS.QUOTE rest (i + 1) - (i + 1)))) by lia.
      cbn [JS.take]. rewrite IH by (assumption || lia). reflexivity.
Qed.

Lemma slice_between_quotes (body : string) :
  quoted body = true ->
  JS.substr body 1 (JS.indexOfFrom body JS.QUOTE 1 - 1) = betweenQuotes body.
Proof.
  destruct body as [|c rest]; [discriminate|].
  unfold quoted. intros H. apply andb_true_iff in H. destruct H as [_ Hocc].
  rewrite indexOfFrom_1.
  change (JS.substr (String c rest) 1 (JS.indexOfAt JS.QUOTE rest 1 - 1))
    with (JS.take (Z.to_nat (JS.indexOfAt JS.QUOTE rest 1 - 1)) rest).
  apply (take_to_quote rest 1); [lia | exact Hocc].
Qed.

(** The value read off a response that holds ["200 OK"] and a separator. *)
Lemma readFirebaseString_parse_200 (response : string) :
  contains response "200 OK" = true ->
  0 <= JS.indexOf response CRLFCRLF ->
  readFirebaseString_parse response = valueOf (bodyOf response).
Proof.
  intros H200 Hsep. unfold readFirebaseString_parse, valueOf.
  unfold contains in H200. apply Z.leb_le in H200.
  replace (JS.indexOf response "200 OK" <? 0) with false
    by (symmetry; apply Z.ltb_ge; exact H200).
  replace (JS.indexOf response CRLFCRLF <? 0) with false
    by (symmetry; apply Z.ltb_ge; exact Hsep).
  fold (bodyOf response). fold (contains (bodyOf response) "null").
  destruct (contains (bodyOf response) "null"); [reflexivity|].
  rewrite quote_test. destruct (quoted (bodyOf response)) eqn:Hq.
  - apply slice_between_quotes. exact Hq.
  - apply cleanBodyLoop_numericRun.
Qed.

(** C9 as stated does not hold: the stored string ["null"] (a body of
    six characters, quotes included) is read as empty although the body is
    not the literal [null]. *)
Lemma read_value_counterexample :
  ~ (forall deviceName s response s',
        readFirebaseString_exchange deviceName s = Some (Some response, s') ->
        contains response "200 OK" = true ->
        0 <= JS.indexOf response CRLFCRLF ->
        exists r,
          readFirebaseString deviceName s = Some (r, s') /\
          (r = EmptyString <-> bodyOf response = "null") /\
          (bodyOf response <> "null" -> r = statedValue (bodyOf response))).
Proof.
  intros H.
  assert (Hx : readFirebaseString_exchange "temp" (readRun responseNullString)
               = Some (Some responseNullString,
                       after (readFirebaseString_exchange "temp")
                         (readRun responseNullString)))
    by (vm_compute; reflexivity).
  assert (H200 : contains responseNullString "200 OK" = true)
    by (vm_compute; reflexivity).
  assert (Hsep : 0 <= JS.indexOf responseNullString CRLFCRLF)
    by (vm_compute; discriminate).
  destruct (H _ _ _ _ Hx H200 Hsep) as (r & E & [Hnull _] & _).
  assert (Hr : r = EmptyString) by (vm_compute in E; congruence).
  apply Hnull in Hr. vm_compute in Hr. discriminate Hr.
Qed.

(** C9 (amended). For a response that holds ["200 OK"] and a CRLF-CRLF
    separator, with [body] the text after the first separator: the read
    returns the empty string when [body] contains [null] anywhere; otherwise,
    when [body] starts with a quote and holds a second one, the text between
    the two; otherwise the first maximal run of digits, dots and minus signs
    in [body] (characters before the run are skipped, the run may hold any
    number of dots and minus signs, and it is empty when there is none). *)
Theorem read_value_of_200 (deviceName response : string) (s s' : State) :
  readFirebaseString_exchange deviceName s = Some (Some response, s') ->
  contains response "200 OK" = true ->
  0 <= JS.indexOf response CRLFCRLF ->
  readFirebaseString deviceName s = Some (valueOf (bodyOf response), s').
Proof.
  intros H H200 Hsep. rewrite (readFirebaseString_of_exchange _ _ _ _ H).
  rewrite readFirebaseString_parse_200 by assumption. reflexivity.
Qed.

Lemma read_value_of_200_witness :
  let s := readRun (response200 "x-1.5-2y7") in
  readFirebaseString "temp" s
    = Some ("-1.5-2", after (readFirebaseString_exchange "temp") s).
Proof.
  cbv zeta.
  apply (read_value_of_200 "temp" (response200 "x-1.5-2y7")
           (readRun (response200 "x-1.5-2y7"))
           (after (readFirebaseString_exchange "temp")
              (readRun (response200 "x-1.5-2y7")))).
  - vm_compute; reflexivity.
  - vm_compute; reflexivity.
  - vm_compute. discriminate.
Defined.

(** How the value differs from the specification's wording on bare bodies. *)
Example valueOf_skips_leading_text :
  valueOf "x5" = "5" /\ statedValue "x5" = EmptyString.
Proof. split; reflexivity. Qed.

Example valueOf_keeps_inner_minus :
  valueOf "1-2" = "1-2" /\ statedValue "1-2" = "1".
Proof. split; reflexivity. Qed.

Example valueOf_null_inside_string :
  valueOf (JS.QUOTE ++ "annulled" ++ JS.QUOTE) = EmptyString.
Proof. reflexivity. Qed.

Example valueOf_literal_null : valueOf "null" = EmptyString.
Proof. reflexivity. Qed.

Example valueOf_string : valueOf (JS.QUOTE ++ "on" ++ JS.QUOTE ++ "tail") = "on".
Proof. reflexivity. Qed.

(** ** Typed reads *)

(** The ways in which the string read comes back empty. *)
Lemma readFirebaseString_offline (deviceName : string) (s : State) :
  wifiConnected s = false ->
  readFirebaseString deviceName s = Some (EmptyString, s).
Proof.
  intros Hw. unfold readFirebaseString, readFirebaseString_exchange,
    isWifiConnected, bind, get. rewrite Hw. reflexivity.
Qed.

Lemma readFirebaseString_unconfigured (deviceName : string) (s : State) :
  firebaseDatabaseURL s = EmptyString \/ firebaseApiKey s = EmptyString ->
  readFirebaseString deviceName s = Some (EmptyString, s).
Proof.
  intros Hc. unfold readFirebaseString, readFirebaseString_exchange,
    isWifiConnected, bind, get.
  destruct (wifiConnected s); [|reflexivity]. cbn [negb].
  destruct Hc as [-> | ->]; [reflexivity|].
  rewrite orb_true_r. reflexivity.
Qed.

Lemma readFirebaseString_no_session (deviceName : string) (s s1 : State) :
  wifiConnected s = true ->
  firebaseDatabaseURL s <> EmptyString ->
  firebaseApiKey s <> EmptyString ->
  sendCommand (cipstart "SSL" (extractHost (firebaseDatabaseURL s)) "443")
    (Some "OK") 5000 s = Some (false, s1) ->
  readFirebaseString deviceName s = Some (EmptyString, s1).
Proof.
  intros Hw Hu Hk Hopen. unfold readFirebaseString, readFirebaseString_exchange,
    isWifiConnected, bind, get.
  rewrite Hw. cbn [negb]. cbv beta.
  rewrite (eqb_empty_false _ Hu), (eqb_empty_false _ Hk). cbn [orb]. cbv beta.
  rewrite Hopen. reflexivity.
Qed.

Lemma readFirebaseString_not_200 (deviceName response : string) (s s' : State) :
  readFirebaseString_exchange deviceName s = Some (Some response, s') ->
  contains response "200 OK" = false ->
  readFirebaseString deviceName s = Some (EmptyString, s').
Proof.
  intros H Hno. rewrite (readFirebaseString_of_exchange _ _ _ _ H).
  rewrite (readFirebaseString_parse_without_200 _ Hno). reflexivity.
Qed.

Lemma readFirebaseString_null (deviceName response : string) (s s' : State) :
  readFirebaseString_exchange deviceName s = Some (Some response, s') ->
  contains response "200 OK" = true ->
  0 <= JS.indexOf response CRLFCRLF ->
  contains (bodyOf response) "null" = true ->
  readFirebaseString deviceName s = Some (EmptyString, s').
Proof.
  intros H H200 Hsep Hnull. rewrite (readFirebaseString_of_exchange _ _ _ _ H).
  rewrite readFirebaseString_parse_200 by assumption.
  unfold valueOf. rewrite Hnull. reflexivity.
Qed.

Lemma readFirebaseNumber_of_empty {num : Type} `{Number num}
  (deviceName : string) (s s' : State) :
  readFirebaseString deviceName s = Some (EmptyString, s') ->
  readFirebaseNumber deviceName s = Some (fromZ 0, s').
Proof.
  intros Hs. unfold readFirebaseNumber. rewrite (bind_eq _ _ _ _ _ Hs).
  reflexivity.
Qed.

(** C10. Whenever the string read returns the empty string,
    [readFirebaseNumber] returns 0, in the run-time number type and in any
    other; this is so when WiFi is not connected, when the configuration is
    empty, when the session cannot be opened, when the response holds no
    ["200 OK"] and when the value is [null].  The numeric interface cannot
    tell a failed read from a stored 0. *)
Theorem readFirebaseNumber_empty_is_zero {num : Type} `{Number num}
  (deviceName : string) (s : State) :
  (forall s',
      readFirebaseString deviceName s = Some (EmptyString, s') ->
      readFirebaseNumber deviceName s = Some (fromZ 0, s')) /\
  (wifiConnected s = false ->
   readFirebaseNumber deviceName s = Some (fromZ 0, s)) /\
  (firebaseDatabaseURL s = EmptyString \/ firebaseApiKey s = EmptyString ->
   readFirebaseNumber deviceName s = Some (fromZ 0, s)) /\
  (forall s1,
      wifiConnected s = true ->
      firebaseDatabaseURL s <> EmptyString ->
      firebaseApiKey s <> EmptyString ->
      sendCommand (cipstart "SSL" (extractHost (firebaseDatabaseURL s)) "443")
        (Some "OK") 5000 s = Some (false, s1) ->
      readFirebaseNumber deviceName s = Some (fromZ 0, s1)) /\
  (forall response s',
      readFirebaseString_exchange deviceName s = Some (Some response, s') ->
      contains response "200 OK" = false ->
      readFirebaseNumber deviceName s = Some (fromZ 0, s')) /\
  (forall response s',
      readFirebaseString_exchange deviceName s = Some (Some response, s') ->
      contains response "200 OK" = true ->
      0 <= JS.indexOf response CRLFCRLF ->
      contains (bodyOf response) "null" = true ->
      readFirebaseNumber deviceName s = Some (fromZ 0, s')).
Proof.
  split; [|split; [|split; [|split; [|split]]]].
  - intros s'. apply readFirebaseNumber_of_empty.
  - intros Hw. apply readFirebaseNumber_of_empty.
    apply readFirebaseString_offline. exact Hw.
  - intros Hc. apply readFirebaseNumber_of_empty.
    apply readFirebaseString_unconfigured. exact Hc.
  - intros s1 Hw Hu Hk Hopen. apply readFirebaseNumber_of_empty.
    apply readFirebaseString_no_session; assumption.
  - intros response s' Hx Hno. apply readFirebaseNumber_of_empty.
    eapply readFirebaseString_not_200; eassumption.
  - intros response s' Hx H200 Hsep Hnull. apply readFirebaseNumber_of_empty.
    eapply readFirebaseString_null; eassumption.
Qed.

Lemma readFirebaseNumber_empty_is_zero_witness :
  let s := readRun "HTTP/1.1 404 Not Found" in
  readFirebaseString "temp" s = Some (EmptyString, after (readFirebaseString "temp") s) /\
  readFirebaseNumber "temp" s = Some (0%float, after (readFirebaseString "temp") s).
Proof.
  cbv zeta.
  assert (Hs : readFirebaseString "temp" (readRun "HTTP/1.1 404 Not Found")
               = Some (EmptyString,
                       after (readFirebaseString "temp")
                         (readRun "HTTP/1.1 404 Not Found")))
    by (vm_compute; reflexivity).
  split; [exact Hs|].
  exact (proj1 (readFirebaseNumber_empty_is_zero (num := float) "temp" _) _ Hs).
Defined.

(** A stored 0 reads as the same number as a failed read. *)
Example stored_zero_reads_zero :
  readFirebaseNumber (num := float) "temp" (readRun (response200 "0"))
  = Some (0%float, after (readFirebaseString "temp") (readRun (response200 "0"))) /\
  readFirebaseNumber (num := float) "temp" (readRun "HTTP/1.1 500 Oops")
  = Some (0%float, after (readFirebaseString "temp") (readRun "HTTP/1.1 500 Oops")).
Proof. split; vm_compute; reflexivity. Qed.

(** ** The decimal parser *)

Lemma digit_not_sign (char : ascii) :
  isDigit char = true -> Ascii.eqb char "-" = false /\ Ascii.eqb char "." = false.
Proof.
  destruct char as [[] [] [] [] [] [] [] []]; intros H;
    try discriminate H; split; reflexivity.
Qed.

Set Warnings "-inexact-float".

(** C7. The parser is one left-to-right pass over the characters: a minus at
    index 0 sets the negative flag; a dot sets the decimal flag (a second dot
    changes nothing); a digit before any dot turns the result into
    [result * 10 + digit]; a digit after a dot raises the place by one and adds
    [digit / 10^place]; every other character, a minus past index 0 included,
    leaves the state as it is.  So ["-12.34"] parses to -12.34, ["0042"] to 42
    and ["12.3.4"] to 12.34, in binary64 as at run time and in exact
    rationals. *)
Theorem parseStringToNumber_spec :
  (forall (num : Type) (N : Number num) (i : Z) (char : ascii) (st : ParseState num),
      (* minus at position 0 *)
      parseStep 0 "-" st
        = mkParse (result st) true (hasDecimal st) (decimalPlace st) /\
      (* a dot; a second one changes nothing *)
      parseStep i "." st
        = mkParse (result st) (isNegative st) true (decimalPlace st) /\
      (hasDecimal st = true -> parseStep i "." st = st) /\
      (* digits *)
      (isDigit char = true -> hasDecimal st = false ->
       parseStep i char st
         = mkParse (nadd (nmul (result st) (fromZ 10))
                      (fromZ (Z.of_nat (nat_of_ascii char) - 48)))
             (isNegative st) false (decimalPlace st)) /\
      (isDigit char = true -> hasDecimal st = true ->
       parseStep i char st
         = mkParse (nadd (result st)
                      (ndiv (fromZ (Z.of_nat (nat_of_ascii char) - 48))
                         (pow10 (decimalPlace st + 1))))
             (isNegative st) true (decimalPlace st + 1)) /\
      (* anything else is skipped *)
      (isDigit char = false -> char <> "."%char ->
       (char <> "-"%char \/ i <> 0) -> parseStep i char st = st)) /\
  (forall (num : Type) (N : Number num) (c : ascii) (rest : string) (i : Z)
          (st : ParseState num),
      parseLoop (String c rest) i st = parseLoop rest (i + 1) (parseStep i c st)) /\
  (parseStringToNumber (num := float) "-12.34" = (-12.34)%float /\
   parseStringToNumber (num := float) "0042" = 42%float /\
   parseStringToNumber (num := float) "12.3.4" = 12.34%float) /\
  (parseStringToNumber (num := Q) "-12.34" == - (1234 # 100) /\
   parseStringToNumber (num := Q) "0042" == 42 # 1 /\
   parseStringToNumber (num := Q) "12.3.4" == 1234 # 100)%Q.
Proof.
  split; [|split; [|split]].
  - intros num N i char st. split; [|split; [|split; [|split; [|split]]]].
    + reflexivity.
    + unfold parseStep. cbn [Ascii.eqb Bool.eqb andb]. reflexivity.
    + intros Hd. unfold parseStep. cbn [Ascii.eqb Bool.eqb andb].
      destruct st as [r n d p]. cbn in *. subst d. reflexivity.
    + intros Hc Hd. unfold parseStep.
      destruct (digit_not_sign _ Hc) as [-> ->]. rewrite Hc, Hd. reflexivity.
    + intros Hc Hd. unfold parseStep.
      destruct (digit_not_sign _ Hc) as [-> ->]. rewrite Hc, Hd. reflexivity.
    + intros Hc Hdot Hminus. unfold parseStep. rewrite Hc.
      replace (Ascii.eqb char ".") with false
        by (symmetry; apply Ascii.eqb_neq; exact Hdot).
      destruct (Ascii.eqb_spec char "-") as [->|Hne]; [|reflexivity].
      destruct Hminus as [Hm|Hi]; [congruence|].
      replace (i =? 0) with false by (symmetry; apply Z.eqb_neq; exact Hi).
      reflexivity.
  - intros. reflexivity.
  - split; [|split]; vm_compute; reflexivity.
  - split; [|split]; vm_compute; reflexivity.
Qed.

(** ** Host extraction *)

(** C6 as stated does not hold: one pass strips one trailing slash
    only, so a second pass over ["a//"] strips another. *)
Lemma extractHost_idempotent_counterexample :
  ~ (forall url, extractHost (extractHost url) = extractHost url).
Proof. intros H. specialize (H "a//"). vm_compute in H. discriminate H. Qed.

(** One pass can also strip both schemes, one after the other. *)
Example extractHost_strips_both_schemes : extractHost "https://http://x" = "x".
Proof. reflexivity. Qed.

Lemma take_skip (n : nat) (s : string) : JS.take n s ++ JS.skip n s = s.
Proof.
  revert s. induction n as [|n IH]; intros [|c s]; cbn; try reflexivity.
  rewrite IH. reflexivity.
Qed.

Lemma skip_length_last (c : ascii) (r : string) :
  JS.skip (String.length r) (String c r) = String (lastOr c r) EmptyString.
Proof.
  revert c. induction r as [|d r IH]; intros c; [reflexivity|].
  cbn [String.length JS.skip lastOr]. apply IH.
Qed.

Lemma len_pred (c : ascii) (r : string) :
  JS.len (String c r) - 1 = Z.of_nat (String.length r).
Proof. unfold JS.len. cbn [String.length]. lia. Qed.

Lemma charAt_nat (s : string) (n : nat) :
  JS.charAt s (Z.of_nat n) = JS.take 1 (JS.skip n s).
Proof.
  unfold JS.charAt. replace (Z.of_nat n <? 0) with false
    by (symmetry; apply Z.ltb_ge; lia).
  rewrite Nat2Z.id. reflexivity.
Qed.

Lemma endsWithSlash_cons (c : ascii) (r : string) :
  endsWithSlash (String c r) = Ascii.eqb (lastOr c r) "/".
Proof.
  unfold endsWithSlash. rewrite len_pred, charAt_nat, skip_length_last.
  cbn. apply andb_true_r.
Qed.

Lemma endsWithSlash_tail (c : ascii) (r : string) :
  endsWithSlash (String c r) = false -> endsWithSlash r = false.
Proof.
  destruct r as [|d r]; [reflexivity|].
  rewrite !endsWithSlash_cons. cbn [lastOr]. auto.
Qed.

Lemma substr_nat (s : string) (n : nat) :
  JS.substr s 0 (Z.of_nat n) = JS.take n s.
Proof. unfold JS.substr, JS.startPos. cbn. rewrite Nat2Z.id. reflexivity. Qed.

Lemma take_init_last (c : ascii) (r : string) :
  JS.take (String.length r) (String c r) ++ String (lastOr c r) EmptyString
  = String c r.
Proof.
  rewrite <- skip_length_last. apply take_skip.
Qed.

(** The last step of [extractHost] removes at most one trailing slash. *)
Lemma strip_slash (t : string) :
  let host :=
    if endsWithSlash t then JS.substr t 0 (JS.len t - 1) else t in
  host = t \/ t = host ++ "/".
Proof.
  cbv zeta. destruct (endsWithSlash t) eqn:E; [|left; reflexivity].
  right. destruct t as [|c r]; [discriminate|].
  rewrite len_pred, substr_nat. rewrite endsWithSlash_cons in E.
  apply Ascii.eqb_eq in E. rewrite <- E. symmetry. apply take_init_last.
Qed.

Lemma length_append (a b : string) :
  String.length (a ++ b) = (String.length a + String.length b)%nat.
Proof. induction a; cbn; congruence. Qed.

Lemma take_length_app (a b : string) : JS.take (String.length a) (a ++ b) = a.
Proof. induction a; cbn; [destruct b; reflexivity | congruence]. Qed.

Lemma skip_length_app (a b : string) : JS.skip (String.length a) (a ++ b) = b.
Proof. induction a; cbn; auto. Qed.

Lemma endsWithSlash_app_slash (h : string) : endsWithSlash (h ++ "/") = true.
Proof.
  unfold endsWithSlash, JS.len. rewrite length_append. cbn [String.length].
  replace (Z.of_nat (String.length h + 1) - 1) with (Z.of_nat (String.length h)) by lia.
  rewrite charAt_nat, skip_length_app. reflexivity.
Qed.

Lemma substr_app_slash (h : string) :
  JS.substr (h ++ "/") 0 (JS.len (h ++ "/") - 1) = h.
Proof.
  unfold JS.len. rewrite length_append. cbn [String.length].
  replace (Z.of_nat (String.length h + 1) - 1) with (Z.of_nat (String.length h)) by lia.
  rewrite substr_nat. apply take_length_app.
Qed.

(** *** A scheme marker cannot arise from the slash put behind a bare host *)

Lemma prefix_empty_r (p : string) :
  String.prefix p EmptyString = true -> p = EmptyString.
Proof. destruct p; [reflexivity | discriminate]. Qed.

Lemma prefix_app_one (p a : string) (x : ascii) :
  String.prefix p (a ++ String x EmptyString) = true ->
  String.prefix p a = true \/ p = a ++ String x EmptyString.
Proof.
  revert a. induction p as [|c p IH]; intros a H.
  - left. destruct a; reflexivity.
  - destruct a as [|d a]; cbn in H |- *.
    + destruct (ascii_dec c x) as [->|]; [|discriminate].
      right. apply prefix_empty_r in H. subst p. reflexivity.
    + destruct (ascii_dec c d) as [->|]; [|discriminate].
      destruct (IH a H) as [Hp | ->]; [left; exact Hp | right; reflexivity].
Qed.

Lemma append_one_inj (a b : string) (x : ascii) :
  a ++ String x EmptyString = b ++ String x EmptyString -> a = b.
Proof.
  revert b. induction a as [|c a IH]; intros [|d b] H; cbn in H.
  - reflexivity.
  - injection H as _ H. destruct b; discriminate.
  - injection H as _ H. destruct a; discriminate.
  - injection H as -> H. f_equal. apply IH. exact H.
Qed.

Lemma occurs_app_slash (p' h : string) :
  endsWithSlash p' = true ->
  endsWithSlash h = false ->
  occurs (p' ++ "/") h = false ->
  occurs (p' ++ "/") (h ++ "/") = false.
Proof.
  intros Hp'. induction h as [|c h IH]; intros Hend Hocc.
  - destruct p' as [|a [|b p']]; [discriminate| |].
    + cbn. destruct (ascii_dec a "/"); reflexivity.
    + cbn. destruct (ascii_dec a "/"); reflexivity.
  - cbn [occurs] in Hocc. apply orb_false_iff in Hocc. destruct Hocc as [Hpre Hocc].
    change (String c h ++ "/") with (String c (h ++ "/")). cbn [occurs].
    rewrite (IH (endsWithSlash_tail _ _ Hend) Hocc), orb_false_r.
    destruct (String.prefix (p' ++ "/") (String c (h ++ "/"))) eqn:E; [|reflexivity].
    change (String c (h ++ "/")) with (String c h ++ "/") in E.
    apply prefix_app_one in E. destruct E as [E|E]; [congruence|].
    apply append_one_inj in E. subst p'. congruence.
Qed.

Lemma extractHost_unfold (url : string) :
  extractHost url =
  let host := if contains url "https://" then JS.substrFrom url 8 else url in
  let host := if contains host "http://" then JS.substrFrom host 7 else host in
  if endsWithSlash host then JS.substr host 0 (JS.len host - 1) else host.
Proof. reflexivity. Qed.

Lemma substrFrom_suffix (s : string) (n : Z) :
  exists pre, s = pre ++ JS.substrFrom s n.
Proof.
  unfold JS.substrFrom. exists (JS.take (JS.startPos s n) s).
  symmetry. apply take_skip.
Qed.

Lemma bare_with_slash (h slash : string) :
  bareHost h ->
  slash = EmptyString \/ slash = "/" ->
  contains (h ++ slash) "https://" = false /\
  contains (h ++ slash) "http://" = false /\
  (if endsWithSlash (h ++ slash)
   then JS.substr (h ++ slash) 0 (JS.len (h ++ slash) - 1)
   else h ++ slash) = h.
Proof.
  intros (Hs & Hp & He) [-> | ->].
  - rewrite append_empty_r, Hs, Hp, He. auto.
  - rewrite !contains_occurs in *.
    split; [|split].
    + apply (occurs_app_slash "https:/" h); auto.
    + apply (occurs_app_slash "http:/" h); auto.
    + rewrite endsWithSlash_app_slash. apply substr_app_slash.
Qed.

Lemma http_hides_no_https (x : string) :
  contains ("http://" ++ x) "https://" = contains x "https://".
Proof. rewrite !contains_occurs. reflexivity. Qed.

Lemma contains_own_prefix (p x : string) : contains (p ++ x) p = true.
Proof.
  rewrite contains_occurs.
  assert (H : String.prefix p (p ++ x) = true).
  { induction p as [|c p IH]; cbn.
    - destruct x; reflexivity.
    - destruct (ascii_dec c c); [exact IH | congruence]. }
  destruct (p ++ x); cbn [occurs]; rewrite H; reflexivity.
Qed.

(** C6 (amended). Every pass of [extractHost] returns a suffix of its input
    less at most one trailing slash.  On a URL of the expected shape, at most
    one of [https://] / [http://] in front of a host that holds neither
    marker and does not end in a slash, and at most one slash behind it, the
    result is that host, and a second pass changes nothing. *)
Theorem extractHost_spec :
  (forall url, exists pre t,
      url = pre ++ t /\ (extractHost url = t \/ t = extractHost url ++ "/")) /\
  (forall h url,
      wellFormedURL h url ->
      extractHost url = h /\ extractHost (extractHost url) = extractHost url).
Proof.
  split.
  - intros url. rewrite extractHost_unfold. cbv zeta.
    set (t1 := if contains url "https://" then JS.substrFrom url 8 else url).
    set (t2 := if contains t1 "http://" then JS.substrFrom t1 7 else t1).
    assert (H1 : exists pre, url = pre ++ t1).
    { unfold t1. destruct (contains url "https://");
        [apply substrFrom_suffix | exists EmptyString; reflexivity]. }
    assert (H2 : exists pre, t1 = pre ++ t2).
    { unfold t2. destruct (contains t1 "http://");
        [apply substrFrom_suffix | exists EmptyString; reflexivity]. }
    destruct H1 as [p1 E1], H2 as [p2 E2].
    exists (p1 ++ p2), t2. split.
    + rewrite E1 at 1. rewrite E2 at 1. symmetry. apply append_assoc.
    + apply strip_slash.
  - assert (Hbare : forall h, bareHost h -> extractHost h = h).
    { intros h Hb. rewrite extractHost_unfold. cbv zeta.
      destruct Hb as (-> & -> & ->). reflexivity. }
    intros h url Hwf. destruct Hwf as [scheme slash Hb Hscheme Hslash].
    assert (E : extractHost (scheme ++ h ++ slash) = h).
    { destruct (bare_with_slash h slash Hb Hslash) as (Hs & Hp & Hlast).
      rewrite extractHost_unfold. cbv zeta.
      destruct Hscheme as [-> | [-> | ->]].
      - change (EmptyString ++ h ++ slash) with (h ++ slash).
        rewrite Hs, Hp. exact Hlast.
      - rewrite http_hides_no_https, Hs, contains_own_prefix.
        change (JS.substrFrom ("http://" ++ h ++ slash) 7) with (h ++ slash).
        exact Hlast.
      - rewrite contains_own_prefix.
        change (JS.substrFrom ("https://" ++ h ++ slash) 8) with (h ++ slash).
        rewrite Hp. exact Hlast. }
    split; [exact E|]. rewrite E. apply Hbare. exact Hb.
Qed.

Lemma extractHost_spec_witness :
  wellFormedURL "p.firebaseio.com" "https://p.firebaseio.com/" /\
  extractHost "https://p.firebaseio.com/" = "p.firebaseio.com" /\
  extractHost (extractHost "https://p.firebaseio.com/")
    = extractHost "https://p.firebaseio.com/".
Proof.
  assert (W : wellFormedURL "p.firebaseio.com" "https://p.firebaseio.com/").
  { apply (WellFormed "p.firebaseio.com" "https://" "/").
    - split; [|split]; vm_compute; reflexivity.
    - right; right; reflexivity.
    - right; reflexivity. }
  split; [exact W|].
  exact (proj2 extractHost_spec "p.firebaseio.com" "https://p.firebaseio.com/" W).
Defined.

(** ** Every call returns while the clock keeps ticking *)

Lemma ticking_le (m n : nat) (s : State) :
  (m <= n)%nat -> ticking n s -> ticking m s.
Proof. intros Hle [Hs Hn]. split; [exact Hs | lia]. Qed.

Lemma ticking_same_clock (n : nat) (s s' : State) :
  clock s' = clock s -> ticking n s -> ticking n s'.
Proof. unfold ticking. intros ->. auto. Qed.

(** A loop whose body always comes back and leaves the clock alone ends
    before the clock has given [Z.to_nat (start + timeout - lo) + 1] further
    readings, all of them above [lo]. *)
Lemma while_fuel_returns {A} (body : M (option A)) (start timeout : Z) :
  (forall s, exists r s', body s = Some (r, s') /\ clock s' = clock s) ->
  forall (b : nat) (ticks : list Z) (s : State) (lo : Z) (m : nat),
    clock s = ticks ->
    StronglySorted Z.lt ticks ->
    Forall (Z.lt lo) ticks ->
    (Z.to_nat (start + timeout - lo) <= b)%nat ->
    (S b + m <= List.length ticks)%nat ->
    exists r s',
      while_fuel (S (List.length ticks)) (beforeDeadline start timeout) body s
        = Some (r, s') /\ ticking m s'.
Proof.
  intros Hbody. induction b as [|b IH]; intros ticks s lo m Hc Hs Hlo Hb Hlen;
    (destruct ticks as [|t ticks]; [cbn in Hlen; lia|]);
    apply StronglySorted_inv in Hs; destruct Hs as [Hs Ht];
    apply Forall_cons_iff in Hlo; destruct Hlo as [Hlt Hlo];
    cbn [List.length] in *; cbn [while_fuel];
    unfold bind at 1, beforeDeadline at 1, bind at 1, input_runningTime at 1;
    rewrite Hc; unfold ret at 1;
    (destruct (Z.ltb_spec (t - start) timeout) as [Hin|Hout];
     [| do 2 eexists; split; [reflexivity | split; [exact Hs | cbn; lia]]]).
  - lia.
  - unfold bind at 1.
    destruct (Hbody (set_clock ticks s)) as (r & s1 & -> & Hc1). cbn in Hc1.
    destruct r as [a|].
    + do 2 eexists. split; [reflexivity|]. split; rewrite Hc1; [exact Hs | lia].
    + apply (IH ticks s1 t m Hc1 Hs Ht); lia.
Qed.

Lemma while_returns {A} (body : M (option A)) (timeout : Z) (m : nat)
  (start : Z) (s0 s : State) :
  (forall s, exists r s', body s = Some (r, s') /\ clock s' = clock s) ->
  ticking (budget timeout + m) s0 ->
  input_runningTime s0 = Some (start, s) ->
  exists r s', while (beforeDeadline start timeout) body s = Some (r, s')
               /\ ticking m s'.
Proof.
  intros Hbody [Hs Hn] Hstart. unfold input_runningTime in Hstart.
  destruct (clock s0) as [|t ticks] eqn:Hc0; [discriminate|].
  injection Hstart as -> <-. unfold while.
  apply StronglySorted_inv in Hs. destruct Hs as [Hs Ht].
  change (clock (set_clock ticks s0)) with ticks.
  apply (while_fuel_returns body start timeout Hbody (Z.to_nat timeout) ticks
           (set_clock ticks s0) start m eq_refl Hs Ht).
  - replace (start + timeout - start) with timeout by lia. lia.
  - unfold budget in Hn. cbn [List.length] in Hn. lia.
Qed.

(** One round of a deadline loop. *)
Lemma while_fuel_step {A} (body : M (option A)) (start timeout : Z)
  (n : nat) (s : State) :
  while_fuel (S n) (beforeDeadline start timeout) body s =
  match clock s with
  | [] => None
  | t :: ticks =>
      if t - start <? timeout then
        match body (set_clock ticks s) with
        | Some (Some a, s1) => Some (Some a, s1)
        | Some (None, s1) => while_fuel n (beforeDeadline start timeout) body s1
        | None => None
        end
      else Some (None, set_clock ticks s)
  end.
Proof.
  cbn [while_fuel]. unfold bind, beforeDeadline, bind, input_runningTime, ret.
  destruct (clock s) as [|t ticks]; [reflexivity|].
  destruct (t - start <? timeout); [|reflexivity].
  destruct (body (set_clock ticks s)) as [[[a|] s1]|]; reflexivity.
Qed.

(** One more round than there are clock readings left is all the fuel a loop
    can use: more changes nothing. *)
Lemma while_fuel_more {A} (body : M (option A)) (start timeout : Z) :
  (forall s, exists r s', body s = Some (r, s') /\ clock s' = clock s) ->
  forall (ticks : list Z) (s : State) (n : nat),
    clock s = ticks ->
    (List.length ticks < n)%nat ->
    while_fuel n (beforeDeadline start timeout) body s
    = while_fuel (S (List.length ticks)) (beforeDeadline start timeout) body s.
Proof.
  intros Hbody. induction ticks as [|t ticks IH]; intros s n Hc Hn;
    (destruct n as [|n]; [lia|]); rewrite !while_fuel_step, Hc; [reflexivity|].
  destruct (t - start <? timeout); [|reflexivity].
  destruct (Hbody (set_clock ticks s)) as (r & s1 & -> & Hc1). cbn in Hc1.
  destruct r; [reflexivity|]. apply IH; [exact Hc1 | cbn in Hn; lia].
Qed.

Lemma serial_readString_total (s : State) :
  exists x s', serial_readString s = Some (x, s') /\ clock s' = clock s.
Proof.
  unfold serial_readString. destruct (serialIn s); do 2 eexists; split; reflexivity.
Qed.

Lemma sendCommand_poll_total (e : string) (s : State) :
  exists r s', sendCommand_poll e s = Some (r, s') /\ clock s' = clock s.
Proof.
  unfold sendCommand_poll.
  destruct (serial_readString_total s) as (x & s1 & E & Hc).
  rewrite (bind_eq _ _ _ _ _ E). unfold bind, modify, get.
  destruct (0 <=? JS.indexOf _ e); [|destruct (0 <=? JS.indexOf _ "ERROR")];
    do 2 eexists; (split; [reflexivity | exact Hc]).
Qed.

Lemma getResponse_poll_total (e : string) (s : State) :
  exists r s', getResponse_poll e s = Some (r, s') /\ clock s' = clock s.
Proof.
  unfold getResponse_poll.
  destruct (serial_readString_total s) as (x & s1 & E & Hc).
  rewrite (bind_eq _ _ _ _ _ E). unfold bind, modify, get.
  destruct (_ && _); do 2 eexists; (split; [reflexivity | exact Hc]).
Qed.

Lemma drain_poll_total (s : State) :
  exists r s', drain_poll s = Some (r, s') /\ clock s' = clock s.
Proof.
  unfold drain_poll.
  destruct (serial_readString_total s) as (x & s1 & E & Hc).
  rewrite (bind_eq _ _ _ _ _ E). unfold bind, modify.
  do 2 eexists; (split; [reflexivity | exact Hc]).
Qed.

Lemma input_runningTime_total (n : nat) (s : State) :
  ticking (S n) s -> exists t s', input_runningTime s = Some (t, s').
Proof.
  intros [_ Hn]. unfold input_runningTime.
  destruct (clock s); [cbn in Hn; lia | eauto].
Qed.

Lemma sendCommand_returns (command : string) (e : option string)
  (timeout : Z) (m : nat) (s : State) :
  ticking (budget timeout + m) s ->
  exists b s', sendCommand command e timeout s = Some (b, s') /\ ticking m s'.
Proof.
  intros Ht. destruct e as [e|].
  2: { rewrite sendCommand_none. do 2 eexists. split; [reflexivity|].
       apply (ticking_same_clock _ s); [reflexivity|].
       apply (ticking_le _ _ _ (Nat.le_add_l _ _) Ht). }
  unfold sendCommand.
  destruct (serial_readString_total (set_rxData EmptyString s)) as (x & s1 & E & Hc).
  unfold bind at 1, modify at 1. rewrite (bind_eq _ _ _ _ _ E).
  unfold bind at 1, serial_writeString at 1, modify at 1.
  set (s2 := set_serialOut _ s1).
  assert (Ht2 : ticking (budget timeout + m) s2)
    by (apply (ticking_same_clock _ s); [exact Hc | exact Ht]).
  destruct (input_runningTime_total _ _ Ht2) as (start & s3 & Es).
  rewrite (bind_eq _ _ _ _ _ Es).
  destruct (while_returns _ timeout m start s2 s3 (sendCommand_poll_total e) Ht2 Es)
    as (r & s4 & Ew & Ht4).
  rewrite (bind_eq _ _ _ _ _ Ew).
  destruct r; do 2 eexists; (split; [reflexivity | exact Ht4]).
Qed.

Lemma getResponse_returns (e : string) (timeout : Z) (m : nat) (s : State) :
  ticking (budget timeout + m) s ->
  exists r s', getResponse e timeout s = Some (r, s') /\ ticking m s'.
Proof.
  intros Ht. unfold getResponse. unfold bind at 1, modify at 1.
  set (s1 := set_rxData EmptyString s).
  assert (Ht1 : ticking (budget timeout + m) s1)
    by (apply (ticking_same_clock _ s); [reflexivity | exact Ht]).
  destruct (input_runningTime_total _ _ Ht1) as (start & s2 & Es).
  rewrite (bind_eq _ _ _ _ _ Es).
  destruct (while_returns _ timeout m start s1 s2 (getResponse_poll_total e) Ht1 Es)
    as (r & s3 & Ew & Ht3).
  rewrite (bind_eq _ _ _ _ _ Ew).
  destruct r; do 2 eexists; (split; [reflexivity | exact Ht3]).
Qed.

Lemma drain_returns (window : Z) (m : nat) (s : State) :
  ticking (budget window + m) s ->
  exists s', drain window s = Some (tt, s') /\ ticking m s'.
Proof.
  intros Ht. unfold drain.
  destruct (input_runningTime_total _ _ Ht) as (start & s2 & Es).
  rewrite (bind_eq _ _ _ _ _ Es).
  destruct (while_returns _ window m start s s2 drain_poll_total Ht Es)
    as (r & s3 & Ew & Ht3).
  rewrite (bind_eq _ _ _ _ _ Ew).
  eexists; (split; [reflexivity | exact Ht3]).
Qed.

Lemma budget_mono (a b : Z) : a <= b -> (budget a <= budget b)%nat.
Proof. unfold budget. lia. Qed.

(** Run the next step of the call in the goal, when it cannot fail. *)
Ltac pure_step :=
  match goal with
  | |- context [bind (get ?f) ?k ?s] =>
      rewrite (bind_eq (get f) k s s (f s) eq_refl)
  | |- context [bind isWifiConnected ?k ?s] =>
      rewrite (bind_eq isWifiConnected k s s (wifiConnected s) eq_refl)
  | |- context [bind (modify ?f) ?k ?s] =>
      rewrite (bind_eq (modify f) k s (f s) tt eq_refl)
  | |- context [bind (ret ?a) ?k ?s] =>
      rewrite (bind_eq (ret a) k s s a eq_refl)
  | |- context [bind (basic_pause ?n) ?k ?s] =>
      rewrite (bind_eq (basic_pause n) k s s tt eq_refl)
  | |- context [bind (serial_redirect ?a ?b ?c) ?k ?s] =>
      rewrite (bind_eq (serial_redirect a b c) k s s tt eq_refl)
  | |- context [bind (serial_writeString ?x) ?k ?s] =>
      rewrite (bind_eq (serial_writeString x) k s (written x s) tt eq_refl)
  | |- context [bind (sendCommand ?c None ?T) ?k ?s] =>
      rewrite (bind_eq _ k s _ _ (sendCommand_none c T s))
  end; cbv beta.

(** Run the next exchange of the call in the goal, leaving readings for [m]
    more. *)
Ltac wait_step m :=
  match goal with
  | Ht : ticking ?n ?s0 |- context [bind (sendCommand ?c ?e ?T) ?k ?s] =>
      let ok := fresh "ok" in
      let s' := fresh "s" in
      let E := fresh "E" in
      let Ht' := fresh "Ht" in
      let Hle := fresh "Hle" in
      assert (Hle : (budget T + m <= n)%nat) by lia;
      destruct (sendCommand_returns c e T m s
                  (ticking_le _ _ _ Hle
                     (ticking_same_clock _ s0 s eq_refl Ht)))
        as (ok & s' & E & Ht');
      rewrite (bind_eq _ k s s' ok E); cbv beta; clear Ht Hle
  | Ht : ticking ?n ?s0 |- context [bind (getResponse ?e ?T) ?k ?s] =>
      let r := fresh "r" in
      let s' := fresh "s" in
      let E := fresh "E" in
      let Ht' := fresh "Ht" in
      let Hle := fresh "Hle" in
      assert (Hle : (budget T + m <= n)%nat) by lia;
      destruct (getResponse_returns e T m s
                  (ticking_le _ _ _ Hle
                     (ticking_same_clock _ s0 s eq_refl Ht)))
        as (r & s' & E & Ht');
      rewrite (bind_eq _ k s s' r E); cbv beta; clear Ht Hle
  | Ht : ticking ?n ?s0 |- context [bind (drain ?T) ?k ?s] =>
      let s' := fresh "s" in
      let E := fresh "E" in
      let Ht' := fresh "Ht" in
      let Hle := fresh "Hle" in
      assert (Hle : (budget T + m <= n)%nat) by lia;
      destruct (drain_returns T m s
                  (ticking_le _ _ _ Hle
                     (ticking_same_clock _ s0 s eq_refl Ht)))
        as (s' & E & Ht');
      rewrite (bind_eq _ k s s' tt E); cbv beta; clear Ht Hle
  end.

Ltac returned := repeat eexists; reflexivity.

Lemma init_returns (tx rx baudrate : Z) (s : State) :
  ticking (budget 5000 + (budget 1000 + budget 1000)) s ->
  exists s', init tx rx baudrate s = Some (tt, s').
Proof.
  intros Ht. unfold init. do 2 pure_step.
  wait_step (budget 1000 + budget 1000)%nat. destruct ok; cbn [negb]; [|returned].
  wait_step (budget 1000). destruct ok; cbn [negb]; [|returned].
  wait_step 0%nat. destruct ok; cbn [negb]; returned.
Qed.

Lemma readFirebaseString_exchange_returns (deviceName : string) (s : State) :
  ticking (budget 5000 + (budget 2000 + (budget 3000 + budget 500))) s ->
  exists r s', readFirebaseString_exchange deviceName s = Some (r, s').
Proof.
  intros Ht. pose proof (budget_mono 1000 3000 ltac:(lia)).
  unfold readFirebaseString_exchange. pure_step.
  destruct (wifiConnected s); cbn [negb]; [|returned].
  do 2 pure_step.
  destruct (_ || _); [returned|]. pure_step.
  wait_step (budget 2000 + (budget 3000 + budget 500))%nat.
  destruct ok; cbn [negb]; [|returned]. pure_step.
  wait_step (budget 3000 + budget 500)%nat. destruct ok; cbn [negb].
  - do 2 pure_step. wait_step (budget 500). wait_step 0%nat. returned.
  - wait_step 0%nat. returned.
Qed.

Lemma readFirebaseString_returns (deviceName : string) (s : State) :
  ticking (budget 5000 + (budget 2000 + (budget 3000 + budget 500))) s ->
  exists r s', readFirebaseString deviceName s = Some (r, s').
Proof.
  intros Ht.
  destruct (readFirebaseString_exchange_returns deviceName s Ht) as (r & s' & E).
  rewrite (readFirebaseString_of_exchange _ _ _ _ E). eauto.
Qed.

Lemma readFirebaseNumber_returns {num : Type} `{Number num}
  (deviceName : string) (s : State) :
  ticking (budget 5000 + (budget 2000 + (budget 3000 + budget 500))) s ->
  exists r s', readFirebaseNumber deviceName s = Some (r, s').
Proof.
  intros Ht. destruct (readFirebaseString_returns deviceName s Ht) as (r & s' & E).
  unfold readFirebaseNumber. rewrite (bind_eq _ _ _ _ _ E).
  destruct (r =? EmptyString)%string; returned.
Qed.

Lemma sendFirebaseData_returns (path jsonData : string) (s : State) :
  ticking (budget 3000 + (budget 1000 + (budget 1500 + (budget 1500 + budget 500)))) s ->
  exists s', sendFirebaseData path jsonData s = Some (tt, s').
Proof.
  intros Ht. pose proof (budget_mono 1000 1500 ltac:(lia)).
  pose proof (budget_mono 500 1500 ltac:(lia)).
  unfold sendFirebaseData. do 2 pure_step.
  destruct (wifiConnected _); cbn [negb]; [|returned].
  do 2 pure_step.
  destruct (_ || _); [returned|].
  wait_step (budget 1000 + (budget 1500 + (budget 1500 + budget 500)))%nat.
  destruct ok; cbn [negb]; [|returned]. pure_step.
  wait_step (budget 1500 + (budget 1500 + budget 500))%nat. destruct ok; cbn [negb].
  - pure_step. wait_step (budget 1500 + budget 500)%nat.
    destruct (r =? EmptyString)%string.
    + wait_step 0%nat. returned.
    + wait_step (budget 500).
      destruct (_ && _); pure_step; wait_step 0%nat; returned.
  - wait_step 0%nat. returned.
Qed.

Lemma firebaseDelete_returns (deviceName : string) (s : State) :
  ticking (budget 3000 + (budget 1000 + budget 1000)) s ->
  exists s', firebaseDelete deviceName s = Some (tt, s').
Proof.
  intros Ht. pose proof (budget_mono 500 1000 ltac:(lia)).
  unfold firebaseDelete. pure_step.
  destruct (wifiConnected s); cbn [negb]; [|returned].
  do 2 pure_step.
  destruct (_ || _); [returned|]. pure_step.
  wait_step (budget 1000 + budget 1000)%nat.
  destruct ok; cbn [negb]; [|returned]. pure_step.
  wait_step (budget 1000). destruct ok; cbn [negb].
  - do 2 pure_step. wait_step 0%nat. returned.
  - wait_step 0%nat. returned.
Qed.

Lemma httpGet_returns (serverIp path : string) (s : State) :
  ticking (budget 5000 + (budget 3000 + budget 5000)) s ->
  exists r s', httpGet serverIp path s = Some (r, s').
Proof.
  intros Ht. unfold httpGet. pure_step.
  destruct (esp8266Initialized s); cbn [negb]; [|returned]. pure_step.
  destruct (wifiConnected s); cbn [negb]; [|returned]. pure_step.
  destruct (serial_readString_total (set_rxData EmptyString s)) as (x & s1 & E & Hc).
  rewrite (bind_eq _ _ _ _ _ E).
  apply (ticking_same_clock _ s s1 Hc) in Ht.
  wait_step (budget 3000 + budget 5000)%nat.
  destruct ok; cbn [negb]; [|returned].
  wait_step (budget 5000). destruct ok; cbn [negb].
  - pure_step. wait_step 0%nat. pure_step. returned.
  - pure_step. returned.
Qed.

Lemma httpPost_returns (serverIp path data : string) (s : State) :
  ticking (budget 5000 + (budget 3000 + budget 5000)) s ->
  exists r s', httpPost serverIp path data s = Some (r, s').
Proof.
  intros Ht. unfold httpPost. pure_step.
  destruct (esp8266Initialized s); cbn [negb]; [|returned]. pure_step.
  destruct (wifiConnected s); cbn [negb]; [|returned]. pure_step.
  destruct (serial_readString_total (set_rxData EmptyString s)) as (x & s1 & E & Hc).
  rewrite (bind_eq _ _ _ _ _ E).
  apply (ticking_same_clock _ s s1 Hc) in Ht.
  wait_step (budget 3000 + budget 5000)%nat.
  destruct ok; cbn [negb]; [|returned].
  wait_step (budget 5000). destruct ok; cbn [negb].
  - pure_step. wait_step 0%nat. pure_step. returned.
  - pure_step. returned.
Qed.

(** A clock that counts is a ticking clock. *)
Lemma countingClock_sorted (from : Z) (n a : nat) :
  StronglySorted Z.lt (List.map (fun k => from + Z.of_nat k) (seq a n)).
Proof.
  revert a. induction n as [|n IH]; intros a; cbn [seq List.map].
  - constructor.
  - constructor; [apply IH|].
    apply Forall_forall. intros x Hx. apply in_map_iff in Hx.
    destruct Hx as (k & <- & Hk). apply in_seq in Hk. lia.
Qed.

Lemma ticking_counting (from : Z) (n : nat) (s : State) :
  clock s = countingClock from n -> ticking n s.
Proof.
  intros Hc. split; rewrite Hc.
  - apply countingClock_sorted.
  - unfold countingClock. rewrite length_map, length_seq. lia.
Qed.

(** ** Sessions are closed *)

Lemma succeeds_inv (m : M bool) (s : State) :
  succeeds m s -> exists s1, m s = Some (true, s1).
Proof.
  unfold succeeds. destruct (m s) as [[b s1]|]; cbn; [|discriminate].
  intros E. inversion E. subst b. exists s1. reflexivity.
Qed.


Lemma millisecondClock_above (lo from : Z) (n : nat) :
  lo < from -> Forall (Z.lt lo) (millisecondClock from n).
Proof.
  revert from. induction n as [|n IH]; intros from Hlo; cbn [millisecondClock].
  - constructor.
  - constructor; [exact Hlo | apply IH; lia].
Qed.

Lemma millisecondClock_sorted (from : Z) (n : nat) :
  StronglySorted Z.lt (millisecondClock from n).
Proof.
  revert from. induction n as [|n IH]; intros from; cbn [millisecondClock].
  - constructor.
  - constructor; [apply IH | apply millisecondClock_above; lia].
Qed.

Lemma millisecondClock_length (from : Z) (n : nat) :
  List.length (millisecondClock from n) = n.
Proof.
  revert from. induction n as [|n IH]; intros from; cbn [millisecondClock List.length].
  - reflexivity.
  - rewrite IH. reflexivity.
Qed.

Lemma answered_ticking (n : nat) (chunks : list string) :
  (n <=? Z.to_nat 14000)%nat = true -> ticking n (answered chunks).
Proof.
  intros Hn. apply Nat.leb_le in Hn. unfold ticking.
  change (clock (answered chunks)) with (millisecondClock 0 (Z.to_nat 14000)).
  split; [apply millisecondClock_sorted|].
  rewrite millisecondClock_length. exact Hn.
Qed.

Lemma answered_ready (chunks : list string) :
  esp8266Initialized (answered chunks) = true /\
  wifiConnected (answered chunks) = true /\
  firebaseDatabaseURL (answered chunks) <> EmptyString /\
  firebaseApiKey (answered chunks) <> EmptyString.
Proof.
  cbv [answered run set_clock set_serialIn idle esp8266Initialized wifiConnected
       firebaseDatabaseURL firebaseApiKey].
  split; [reflexivity|]. split; [reflexivity|]. split; discriminate.
Qed.


(** ** What the last-write flag records *)

Lemma sendCommand_dataSent (command : string) (e : option string) (timeout : Z)
  (b : bool) (s s' : State) :
  sendCommand command e timeout s = Some (b, s') ->
  firebaseDataSent s' = firebaseDataSent s.
Proof. intros H. apply sendCommand_frame in H. apply H. Qed.

Lemma getResponse_dataSent (e : string) (timeout : Z) (r : string) (s s' : State) :
  getResponse e timeout s = Some (r, s') ->
  firebaseDataSent s' = firebaseDataSent s.
Proof. intros H. apply getResponse_frame in H. apply H. Qed.

(** Rewrite the flag of the final state down to that of the first. *)
Ltac flags :=
  repeat match goal with
    | H : sendCommand _ _ _ _ = Some _ |- _ => apply sendCommand_dataSent in H
    | H : getResponse _ _ _ = Some _ |- _ => apply getResponse_dataSent in H
    end;
  unfold set_firebaseDataSent in *; cbn [firebaseDataSent] in *;
  repeat match goal with
    | H : firebaseDataSent ?x = _ |- context [firebaseDataSent ?x] => rewrite H
    end.

(** The flag is cleared first, whatever it was, and it ends up true only on
    the one path where the buffer drained during the acknowledgement wait is
    not empty and the buffer drained next holds ["200"].  That the first
    buffer holds [SEND OK] is not required. *)
Lemma sendFirebaseData_flag (path jsonData : string) (s s' : State) :
  sendFirebaseData path jsonData s = Some (tt, s') ->
  firebaseDataSent s' = true ->
  exists s2 ack s3 response s4,
    getResponse "SEND OK" 1500 s2 = Some (ack, s3) /\
    ack <> EmptyString /\
    getResponse EmptyString 1500 s3 = Some (response, s4) /\
    contains response "200" = true.
Proof.
  intros H Hflag. unfold sendFirebaseData in H. minv.
  cbn [wifiConnected firebaseDatabaseURL firebaseApiKey set_firebaseDataSent] in *.
  destruct (wifiConnected s); cbn [negb] in *; minv;
    [|cbn in Hflag; discriminate].
  cbn [wifiConnected firebaseDatabaseURL firebaseApiKey set_firebaseDataSent] in *.
  destruct (_ || _); minv; [cbn in Hflag; discriminate|].
  match goal with
  | E : (if negb ?ok then _ else _) _ = Some _ |- _ => on_ok E
  end; [|exfalso; revert Hflag; flags; discriminate].
  match goal with
  | E : (if negb ?ok then _ else _) _ = Some _ |- _ => on_ok E
  end; [|exfalso; revert Hflag; flags; discriminate].
  match goal with
  | Eack : getResponse "SEND OK" 1500 ?s2 = Some (?ack, ?s3),
    E : (if (?ack =? EmptyString)%string then _ else _) _ = Some _ |- _ =>
      pose proof Eack as Kack;
      destruct (String.eqb_spec ack EmptyString) as [->|Hne]; minv;
      [exfalso; revert Hflag; flags; discriminate|]
  end.
  match goal with
  | Eresp : getResponse EmptyString 1500 ?s3 = Some (?response, ?s4),
    E : (if ?c then _ else _) _ = Some _ |- _ =>
      pose proof Eresp as Kresp;
      destruct c eqn:Hc; minv;
      [|exfalso; revert Hflag; flags; discriminate]
  end.
  apply andb_true_iff in Hc. destruct Hc as [_ H200].
  do 5 eexists. split; [exact Kack|]. split; [exact Hne|]. split; [exact Kresp|].
  exact H200.
Qed.

(** ** What the plain HTTP calls announce and write, on every input *)

(** [getRawFromServer], already connected: the send intent announces the
    length of the request plus two, and the request is then written as it
    is. *)
Lemma getRawFromServer_log (serverIp ssid password path : string)
  (s s' : State) (r : string) :
  esp8266Initialized s = true ->
  wifiConnected s = true ->
  getRawFromServer serverIp ssid password path s = Some (r, s') ->
  let req := getRawFromServer_request serverIp path in
  let open := line (cipstart "TCP" serverIp "80") in
  let intent := line ("AT+CIPSEND=" ++ JS.ofZ (JS.len req + 2)) in
  serialOut s' = (serialOut s ++ [open])%list \/
  serialOut s' = (serialOut s ++ [open; intent; line "AT+CIPCLOSE"])%list \/
  serialOut s' = (serialOut s ++ [open; intent; req; line "AT+CIPCLOSE"])%list.
Proof.
  intros Hi Hw H. cbv zeta. unfold getRawFromServer in H. minv.
  rewrite Hi in *. cbn [negb] in *. minv.
  rewrite Hw in *. cbn [negb] in *. minv. cbn [negb] in *. minv.
  match goal with
  | E : (if negb ?ok then _ else _) _ = Some _ |- _ => on_ok E
  end; [|left; outs; reflexivity].
  match goal with
  | E : (if negb ?ok then _ else _) _ = Some _ |- _ => on_ok E
  end.
  - right; right. outs. rewrite <- !app_assoc. reflexivity.
  - right; left. outs. rewrite <- !app_assoc. reflexivity.
Qed.

(** [httpGet]: the send intent announces the length of the request that is
    then written. *)
Lemma httpGet_log (serverIp path : string) (s s' : State) (r : string) :
  esp8266Initialized s = true ->
  wifiConnected s = true ->
  httpGet serverIp path s = Some (r, s') ->
  let req := httpGet_request serverIp path in
  let open := line (cipstart "TCP" serverIp "80") in
  let intent := line ("AT+CIPSEND=" ++ JS.ofZ (JS.len req)) in
  serialOut s' = (serialOut s ++ [open])%list \/
  serialOut s' = (serialOut s ++ [open; intent; line "AT+CIPCLOSE"])%list \/
  serialOut s' = (serialOut s ++ [open; intent; req; line "AT+CIPCLOSE"])%list.
Proof.
  intros Hi Hw H. cbv zeta. unfold httpGet in H. minv.
  rewrite Hi in *. cbn [negb] in *. minv.
  rewrite Hw in *. cbn [negb] in *. minv.
  match goal with
  | E : (if negb ?ok then _ else _) _ = Some _ |- _ => on_ok E
  end; [|left; outs; reflexivity].
  match goal with
  | E : (if negb ?ok then _ else _) _ = Some _ |- _ => on_ok E
  end.
  - right; right. outs. rewrite <- !app_assoc. reflexivity.
  - right; left. outs. rewrite <- !app_assoc. reflexivity.
Qed.

(** ** Worked runs *)

Example sendCommand_both_markers_at_once :
  exists s', sendCommand "AT" (Some "OK") 1000 (run [0; 1] [""; "ERROR OK"] idle)
             = Some (true, s').
Proof. eexists. vm_compute. reflexivity. Qed.

Example sendCommand_error_before_marker :
  exists s', sendCommand "AT" (Some "OK") 1000 (run [0; 1; 2] [""; "ERROR"; "OK"] idle)
             = Some (false, s').
Proof. eexists. vm_compute. reflexivity. Qed.

Example sendCommand_deadline :
  exists s', sendCommand "AT" (Some "OK") 1000 (run [0; 1; 1000] [""; "O"; "K"] idle)
             = Some (false, s').
Proof. eexists. vm_compute. reflexivity. Qed.

Example init_full_success :
  esp8266Initialized (after (init 8 12 115200) promptReset) = true /\
  serialOut (after (init 8 12 115200) promptReset)
    = [line "AT+RST"; line "ATE0"; line "AT+CWMODE=1"].
Proof. split; vm_compute; reflexivity. Qed.

Example httpGet_result_is_cleared :
  httpGet "1.2.3.4" "/" httpRun
  = Some (EmptyString, after (httpGet "1.2.3.4" "/") httpRun).
Proof. vm_compute. reflexivity. Qed.

(** * Further properties *)

(** ** The response accumulator *)

Lemma drained_0 (chunks : list string) : drained chunks 0 = EmptyString.
Proof. reflexivity. Qed.

Lemma drained_S (chunks : list string) (n : nat) :
  drained chunks (S n) = hd EmptyString chunks ++ drained (tl chunks) n.
Proof. destruct chunks; [destruct n|]; reflexivity. Qed.

Lemma pollState_drained (ticks : list Z) (s : State) (n : nat) :
  rxData (pollState ticks s) ++ drained (serialIn (pollState ticks s)) n =
  rxData s ++ drained (serialIn s) (S n).
Proof.
  unfold pollState, set_rxData, set_serialIn, set_clock; cbn [rxData serialIn].
  rewrite drained_S. apply append_assoc.
Qed.

Lemma pollState_drained_1 (ticks : list Z) (s : State) :
  rxData (pollState ticks s) = rxData s ++ drained (serialIn s) 1.
Proof.
  rewrite <- (pollState_drained ticks s 0), drained_0, append_empty_r. reflexivity.
Qed.

Lemma getResponse_poll_eq (e : string) (ticks : list Z) (s : State) :
  getResponse_poll e (set_clock ticks s) =
  Some (if negb (e =? EmptyString)%string && contains (rxData (pollState ticks s)) e
        then Some (rxData (pollState ticks s)) else None,
        pollState ticks s).
Proof.
  destruct s as [i rx w k u p fp ds c si so].
  unfold getResponse_poll, pollState, contains.
  destruct si as [|x si]; cbn;
    destruct (negb (e =? EmptyString)%string && (0 <=? JS.indexOfAt e _ 0));
    reflexivity.
Qed.

Lemma getResponse_loop (e : string) (start timeout : Z) :
  forall (ticks : list Z) (s : State) (r : string),
    clock s = ticks ->
    (exists s',
        while_fuel (S (List.length ticks)) (beforeDeadline start timeout)
          (getResponse_poll e) s = Some (Some r, s') \/
        (while_fuel (S (List.length ticks)) (beforeDeadline start timeout)
           (getResponse_poll e) s = Some (None, s') /\ rxData s' = r)) <->
    ((exists k, foundAt e start timeout ticks
                  (fun j => rxData s ++ drained (serialIn s) j) k /\
                r = rxData s ++ drained (serialIn s) (S k)) \/
     (exists n, expiredAt e start timeout ticks
                  (fun j => rxData s ++ drained (serialIn s) j) n /\
                r = rxData s ++ drained (serialIn s) n)).
Proof.
  induction ticks as [|t ticks IH]; intros s r Hc;
    cbn [List.length]; rewrite while_fuel_step, Hc.
  - split.
    + intros [s' [H|[H _]]]; discriminate.
    + intros [(k & (Hp & _) & _)|(n & (_ & (t & Ht & _) & _) & _)].
      * destruct (polled_nil _ _ _ Hp).
      * destruct n; discriminate.
  - destruct (Z.ltb_spec (t - start) timeout) as [Hlt|Hge].
    + rewrite getResponse_poll_eq, pollState_drained_1.
      destruct (String.eqb_spec e EmptyString) as [He|He]; cbn [negb andb].
      * (* no marker is looked for *)
        rewrite (IH (pollState ticks s) r eq_refl). split.
        -- intros [(k & (_ & Hne & _) & _)|(n & (Hb & (u & Hu & Hle) & _) & Hr)];
             [congruence|].
           right. exists (S n). split; [split; [|split]|].
           ++ intros [|j] Hj; [exists t; auto|]. apply Hb. lia.
           ++ exists u. auto.
           ++ left. exact He.
           ++ rewrite <- pollState_drained with (ticks := ticks). exact Hr.
        -- intros [(k & (_ & Hne & _) & _)|([|n] & (Hb & (u & Hu & Hle) & _) & Hr)];
             [congruence | |].
           ++ simpl in Hu. injection Hu as <-. lia.
           ++ right. exists n. split; [split; [|split]|].
              ** intros j Hj. apply (Hb (S j)). lia.
              ** exists u. auto.
              ** left. exact He.
              ** rewrite pollState_drained. exact Hr.
      * destruct (contains (rxData s ++ drained (serialIn s) 1) e) eqn:Hc1.
        -- (* the marker is in the buffer *)
           split.
           ++ intros [s' [H|[H _]]]; [|discriminate].
              injection H as <- _. left. exists 0%nat. split; [|reflexivity].
              split; [apply polled_0; exact Hlt|]. split; [exact He|].
              split; [exact Hc1 | intros j Hj; lia].
           ++ intros [([|k] & (Hp & _ & Hk & Hno) & Hr)
                     |([|n] & (Hb & (u & Hu & Hle) & Hnone) & Hr)].
              ** subst r. eexists. left. reflexivity.
              ** rewrite (Hno 0%nat ltac:(lia)) in Hc1. discriminate.
              ** simpl in Hu. injection Hu as <-. lia.
              ** destruct Hnone as [Hnone|Hnone]; [congruence|].
                 rewrite (Hnone 0%nat ltac:(lia)) in Hc1. discriminate.
        -- rewrite (IH (pollState ticks s) r eq_refl). split.
           ++ intros [(k & (Hp & _ & Hk & Hno) & Hr)
                     |(n & (Hb & (u & Hu & Hle) & Hnone) & Hr)].
              ** left. exists (S k). split; [split; [|split; [|split]]|].
                 --- apply polled_cons; auto.
                 --- exact He.
                 --- rewrite <- pollState_drained with (ticks := ticks). exact Hk.
                 --- intros [|j] Hj; [exact Hc1|].
                     rewrite <- pollState_drained with (ticks := ticks).
                     apply Hno. lia.
                 --- rewrite <- pollState_drained with (ticks := ticks). exact Hr.
              ** right. exists (S n). split; [split; [|split]|].
                 --- intros [|j] Hj; [exists t; auto|]. apply Hb. lia.
                 --- exists u. auto.
                 --- right. intros [|j] Hj; [exact Hc1|].
                     destruct Hnone as [Hnone|Hnone]; [congruence|].
                     rewrite <- pollState_drained with (ticks := ticks).
                     apply Hnone. lia.
                 --- rewrite <- pollState_drained with (ticks := ticks). exact Hr.
           ++ intros [([|k] & (Hp & _ & Hk & Hno) & Hr)
                     |([|n] & (Hb & (u & Hu & Hle) & Hnone) & Hr)].
              ** congruence.
              ** left. exists k. split; [split; [|split; [|split]]|].
                 --- apply polled_cons in Hp. tauto.
                 --- exact He.
                 --- rewrite pollState_drained. exact Hk.
                 --- intros j Hj. rewrite pollState_drained. apply Hno. lia.
                 --- rewrite pollState_drained. exact Hr.
              ** simpl in Hu. injection Hu as <-. lia.
              ** right. exists n. split; [split; [|split]|].
                 --- intros j Hj. apply (Hb (S j)). lia.
                 --- exists u. auto.
                 --- destruct Hnone as [Hnone|Hnone]; [left; exact Hnone|].
                     right. intros j Hj. rewrite pollState_drained.
                     apply Hnone. lia.
                 --- rewrite pollState_drained. exact Hr.
    + split.
      * intros [s' [H|[H Hr]]]; [discriminate|]. injection H as <-.
        right. exists 0%nat. split; [split; [|split]|].
        -- intros j Hj; lia.
        -- exists t. auto.
        -- right. intros j Hj; lia.
        -- rewrite drained_0, append_empty_r. symmetry. exact Hr.
      * intros [(k & (Hp & _) & _)|([|n] & (Hb & _) & Hr)].
        -- apply polled_first in Hp. lia.
        -- eexists. right. split; [reflexivity|].
           rewrite drained_0, append_empty_r in Hr. symmetry. exact Hr.
        -- destruct (Hb 0%nat ltac:(lia)) as (u & Hu & Hlt).
           simpl in Hu. injection Hu as <-. lia.
Qed.

Lemma getResponse_unfold (e : string) (timeout : Z) (s : State) :
  getResponse e timeout s =
  match clock s with
  | [] => None
  | start :: ticks =>
      match while_fuel (S (List.length ticks)) (beforeDeadline start timeout)
              (getResponse_poll e) (set_clock ticks (set_rxData EmptyString s)) with
      | Some (Some rx, s') => Some (rx, s')
      | Some (None, s') => Some (rxData s', s')
      | None => None
      end
  end.
Proof.
  destruct s as [i rx w k u p fp ds c si so].
  destruct c as [|start ticks]; [reflexivity|].
  unfold getResponse, while, bind. cbn -[while_fuel].
  unfold set_clock, set_rxData. cbn -[while_fuel].
  match goal with
  | |- context [while_fuel ?n ?c ?b ?st] =>
      destruct (while_fuel n c b st) as [[[r|] s']|]
  end; reflexivity.
Qed.

(** X1. [getResponse] returns the buffer as it stands after the first poll
    that sees a non-empty marker, everything read up to and including that
    poll; when no poll before the deadline sees it, or when the marker is
    empty, it returns everything read until the deadline, possibly nothing.
    It reads from the channel without discarding what was waiting there. *)
Theorem getResponse_spec (e : string) (timeout : Z) (s : State) (r : string) :
  let start := hd 0 (clock s) in
  let ticks := tl (clock s) in
  let buf := drained (serialIn s) in
  (exists s', getResponse e timeout s = Some (r, s')) <->
  ((exists k, foundAt e start timeout ticks buf k /\ r = buf (S k)) \/
   (exists n, expiredAt e start timeout ticks buf n /\ r = buf n)).
Proof.
  cbv zeta. rewrite getResponse_unfold.
  destruct (clock s) as [|start ticks] eqn:Hc.
  - split; [intros [s' H]; discriminate|].
    intros [(k & (Hp & _) & _)|(n & (_ & (t & Ht & _) & _) & _)].
    + destruct (polled_nil _ _ _ Hp).
    + destruct n; discriminate.
  - cbn [hd tl].
    rewrite <- (getResponse_loop e start timeout ticks
                  (set_clock ticks (set_rxData EmptyString s)) r eq_refl).
    split.
    + intros [s' H].
      destruct (while_fuel _ _ _ _) as [[[rx|] s1]|]; try discriminate;
        injection H as <- <-; eauto.
    + intros [s' [H|[H Hr]]]; rewrite H; [|rewrite Hr]; eauto.
Qed.

Example getResponse_partial_reply :
  getResponse "SEND OK" 1500 (run [0; 1; 2; 1500] ["SEND"; " FA"; "IL"] idle)
  = Some ("SEND FA",
          after (getResponse "SEND OK" 1500) (run [0; 1; 2; 1500] ["SEND"; " FA"; "IL"] idle)).
Proof. vm_compute. reflexivity. Qed.

(** ** WiFi association *)

Lemma sendCommand_wifiConnected (command : string) (e : option string)
  (timeout : Z) (b : bool) (s s' : State) :
  sendCommand command e timeout s = Some (b, s') ->
  wifiConnected s' = wifiConnected s.
Proof. intros H. apply sendCommand_frame in H. apply H. Qed.

(** X2. [connectWiFi] on a module that is not initialised returns false and
    changes nothing.  On an initialised module it writes the one join command
    and ends with [wifiConnected] equal to what it returns, whatever the flag
    was before: a refused join clears a flag left from an earlier one. *)
Theorem connectWiFi_spec (ssid password : string) (s s' : State) (b : bool) :
  connectWiFi ssid password s = Some (b, s') ->
  (esp8266Initialized s = false /\ b = false /\ s' = s) \/
  (esp8266Initialized s = true /\
   wifiConnected s' = b /\
   esp8266Initialized s' = true /\
   serialOut s' = (serialOut s ++ [line (cwjap ssid password)])%list /\
   exists s1,
     sendCommand (cwjap ssid password) (Some "WIFI GOT IP") 20000
       (set_wifiConnected false s) = Some (b, s1)).
Proof.
  intros H. unfold connectWiFi in H. minv.
  destruct (esp8266Initialized s) eqn:Hi; cbn [negb] in H; minv.
  2: { left. auto. }
  right. split; [reflexivity|].
  match goal with
  | E : sendCommand _ _ _ _ = Some (?ok, ?s1) |- _ =>
      pose proof (sendCommand_wifiConnected _ _ _ _ _ _ E) as Hw;
      pose proof (sendCommand_initialized _ _ _ _ _ _ E) as Hi';
      pose proof (sendCommand_out _ _ _ _ _ _ E) as Ho;
      pose proof E as Hrun
  end.
  cbn in Hw, Hi', Ho. rewrite Hi in Hi'.
  match goal with
  | E : (if ?ok then _ else _) _ = Some _ |- _ => destruct ok; minv
  end.
  - split; [reflexivity|]. split; [exact Hi'|]. split; [exact Ho|]. eauto.
  - split; [exact Hw|]. split; [exact Hi'|]. split; [exact Ho|]. eauto.
Qed.

Lemma connectWiFi_spec_witness :
  connectWiFi "home" "secret" joinRefused
    = Some (false, after (connectWiFi "home" "secret") joinRefused) /\
  wifiConnected joinRefused = true /\
  wifiConnected (after (connectWiFi "home" "secret") joinRefused) = false.
Proof.
  assert (H : connectWiFi "home" "secret" joinRefused
              = Some (false, after (connectWiFi "home" "secret") joinRefused))
    by (vm_compute; reflexivity).
  split; [exact H|]. split; [reflexivity|].
  destruct (connectWiFi_spec _ _ _ _ _ H) as [(Hi & _)|(_ & Hw & _)].
  - vm_compute in Hi. discriminate.
  - exact Hw.
Defined.

Example connectWiFi_joins :
  connectWiFi "home" "secret" joinRun
    = Some (true, after (connectWiFi "home" "secret") joinRun) /\
  wifiConnected (after (connectWiFi "home" "secret") joinRun) = true.
Proof. split; vm_compute; reflexivity. Qed.

(** X3. [disconnectWiFi] writes the one leave command and ends with
    [wifiConnected = false] whatever the module answers, and it returns as
    soon as the clock has risen through its 1000 ms wait. *)
Theorem disconnectWiFi_spec (s : State) :
  (ticking (budget 1000) s -> exists s', disconnectWiFi s = Some (tt, s')) /\
  (forall s',
      disconnectWiFi s = Some (tt, s') ->
      wifiConnected s' = false /\
      esp8266Initialized s' = esp8266Initialized s /\
      serialOut s' = (serialOut s ++ [line "AT+CWQAP"])%list).
Proof.
  split.
  - intros Ht. unfold disconnectWiFi.
    destruct (sendCommand_returns "AT+CWQAP" (Some "OK") 1000 0 s
                (ticking_le _ _ _ (Nat.le_refl _)
                   (eq_ind _ (fun n => ticking n s) Ht _ (plus_n_O _))))
      as (b & s1 & E & _).
    rewrite (bind_eq _ _ _ _ _ E). eexists. reflexivity.
  - intros s' H. unfold disconnectWiFi in H. minv.
    match goal with
    | E : sendCommand _ _ _ _ = Some _ |- _ =>
        pose proof (sendCommand_initialized _ _ _ _ _ _ E) as Hi;
        pose proof (sendCommand_out _ _ _ _ _ _ E) as Ho
    end.
    split; [reflexivity|]. split; [exact Hi | exact Ho].
Qed.

Lemma disconnectWiFi_spec_witness :
  ticking (budget 1000) silentSecond /\
  exists s', disconnectWiFi silentSecond = Some (tt, s').
Proof.
  assert (Ht : ticking (budget 1000) silentSecond)
    by (apply (ticking_counting 0); reflexivity).
  split; [exact Ht|].
  exact (proj1 (disconnectWiFi_spec silentSecond) Ht).
Defined.

(** ** Waits terminate, exchanges touch only the channel *)

(** X4. While the clock readings rise strictly, [sendCommand] and
    [getResponse] with timeout [T] return, whatever the channel delivers, and
    they have read the clock at most [T + 2] times when they do: of
    [T + 2 + m] rising readings at least [m] are left.  This bounds the number
    of readings a wait consumes, not the time that passes between them. *)
Theorem waits_terminate (command : string) (e : option string) (marker : string)
  (timeout : Z) (m : nat) (s : State) :
  ticking (budget timeout + m) s ->
  (exists b s', sendCommand command e timeout s = Some (b, s') /\ ticking m s') /\
  (exists r s', getResponse marker timeout s = Some (r, s') /\ ticking m s').
Proof.
  intros Ht. split.
  - apply sendCommand_returns. exact Ht.
  - apply getResponse_returns. exact Ht.
Qed.

Lemma waits_terminate_witness :
  ticking (budget 3 + 0) silentTicking /\
  (exists b s', sendCommand "AT" (Some "OK") 3 silentTicking = Some (b, s')
                /\ ticking 0 s').
Proof.
  assert (Ht : ticking (budget 3 + 0) silentTicking)
    by (apply (ticking_counting 0); reflexivity).
  split; [exact Ht|].
  exact (proj1 (waits_terminate "AT" (Some "OK") "OK" 3 0 silentTicking Ht)).
Defined.

(** X5. An exchange touches nothing but the channel and the receive buffer:
    [sendCommand] writes its command followed by CR-LF and nothing else,
    [getResponse] writes nothing, and neither changes the initialised flag,
    the WiFi flag, the Firebase configuration or the last-write flag. *)
Theorem exchanges_touch_only_the_channel :
  (forall command e timeout b s s',
      sendCommand command e timeout s = Some (b, s') ->
      sameButChannel (written (line command) s) s') /\
  (forall marker timeout r s s',
      getResponse marker timeout s = Some (r, s') ->
      sameButChannel s s').
Proof.
  split.
  - intros. eapply sendCommand_frame; eauto.
  - intros. eapply getResponse_frame; eauto.
Qed.

Lemma exchanges_touch_only_the_channel_witness :
  sameButChannel (written (line "AT") joinRun)
    (after (sendCommand "AT" (Some "GOT IP") 1000) joinRun).
Proof.
  apply (proj1 exchanges_touch_only_the_channel "AT" (Some "GOT IP") 1000 true).
  vm_compute. reflexivity.
Defined.

(** ** The plain HTTP calls *)

(** Split a call on every test it makes, down to the primitive steps. *)
Ltac crunch :=
  repeat (minv;
          match goal with
          | H : (if ?c then _ else _) _ = Some _ |- _ => destruct c eqn:?
          end);
  minv.

(** Replace the exchanges without marker by the state they end in. *)
Ltac sent :=
  repeat match goal with
    | E : sendCommand _ None _ _ = Some _ |- _ =>
        rewrite sendCommand_none in E; inversion E; subst; clear E
    end.

(** X6. [httpGet], [httpPost] and [getRawFromServer] return the empty string
    on every path: the close command they issue last clears the receive
    buffer before it is returned, so what the server sent is never handed to
    the caller. *)
Theorem http_results_are_empty :
  (forall serverIp path s r s',
      httpGet serverIp path s = Some (r, s') -> r = EmptyString) /\
  (forall serverIp path data s r s',
      httpPost serverIp path data s = Some (r, s') -> r = EmptyString) /\
  (forall serverIp ssid password path s r s',
      getRawFromServer serverIp ssid password path s = Some (r, s') ->
      r = EmptyString).
Proof.
  split; [|split]; intros.
  - unfold httpGet in H. crunch; sent; reflexivity.
  - unfold httpPost in H. crunch; sent; reflexivity.
  - unfold getRawFromServer in H. crunch; sent; reflexivity.
Qed.

Lemma http_results_are_empty_witness :
  httpGet "1.2.3.4" "/" httpRun = Some (EmptyString, after (httpGet "1.2.3.4" "/") httpRun) /\
  rxData (after (drain 5000) (run [5; 6; 9000] ["HTTP/1.1 200 OK"] idle)) = "HTTP/1.1 200 OK".
Proof.
  assert (H : exists r, httpGet "1.2.3.4" "/" httpRun
                        = Some (r, after (httpGet "1.2.3.4" "/") httpRun)).
  { eexists. vm_compute. reflexivity. }
  destruct H as [r H]. split; [|vm_compute; reflexivity].
  rewrite H. rewrite (proj1 http_results_are_empty _ _ _ _ _ H). reflexivity.
Defined.

(** X7. [sendToServer], on an initialised and connected module, returns true
    exactly when it has written the request: after a successful connect and a
    prompt for the send intent.  It inspects no reply to the request. *)
Theorem sendToServer_spec (serverIp ssid password data : string)
  (s s' : State) (b : bool) :
  esp8266Initialized s = true ->
  wifiConnected s = true ->
  sendToServer serverIp ssid password data s = Some (b, s') ->
  let req := sendToServer_request serverIp data in
  let open := line (cipstart "TCP" serverIp "80") in
  let intent := line ("AT+CIPSEND=" ++ JS.ofZ (JS.len req + 2)) in
  (b = false /\ serialOut s' = (serialOut s ++ [open])%list) \/
  (b = false /\ serialOut s' = (serialOut s ++ [open; intent; line "AT+CIPCLOSE"])%list) \/
  (b = true /\
   serialOut s' = (serialOut s ++ [open; intent; req; line "AT+CIPCLOSE"])%list).
Proof.
  intros Hi Hw H. cbv zeta. unfold sendToServer in H. minv.
  rewrite Hi in *. cbn [negb] in *. minv.
  rewrite Hw in *. cbn [negb] in *. minv. cbn [negb] in *. minv.
  match goal with
  | E : (if negb ?ok then _ else _) _ = Some _ |- _ => on_ok E
  end; [|left; split; [reflexivity|]; outs; reflexivity].
  match goal with
  | E : (if negb ?ok then _ else _) _ = Some _ |- _ => on_ok E
  end.
  - right; right. split; [reflexivity|]. outs. rewrite <- !app_assoc. reflexivity.
  - right; left. split; [reflexivity|]. outs. rewrite <- !app_assoc. reflexivity.
Qed.

Lemma sendToServer_spec_witness :
  sendToServer "1.2.3.4" "ssid" "pw" "sensor=123" sendRun
    = Some (true, after (sendToServer "1.2.3.4" "ssid" "pw" "sensor=123") sendRun) /\
  List.length (serialOut (after (sendToServer "1.2.3.4" "ssid" "pw" "sensor=123") sendRun))
    = 4%nat.
Proof.
  assert (H : sendToServer "1.2.3.4" "ssid" "pw" "sensor=123" sendRun
              = Some (true, after (sendToServer "1.2.3.4" "ssid" "pw" "sensor=123") sendRun))
    by (vm_compute; reflexivity).
  split; [exact H|].
  pose proof (sendToServer_spec "1.2.3.4" "ssid" "pw" "sensor=123" sendRun _ true
                (eq_refl true) (eq_refl true) H) as W.
  cbv zeta in W.
  destruct W as [[E _]|[[E _]|[_ ->]]]; [discriminate E | discriminate E | reflexivity].
Defined.

(** ** The REST calls: gating and what goes over the channel *)

Lemma restReady_dec (s : State) :
  restReady s \/
  (wifiConnected s = false \/ firebaseDatabaseURL s = EmptyString
   \/ firebaseApiKey s = EmptyString).
Proof.
  unfold restReady. destruct (wifiConnected s); [|auto].
  destruct (String.eqb_spec (firebaseDatabaseURL s) EmptyString); [auto|].
  destruct (String.eqb_spec (firebaseApiKey s) EmptyString); auto.
Qed.

Lemma sendCommand_apiKey (command : string) (e : option string) (timeout : Z)
  (b : bool) (s s' : State) :
  sendCommand command e timeout s = Some (b, s') ->
  firebaseApiKey s' = firebaseApiKey s.
Proof. intros H. apply sendCommand_frame in H. apply H. Qed.

(** Bring the API key read after an exchange back to the one of the first
    state. *)
Ltac keys :=
  repeat match goal with
    | E : sendCommand _ _ _ ?s0 = Some (_, ?s1) |- _ =>
        lazymatch goal with
        | _ : firebaseApiKey s1 = firebaseApiKey s0 |- _ => fail
        | _ => pose proof (sendCommand_apiKey _ _ _ _ _ _ E)
        end
    end;
  cbn [firebaseApiKey set_firebaseDataSent] in *;
  repeat match goal with
    | H : firebaseApiKey ?x = firebaseApiKey _ |- _ => rewrite H in *; clear H
    end.

(** Pass the guards of a REST call. *)
Ltac ready H :=
  match goal with
  | R : restReady _ |- _ =>
      let Hw := fresh "Hw" in
      let Hu := fresh "Hu" in
      let Hk := fresh "Hk" in
      destruct R as (Hw & Hu & Hk);
      minv;
      cbn [wifiConnected firebaseDatabaseURL firebaseApiKey firebasePath
             set_firebaseDataSent] in *;
      rewrite Hw in *; cbn [negb] in *; minv;
      cbn [wifiConnected firebaseDatabaseURL firebaseApiKey firebasePath
             set_firebaseDataSent] in *;
      rewrite (eqb_empty_false _ Hu), (eqb_empty_false _ Hk) in *;
      cbn [orb] in *; minv
  end.

(** What [readFirebaseString] puts on the channel. *)
Lemma readFirebaseString_exchange_log (deviceName : string) (s s' : State)
  (r : option string) :
  restReady s ->
  readFirebaseString_exchange deviceName s = Some (r, s') ->
  let req :=
    readFirebaseString_request
      (cleanPath (firebasePath s ++ "/" ++ deviceName ++ "/value"))
      (extractHost (firebaseDatabaseURL s)) (firebaseApiKey s) in
  let intent := line ("AT+CIPSEND=" ++ JS.ofZ (JS.len req)) in
  (r = None /\ serialOut s' = (serialOut s ++ [restOpen s])%list) \/
  (r = None /\
   serialOut s' = (serialOut s ++ [restOpen s; intent; line "AT+CIPCLOSE"])%list) \/
  (exists response,
      r = Some response /\
      serialOut s' = (serialOut s ++ [restOpen s; intent; req; line "AT+CIPCLOSE"])%list).
Proof.
  intros R H. cbv zeta. unfold readFirebaseString_exchange in H. ready H.
  match goal with
  | E : (if negb ?ok then _ else _) _ = Some _ |- _ => on_ok E
  end; [|left; split; [reflexivity|]; outs; reflexivity].
  keys.
  match goal with
  | E : (if negb ?ok then _ else _) _ = Some _ |- _ => on_ok E
  end.
  - right; right. eexists. split; [reflexivity|].
    outs. rewrite <- !app_assoc. reflexivity.
  - right; left. split; [reflexivity|]. outs. rewrite <- !app_assoc. reflexivity.
Qed.

(** What [firebaseDelete] puts on the channel. *)
Lemma firebaseDelete_log (deviceName : string) (s s' : State) :
  restReady s ->
  firebaseDelete deviceName s = Some (tt, s') ->
  let req :=
    firebaseDelete_request (cleanPath (firebasePath s ++ "/" ++ deviceName))
      (extractHost (firebaseDatabaseURL s)) (firebaseApiKey s) in
  let intent := line ("AT+CIPSEND=" ++ JS.ofZ (JS.len req)) in
  serialOut s' = (serialOut s ++ [restOpen s])%list \/
  serialOut s' = (serialOut s ++ [restOpen s; intent; line "AT+CIPCLOSE"])%list \/
  serialOut s' = (serialOut s ++ [restOpen s; intent; req; line "AT+CIPCLOSE"])%list.
Proof.
  intros R H. cbv zeta. unfold firebaseDelete in H. ready H.
  match goal with
  | E : (if negb ?ok then _ else _) _ = Some _ |- _ => on_ok E
  end; [|left; outs; reflexivity].
  keys.
  match goal with
  | E : (if negb ?ok then _ else _) _ = Some _ |- _ => on_ok E
  end.
  - right; right. outs. rewrite <- !app_assoc. reflexivity.
  - right; left. outs. rewrite <- !app_assoc. reflexivity.
Qed.

(** What [sendFirebaseData] puts on the channel, and when the flag can be
    set. *)
Lemma sendFirebaseData_log (path jsonData : string) (s s' : State) :
  restReady s ->
  sendFirebaseData path jsonData s = Some (tt, s') ->
  let req :=
    sendFirebaseData_request (cleanPath path)
      (extractHost (firebaseDatabaseURL s)) (firebaseApiKey s) jsonData in
  let intent := line ("AT+CIPSEND=" ++ JS.ofZ (JS.len req)) in
  (firebaseDataSent s' = false /\
   serialOut s' = (serialOut s ++ [restOpen s])%list) \/
  (firebaseDataSent s' = false /\
   serialOut s' = (serialOut s ++ [restOpen s; intent; line "AT+CIPCLOSE"])%list) \/
  serialOut s' = (serialOut s ++ [restOpen s; intent; line req; line "AT+CIPCLOSE"])%list.
Proof.
  intros R H. cbv zeta. unfold sendFirebaseData in H. ready H.
  match goal with
  | E : (if negb ?ok then _ else _) _ = Some _ |- _ => on_ok E
  end.
  2: { left. split; [flags; reflexivity | outs; reflexivity]. }
  keys.
  match goal with
  | E : (if negb ?ok then _ else _) _ = Some _ |- _ => on_ok E
  end.
  2: { right; left. split.
       - flags. reflexivity.
       - outs. rewrite <- !app_assoc. reflexivity. }
  right; right.
  match goal with
  | E : (if (?ack =? EmptyString)%string then _ else _) _ = Some _ |- _ =>
      destruct (ack =? EmptyString)%string; minv
  end.
  - outs. rewrite <- !app_assoc. reflexivity.
  - match goal with
    | E : (if ?c then _ else _) _ = Some _ |- _ => destruct c; minv
    end; outs; rewrite <- !app_assoc; reflexivity.
Qed.

Lemma log_grew (out new : list string) (x : string) :
  (out ++ x :: new)%list <> out.
Proof.
  intros H. apply (f_equal (@List.length string)) in H.
  rewrite length_app in H. cbn in H. lia.
Qed.

Lemma not_ready (s : State) :
  wifiConnected s = false \/ firebaseDatabaseURL s = EmptyString
  \/ firebaseApiKey s = EmptyString ->
  ~ restReady s.
Proof. intros [H|[H|H]] (Hw & Hu & Hk); congruence. Qed.

Lemma sendFirebaseData_not_ready (path jsonData : string) (s : State) :
  wifiConnected s = false \/ firebaseDatabaseURL s = EmptyString
  \/ firebaseApiKey s = EmptyString ->
  sendFirebaseData path jsonData s = Some (tt, set_firebaseDataSent false s).
Proof.
  intros Hc. unfold sendFirebaseData. do 2 pure_step.
  change (wifiConnected (set_firebaseDataSent false s)) with (wifiConnected s).
  destruct (wifiConnected s); [|reflexivity]. cbn [negb]. do 2 pure_step.
  change (firebaseDatabaseURL (set_firebaseDataSent false s))
    with (firebaseDatabaseURL s).
  change (firebaseApiKey (set_firebaseDataSent false s)) with (firebaseApiKey s).
  destruct Hc as [Hc|[Hc|Hc]]; [discriminate| |]; rewrite Hc;
    [reflexivity | rewrite orb_true_r; reflexivity].
Qed.

Lemma firebaseDelete_not_ready (deviceName : string) (s : State) :
  wifiConnected s = false \/ firebaseDatabaseURL s = EmptyString
  \/ firebaseApiKey s = EmptyString ->
  firebaseDelete deviceName s = Some (tt, s).
Proof.
  intros Hc. unfold firebaseDelete, isWifiConnected, bind, get.
  destruct (wifiConnected s); [|reflexivity]. cbn [negb].
  destruct Hc as [Hc|[-> | ->]]; [discriminate|reflexivity|].
  rewrite orb_true_r. reflexivity.
Qed.

Lemma readFirebaseString_not_ready (deviceName : string) (s : State) :
  wifiConnected s = false \/ firebaseDatabaseURL s = EmptyString
  \/ firebaseApiKey s = EmptyString ->
  readFirebaseString deviceName s = Some (EmptyString, s).
Proof.
  intros [Hc|Hc].
  - apply readFirebaseString_offline. exact Hc.
  - apply readFirebaseString_unconfigured. exact Hc.
Qed.

(** X8. The REST calls are gated: while WiFi is not connected or the database
    URL or the API key is empty, [readFirebaseString] returns the empty string
    and [firebaseDelete] does nothing, writing nothing to the channel, and
    [sendFirebaseData] only clears the last-write flag.  Otherwise the first
    thing each of them writes is the session-open command for the host
    extracted from the URL, on port 443. *)
Theorem rest_calls_are_gated :
  (forall deviceName s r s',
      readFirebaseString deviceName s = Some (r, s') ->
      (restReady s /\
       exists rest, serialOut s' = (serialOut s ++ restOpen s :: rest)%list) \/
      (~ restReady s /\ r = EmptyString /\ s' = s)) /\
  (forall path jsonData s s',
      sendFirebaseData path jsonData s = Some (tt, s') ->
      (restReady s /\
       exists rest, serialOut s' = (serialOut s ++ restOpen s :: rest)%list) \/
      (~ restReady s /\ s' = set_firebaseDataSent false s)) /\
  (forall deviceName s s',
      firebaseDelete deviceName s = Some (tt, s') ->
      (restReady s /\
       exists rest, serialOut s' = (serialOut s ++ restOpen s :: rest)%list) \/
      (~ restReady s /\ s' = s)).
Proof.
  split; [|split].
  - intros deviceName s r s' H. destruct (restReady_dec s) as [R|N].
    + left. split; [exact R|]. unfold readFirebaseString in H.
      apply bind_inv in H. destruct H as (x & s1 & Hx & H).
      assert (s' = s1) by (destruct x; apply ret_inv in H; tauto). subst s1.
      pose proof (readFirebaseString_exchange_log _ _ _ _ R Hx) as L.
      cbv zeta in L.
      destruct L as [[_ ->]|[[_ ->]|(response & _ & ->)]]; eexists; reflexivity.
    + right. rewrite (readFirebaseString_not_ready _ _ N) in H.
      injection H as <- <-. split; [apply not_ready; exact N | auto].
  - intros path jsonData s s' H. destruct (restReady_dec s) as [R|N].
    + left. split; [exact R|].
      pose proof (sendFirebaseData_log _ _ _ _ R H) as L. cbv zeta in L.
      destruct L as [[_ ->]|[[_ ->]| ->]]; eexists; reflexivity.
    + right. rewrite (sendFirebaseData_not_ready _ _ _ N) in H.
      injection H as <-. split; [apply not_ready; exact N | reflexivity].
  - intros deviceName s s' H. destruct (restReady_dec s) as [R|N].
    + left. split; [exact R|].
      pose proof (firebaseDelete_log _ _ _ R H) as L. cbv zeta in L.
      destruct L as [-> |[-> | ->]]; eexists; reflexivity.
    + right. rewrite (firebaseDelete_not_ready _ _ N) in H.
      injection H as <-. split; [apply not_ready; exact N | reflexivity].
Qed.

Lemma rest_calls_are_gated_witness :
  firebaseDelete "old" unconfigured = Some (tt, unconfigured) /\
  ~ restReady unconfigured.
Proof.
  assert (H : firebaseDelete "old" unconfigured
              = Some (tt, after (firebaseDelete "old") unconfigured))
    by (vm_compute; reflexivity).
  split; [vm_compute; reflexivity|].
  destruct (proj2 (proj2 rest_calls_are_gated) "old" unconfigured _ H)
    as [((_ & Hu & _) & _)|(N & _)].
  - exfalso. apply Hu. reflexivity.
  - exact N.
Defined.

Lemma len_line (command : string) : JS.len (line command) = JS.len command + 2.
Proof.
  unfold line, JS.len. rewrite length_append. cbn [String.length JS.CRLF]. lia.
Qed.

(** *** Characters and bytes *)

Lemma wireLength_app (a b : string) :
  wireLength (a ++ b) = wireLength a + wireLength b.
Proof.
  induction a as [|c a IH]; [reflexivity|].
  change (String c a ++ b) with (String c (a ++ b)). cbn [wireLength].
  rewrite IH. lia.
Qed.

Lemma wireLength_line (command : string) :
  wireLength (line command) = wireLength command + 2.
Proof. unfold line. rewrite wireLength_app. reflexivity. Qed.

Lemma wireLength_ge (text : string) : JS.len text <= wireLength text.
Proof.
  unfold JS.len. induction text as [|c text IH]; [reflexivity|].
  cbn [wireLength String.length]. destruct (isAscii c); lia.
Qed.

(** The bytes of a text are as many as its characters exactly when it is
    ASCII. *)
Lemma wireLength_ascii (text : string) :
  wireLength text = JS.len text <-> allChars isAscii text = true.
Proof.
  induction text as [|c text IH]; [split; reflexivity|].
  pose proof (wireLength_ge text) as Hge. unfold JS.len in *.
  cbn [wireLength String.length allChars].
  destruct (isAscii c); cbn [andb].
  - rewrite <- IH. split; intros H; lia.
  - split; [intros H; lia | discriminate].
Qed.

(** X9. A write that ends with the last-write flag set has opened the
    session, announced the length of the PATCH request in characters (its
    [.length]), written that request followed by CR-LF (two characters more
    than announced) and closed the session, in this order and nothing else.
    The request ends with the JSON body and its [Content-Length] header gives
    the body's length in characters.  On the channel the line takes the bytes
    of the request and two more, and a text has as many bytes as characters
    exactly when it is ASCII: only then are the announced number and the
    [Content-Length] byte counts, otherwise both fall short of the bytes
    sent. *)
Theorem sendFirebaseData_sent (path jsonData : string) (s s' : State) :
  restReady s ->
  sendFirebaseData path jsonData s = Some (tt, s') ->
  firebaseDataSent s' = true ->
  let req :=
    sendFirebaseData_request (cleanPath path)
      (extractHost (firebaseDatabaseURL s)) (firebaseApiKey s) jsonData in
  serialOut s' =
    (serialOut s ++
       [restOpen s; line ("AT+CIPSEND=" ++ JS.ofZ (JS.len req)); line req;
        line "AT+CIPCLOSE"])%list /\
  JS.len (line req) = JS.len req + 2 /\
  (exists head,
      req = head ++ "Content-Length: " ++ JS.ofZ (JS.len jsonData) ++ JS.CRLF
              ++ "Connection: close" ++ JS.CRLF ++ JS.CRLF ++ jsonData) /\
  wireLength (line req) = wireLength req + 2 /\
  JS.len req <= wireLength req /\
  (wireLength req = JS.len req <-> allChars isAscii req = true) /\
  (wireLength jsonData = JS.len jsonData <-> allChars isAscii jsonData = true).
Proof.
  intros R H Hflag. cbv zeta.
  pose proof (sendFirebaseData_log _ _ _ _ R H) as L. cbv zeta in L.
  split; [|split; [|split; [|split; [|split; [|split]]]]].
  - destruct L as [[E _]|[[E _]|L]]; [congruence | congruence | exact L].
  - apply len_line.
  - exists ("PATCH " ++ ("/" ++ cleanPath path ++ ".json?auth=" ++ firebaseApiKey s)
              ++ " HTTP/1.1" ++ JS.CRLF
              ++ "Host: " ++ extractHost (firebaseDatabaseURL s) ++ JS.CRLF
              ++ "Content-Type: application/json" ++ JS.CRLF).
    unfold sendFirebaseData_request. rewrite !append_assoc. reflexivity.
  - apply wireLength_line.
  - apply wireLength_ge.
  - apply wireLength_ascii.
  - apply wireLength_ascii.
Qed.

Lemma sendFirebaseData_sent_witness :
  restReady writeRun /\
  firebaseDataSent (after (sendFirebaseData "/iot" "{}") writeRun) = true /\
  List.length (serialOut (after (sendFirebaseData "/iot" "{}") writeRun)) = 4%nat.
Proof.
  assert (R : restReady writeRun).
  { split; [reflexivity|]. split; vm_compute; discriminate. }
  assert (H : sendFirebaseData "/iot" "{}" writeRun
              = Some (tt, after (sendFirebaseData "/iot" "{}") writeRun))
    by (vm_compute; reflexivity).
  assert (F : firebaseDataSent (after (sendFirebaseData "/iot" "{}") writeRun) = true)
    by (vm_compute; reflexivity).
  split; [exact R|]. split; [exact F|].
  destruct (sendFirebaseData_sent "/iot" "{}" writeRun _ R H F) as [-> _].
  reflexivity.
Defined.

(** X10. [readFirebaseString] and [firebaseDelete] announce the length of
    what they write, in characters: the send intent carries the [.length] of
    the GET (DELETE) request and that request is then written as it is, with
    nothing added.  A call that stops after the open command, or after a
    refused send intent, writes no request, and only the read that wrote its
    request has a response.  The announced number is the number of bytes
    written exactly when the request is ASCII; a character outside ASCII in
    the device name, the path, the host or the key makes the write longer
    than announced. *)
Theorem read_and_delete_channel_log :
  (forall deviceName s r s',
      restReady s ->
      readFirebaseString_exchange deviceName s = Some (r, s') ->
      let req :=
        readFirebaseString_request
          (cleanPath (firebasePath s ++ "/" ++ deviceName ++ "/value"))
          (extractHost (firebaseDatabaseURL s)) (firebaseApiKey s) in
      let intent := line ("AT+CIPSEND=" ++ JS.ofZ (JS.len req)) in
      ((r = None /\ serialOut s' = (serialOut s ++ [restOpen s])%list) \/
       (r = None /\
        serialOut s' = (serialOut s ++ [restOpen s; intent; line "AT+CIPCLOSE"])%list) \/
       (exists response,
           r = Some response /\
           serialOut s' =
             (serialOut s ++ [restOpen s; intent; req; line "AT+CIPCLOSE"])%list)) /\
      JS.len req <= wireLength req /\
      (wireLength req = JS.len req <-> allChars isAscii req = true)) /\
  (forall deviceName s s',
      restReady s ->
      firebaseDelete deviceName s = Some (tt, s') ->
      let req :=
        firebaseDelete_request (cleanPath (firebasePath s ++ "/" ++ deviceName))
          (extractHost (firebaseDatabaseURL s)) (firebaseApiKey s) in
      let intent := line ("AT+CIPSEND=" ++ JS.ofZ (JS.len req)) in
      (serialOut s' = (serialOut s ++ [restOpen s])%list \/
       serialOut s' = (serialOut s ++ [restOpen s; intent; line "AT+CIPCLOSE"])%list \/
       serialOut s' =
         (serialOut s ++ [restOpen s; intent; req; line "AT+CIPCLOSE"])%list) /\
      JS.len req <= wireLength req /\
      (wireLength req = JS.len req <-> allChars isAscii req = true)).
Proof.
  split.
  - intros deviceName s r s' R H. cbv zeta.
    split; [|split; [apply wireLength_ge | apply wireLength_ascii]].
    pose proof (readFirebaseString_exchange_log _ _ _ _ R H) as L.
    cbv zeta in L. exact L.
  - intros deviceName s s' R H. cbv zeta.
    split; [|split; [apply wireLength_ge | apply wireLength_ascii]].
    pose proof (firebaseDelete_log _ _ _ R H) as L. cbv zeta in L. exact L.
Qed.

Lemma read_and_delete_channel_log_witness :
  let s := readRun (response200 "42") in
  restReady s /\
  List.length (serialOut (after (readFirebaseString_exchange "temp") s)) = 4%nat.
Proof.
  cbv zeta.
  assert (R : restReady (readRun (response200 "42"))).
  { split; [reflexivity|]. split; vm_compute; discriminate. }
  assert (H : readFirebaseString_exchange "temp" (readRun (response200 "42"))
              = Some (Some (response200 "42"),
                      after (readFirebaseString_exchange "temp")
                        (readRun (response200 "42"))))
    by (vm_compute; reflexivity).
  split; [exact R|].
  pose proof (proj1 (proj1 read_and_delete_channel_log "temp" _ _ _ R H)) as L.
  cbv zeta in L.
  destruct L as [[E _]|[[E _]|(response & _ & ->)]];
    [discriminate E | discriminate E | reflexivity].
Defined.

(** ** Path cleaning and the body locator *)

(** X11. [cleanPath] removes one leading slash and no more: a path that does
    not start with a slash is returned as it is, and putting a slash in front
    of the cleaned path gives the path back when it started with one.  So the
    request path ["/" + cleanPath(p)] has a single leading slash unless [p]
    itself starts with two. *)
Theorem cleanPath_spec :
  (forall p, cleanPath ("/" ++ p) = p) /\
  (forall c rest, c <> "/"%char -> cleanPath (String c rest) = String c rest) /\
  cleanPath EmptyString = EmptyString /\
  (forall p, p = cleanPath p \/ p = "/" ++ cleanPath p) /\
  (forall base rest,
      "/" ++ cleanPath (base ++ "/" ++ rest) =
      if String.prefix "/" base then base ++ "/" ++ rest
      else if (base =? EmptyString)%string then "/" ++ rest
      else "/" ++ base ++ "/" ++ rest).
Proof.
  assert (Hcons : forall c rest,
             cleanPath (String c rest)
             = if Ascii.eqb c "/" then rest else String c rest).
  { intros c rest. unfold cleanPath. rewrite charAt_0.
    change ((String c EmptyString =? "/")%string) with (Ascii.eqb c "/" && true).
    rewrite andb_true_r. destruct (Ascii.eqb c "/"); reflexivity. }
  split; [|split; [|split; [|split]]].
  - intros p. apply (Hcons "/"%char p).
  - intros c rest Hc. rewrite Hcons.
    replace (Ascii.eqb c "/") with false
      by (symmetry; apply Ascii.eqb_neq; exact Hc).
    reflexivity.
  - reflexivity.
  - intros [|c rest]; [left; reflexivity|]. rewrite Hcons.
    destruct (Ascii.eqb_spec c "/") as [->|]; [right | left]; reflexivity.
  - intros [|c base] rest.
    + change (EmptyString ++ "/" ++ rest) with (String "/" rest).
      rewrite Hcons. reflexivity.
    + change (String c base ++ "/" ++ rest) with (String c (base ++ "/" ++ rest)).
      rewrite Hcons. cbn [String.prefix String.eqb].
      destruct (Ascii.eqb_spec c "/") as [->|Hne].
      * destruct (ascii_dec "/" "/"); [|congruence]. destruct base; reflexivity.
      * destruct (ascii_dec "/" c); [congruence|]. reflexivity.
Qed.

Example cleanPath_strips_once : cleanPath "//iot" = "/iot".
Proof. reflexivity. Qed.

Lemma occurs_skip (sub s : string) (n : nat) :
  occurs sub (JS.skip n s) = true -> occurs sub s = true.
Proof.
  revert s. induction n as [|n IH]; intros [|c s] H; try exact H.
  cbn [JS.skip] in H. cbn [occurs]. rewrite (IH s H). apply orb_true_r.
Qed.

Lemma contains_substrFrom (s sub : string) (n : Z) :
  contains s sub = false -> contains (JS.substrFrom s n) sub = false.
Proof.
  rewrite !contains_occurs. unfold JS.substrFrom. intros H.
  destruct (occurs sub (JS.skip (JS.startPos s n) s)) eqn:E; [|reflexivity].
  rewrite (occurs_skip _ _ _ E) in H. discriminate.
Qed.

Lemma indexOfAt_prefix (sub s : string) (i : Z) :
  0 <= i ->
  i <= JS.indexOfAt sub s i ->
  String.prefix sub (JS.skip (Z.to_nat (JS.indexOfAt sub s i - i)) s) = true.
Proof.
  revert i. induction s as [|c s IH]; intros i Hi; cbn [JS.indexOfAt].
  - destruct (String.prefix sub EmptyString) eqn:E; [|lia].
    intros _. rewrite Z.sub_diag. exact E.
  - destruct (String.prefix sub (String c s)) eqn:E.
    + intros _. rewrite Z.sub_diag. exact E.
    + intros Hle.
      assert (Hr : i + 1 <= JS.indexOfAt sub s (i + 1))
        by (destruct (indexOfAt_range sub s (i + 1)); lia).
      replace (Z.to_nat (JS.indexOfAt sub s (i + 1) - i))
        with (S (Z.to_nat (JS.indexOfAt sub s (i + 1) - (i + 1)))) by lia.
      cbn [JS.skip]. apply IH; [lia | exact Hr].
Qed.

(** The text from the first occurrence of [sub] on starts with [sub]. *)
Lemma substrFrom_indexOf (s sub : string) :
  0 <= JS.indexOf s sub ->
  String.prefix sub (JS.substrFrom s (JS.indexOf s sub)) = true.
Proof.
  intros H. unfold JS.substrFrom, JS.startPos.
  replace (JS.indexOf s sub <? 0) with false by (symmetry; apply Z.ltb_ge; exact H).
  unfold JS.indexOf in *.
  rewrite <- (Z.sub_0_r (JS.indexOfAt sub s 0)) at 1.
  apply indexOfAt_prefix; [lia | exact H].
Qed.

Lemma suffix_trans (a b c : string) :
  (exists p, a = p ++ b) -> (exists q, b = q ++ c) -> exists r, a = r ++ c.
Proof.
  intros [p ->] [q ->]. exists (p ++ q). symmetry. apply append_assoc.
Qed.

Lemma suffix_refl (a : string) : exists p, a = p ++ a.
Proof. exists EmptyString. reflexivity. Qed.

Lemma suffix_empty (a : string) : exists p, a = p ++ EmptyString.
Proof. exists a. symmetry. apply append_empty_r. Qed.

(** From the first brace on, or the whole text when there is none. *)
Lemma from_brace (body : string) :
  let text :=
    if 0 <=? JS.indexOf body "{" then JS.substrFrom body (JS.indexOf body "{")
    else body in
  (exists p, body = p ++ text) /\
  (contains text "{" = true -> String.prefix "{" text = true).
Proof.
  cbv zeta. destruct (Z.leb_spec 0 (JS.indexOf body "{")) as [Hb|Hb].
  - split; [apply substrFrom_suffix|]. intros _. apply substrFrom_indexOf. exact Hb.
  - split; [apply suffix_refl|]. unfold contains. intros H.
    apply Z.leb_le in H. lia.
Qed.

(** X12. [extractJsonFromResponse] only ever cuts text off the front of the
    response: its result is a suffix of the response, and when the result
    holds a brace it starts with one.  Without a CRLF-CRLF separator and
    without a [+IPD] marker the result is empty; and in the [+IPD] fallback
    the second search for a separator can never succeed, so the result is the
    text after the marker's colon, from its first brace on if it has one. *)
Theorem extractJsonFromResponse_spec (response : string) :
  (exists pre, response = pre ++ extractJsonFromResponse response) /\
  (contains (extractJsonFromResponse response) "{" = true ->
   String.prefix "{" (extractJsonFromResponse response) = true) /\
  (contains response CRLFCRLF = false ->
   contains response "+IPD" = false ->
   extractJsonFromResponse response = EmptyString) /\
  (contains response CRLFCRLF = false ->
   extractJsonFromResponse response =
   let colonIndex := JS.indexOfFrom response ":" (JS.indexOf response "+IPD") in
   if contains response "+IPD" && (0 <=? colonIndex) then
     let httpData := JS.substrFrom response (colonIndex + 1) in
     if 0 <=? JS.indexOf httpData "{"
     then JS.substrFrom httpData (JS.indexOf httpData "{")
     else httpData
   else EmptyString).
Proof.
  assert (Hfall : contains response CRLFCRLF = false ->
     extractJsonFromResponse response =
     let colonIndex := JS.indexOfFrom response ":" (JS.indexOf response "+IPD") in
     if contains response "+IPD" && (0 <=? colonIndex) then
       let httpData := JS.substrFrom response (colonIndex + 1) in
       if 0 <=? JS.indexOf httpData "{"
       then JS.substrFrom httpData (JS.indexOf httpData "{")
       else httpData
     else EmptyString).
  { intros Hsep. unfold extractJsonFromResponse. cbv zeta.
    fold (contains response CRLFCRLF). rewrite Hsep.
    fold (contains response "+IPD").
    destruct (contains response "+IPD"); [|reflexivity]. cbn [andb].
    destruct (0 <=? JS.indexOfFrom response ":" (JS.indexOf response "+IPD"));
      [|reflexivity].
    match goal with
    | |- context [0 <=? JS.indexOf (JS.substrFrom response ?k) CRLFCRLF] =>
        fold (contains (JS.substrFrom response k) CRLFCRLF);
        rewrite (contains_substrFrom response CRLFCRLF k Hsep)
    end.
    reflexivity. }
  destruct (contains response CRLFCRLF) eqn:Hsep.
  - (* the response has a separator *)
    assert (E : extractJsonFromResponse response =
                let body := bodyOf response in
                if 0 <=? JS.indexOf body "{"
                then JS.substrFrom body (JS.indexOf body "{") else body).
    { unfold extractJsonFromResponse. cbv zeta.
      fold (contains response CRLFCRLF). rewrite Hsep. reflexivity. }
    rewrite E. cbv zeta.
    destruct (from_brace (bodyOf response)) as [Hsuf Hbrace]. cbv zeta in Hsuf, Hbrace.
    split; [|split; [|split]].
    + eapply suffix_trans; [apply (substrFrom_suffix response) | exact Hsuf].
    + exact Hbrace.
    + discriminate.
    + discriminate.
  - rewrite (Hfall eq_refl). cbv zeta.
    split; [|split; [|split]].
    + destruct (contains response "+IPD" && _); [|apply suffix_empty].
      destruct (from_brace (JS.substrFrom response
                  (JS.indexOfFrom response ":" (JS.indexOf response "+IPD") + 1)))
        as [Hsuf _]. cbv zeta in Hsuf.
      eapply suffix_trans; [apply (substrFrom_suffix response) | exact Hsuf].
    + destruct (contains response "+IPD" && _); [|discriminate].
      destruct (from_brace (JS.substrFrom response
                  (JS.indexOfFrom response ":" (JS.indexOf response "+IPD") + 1)))
        as [_ Hbrace]. exact Hbrace.
    + intros _ ->. reflexivity.
    + intros _. reflexivity.
Qed.

Example extractJsonFromResponse_legacy :
  extractJsonFromResponse ("+IPD,14:junk{" ++ JS.QUOTE ++ "a" ++ JS.QUOTE ++ ":1}")
  = "{" ++ JS.QUOTE ++ "a" ++ JS.QUOTE ++ ":1}".
Proof. reflexivity. Qed.

Example extractJsonFromResponse_body :
  extractJsonFromResponse (response200 "42") = "42".
Proof. reflexivity. Qed.

(** ** The boolean read *)

Lemma takeWhile_head (p : ascii -> bool) (s : string) :
  takeWhile p s = EmptyString \/
  exists c rest, takeWhile p s = String c rest /\ p c = true.
Proof.
  destruct s as [|c s]; [left; reflexivity|]. cbn [takeWhile].
  destruct (p c) eqn:E; [right; eauto | left; reflexivity].
Qed.

Lemma isTrueText_numeric (c : ascii) (rest : string) :
  isNumericChar c = true ->
  isTrueText (String c rest) = (String c rest =? "1")%string.
Proof.
  intros Hc. unfold isTrueText.
  assert (Ht : (String c rest =? "true")%string = false).
  { cbn [String.eqb]. destruct (Ascii.eqb_spec c "t") as [->|]; [discriminate Hc|].
    reflexivity. }
  assert (HT : (String c rest =? "TRUE")%string = false).
  { cbn [String.eqb]. destruct (Ascii.eqb_spec c "T") as [->|]; [discriminate Hc|].
    reflexivity. }
  rewrite Ht, HT, !orb_false_r. reflexivity.
Qed.

Lemma readFirebaseBoolean_of_string (deviceName v : string) (s s' : State) :
  readFirebaseString deviceName s = Some (v, s') ->
  readFirebaseBoolean deviceName s = Some (isTrueText v, s').
Proof.
  intros H. unfold readFirebaseBoolean. rewrite (bind_eq _ _ _ _ _ H). reflexivity.
Qed.

(** X13. [firebaseIsOn] is true exactly when the string read gives ["1"],
    ["true"] or ["TRUE"], and [firebaseIsOff] is its negation: a failed read
    (empty string) reports OFF.  For a body that is not a quoted string the
    read keeps digits, dots and minus signs only, so the answer is true
    exactly when the first numeric run is ["1"]: the bare JSON literal [true]
    reads as OFF. *)
Theorem firebaseIsOn_spec :
  (forall deviceName v s s',
      readFirebaseString deviceName s = Some (v, s') ->
      firebaseIsOn deviceName s = Some (isTrueText v, s') /\
      firebaseIsOff deviceName s = Some (negb (isTrueText v), s')) /\
  (forall deviceName s s',
      readFirebaseString deviceName s = Some (EmptyString, s') ->
      firebaseIsOn deviceName s = Some (false, s') /\
      firebaseIsOff deviceName s = Some (true, s')) /\
  (forall body,
      contains body "null" = false ->
      quoted body = false ->
      isTrueText (valueOf body) = (numericRun body =? "1")%string) /\
  isTrueText (valueOf "true") = false.
Proof.
  assert (Hgen : forall deviceName v s s',
             readFirebaseString deviceName s = Some (v, s') ->
             firebaseIsOn deviceName s = Some (isTrueText v, s') /\
             firebaseIsOff deviceName s = Some (negb (isTrueText v), s')).
  { intros deviceName v s s' H.
    pose proof (readFirebaseBoolean_of_string _ _ _ _ H) as Hb.
    split; [exact Hb|]. unfold firebaseIsOff.
    rewrite (bind_eq _ _ _ _ _ Hb). reflexivity. }
  split; [exact Hgen|]. split; [|split; [|reflexivity]].
  - intros deviceName s s' H. apply (Hgen _ _ _ _ H).
  - intros body Hnull Hq. unfold valueOf. rewrite Hnull, Hq.
    unfold numericRun.
    destruct (takeWhile_head isNumericChar
                (dropWhile (fun c => negb (isNumericChar c)) body))
      as [-> | (c & rest & -> & Hc)]; [reflexivity|].
    apply isTrueText_numeric. exact Hc.
Qed.

Lemma firebaseIsOn_spec_witness :
  let s := readRun (response200 "true") in
  readFirebaseString "relay" s = Some (EmptyString, after (readFirebaseString "relay") s) /\
  firebaseIsOn "relay" s = Some (false, after (readFirebaseString "relay") s) /\
  firebaseIsOff "relay" s = Some (true, after (readFirebaseString "relay") s).
Proof.
  cbv zeta.
  assert (H : readFirebaseString "relay" (readRun (response200 "true"))
              = Some (EmptyString,
                      after (readFirebaseString "relay") (readRun (response200 "true"))))
    by (vm_compute; reflexivity).
  split; [exact H|].
  exact (proj1 (proj2 firebaseIsOn_spec) "relay" _ _ H).
Defined.

(** ** Configuration *)

Lemma prefix_self_app (p x : string) : String.prefix p (p ++ x) = true.
Proof.
  induction p as [|c p IH]; cbn.
  - destruct x; reflexivity.
  - destruct (ascii_dec c c); [exact IH | congruence].
Qed.

(** The first occurrence of [sub] is where it is put, behind a text that
    holds nowhere the character [sub] starts with. *)
Lemma indexOfAt_behind (c : ascii) (sub' a b : string) (i : Z) :
  allChars (fun d => negb (Ascii.eqb d c)) a = true ->
  JS.indexOfAt (String c sub') (a ++ String c sub' ++ b) i = i + JS.len a.
Proof.
  revert i. induction a as [|d a IH]; intros i Ha.
  - change (EmptyString ++ String c sub' ++ b) with (String c sub' ++ b).
    destruct (String c sub' ++ b) eqn:E; [discriminate|].
    cbn [JS.indexOfAt]. rewrite <- E, prefix_self_app. unfold JS.len. cbn. lia.
  - cbn [allChars] in Ha. apply andb_true_iff in Ha. destruct Ha as [Hd Ha].
    change (String d a ++ String c sub' ++ b) with (String d (a ++ String c sub' ++ b)).
    cbn [JS.indexOfAt String.prefix].
    destruct (ascii_dec c d) as [->|Hne].
    + rewrite Ascii.eqb_refl in Hd. discriminate.
    + rewrite (IH (i + 1) Ha). unfold JS.len. cbn [String.length]. lia.
Qed.

Lemma substrFrom_app (a b : string) (k : Z) :
  0 <= k ->
  JS.substrFrom ((a ++ b)) (JS.len a + k) = JS.substrFrom b k.
Proof.
  intros Hk. unfold JS.substrFrom, JS.startPos, JS.len.
  replace (Z.of_nat (String.length a) + k <? 0) with false
    by (symmetry; apply Z.ltb_ge; lia).
  replace (k <? 0) with false by (symmetry; apply Z.ltb_ge; lia).
  replace (Z.to_nat (Z.of_nat (String.length a) + k))
    with (String.length a + Z.to_nat k)%nat by lia.
  induction a as [|c a IH]; [reflexivity|]. exact IH.
Qed.

Lemma quickFirebaseSetup_projectId_of (scheme p rest : string) :
  allChars (fun d => negb (Ascii.eqb d ":")) scheme = true ->
  allChars (fun d => negb (Ascii.eqb d ".")) p = true ->
  quickFirebaseSetup_projectId (scheme ++ "://" ++ p ++ "." ++ rest) = p.
Proof.
  intros Hs Hp. unfold quickFirebaseSetup_projectId. cbv zeta.
  assert (Hi : JS.indexOf (scheme ++ "://" ++ p ++ "." ++ rest) "://" = JS.len scheme).
  { unfold JS.indexOf.
    rewrite (indexOfAt_behind ":" "//" scheme (p ++ "." ++ rest) 0 Hs). lia. }
  rewrite !Hi.
  replace (0 <=? JS.len scheme) with true
    by (symmetry; apply Z.leb_le; unfold JS.len; lia).
  rewrite (substrFrom_app scheme ("://" ++ p ++ "." ++ rest) 3) by lia.
  change (JS.substrFrom ("://" ++ p ++ "." ++ rest) 3) with (p ++ "." ++ rest).
  assert (Hd : JS.indexOf (p ++ "." ++ rest) "." = JS.len p).
  { unfold JS.indexOf.
    rewrite (indexOfAt_behind "." EmptyString p rest 0 Hp). lia. }
  rewrite !Hd. unfold JS.len.
  destruct p as [|c p]; [reflexivity|].
  replace (0 <? Z.of_nat (String.length (String c p))) with true
    by (symmetry; apply Z.ltb_lt; cbn [String.length]; lia).
  rewrite substr_nat. apply take_length_app.
Qed.

(** X14. [quickFirebaseSetup] stores the URL and the key as given, resets the
    path to ["iot"], and takes as project id the text between ["://"] and the
    first dot after it, for a URL whose scheme holds no colon; a URL without
    ["://"] gives an empty project id.  Nothing is checked: an empty URL or
    key is stored as well, and leaves the REST calls gated. *)
Theorem quickFirebaseSetup_spec :
  (forall url apiKey s,
      quickFirebaseSetup url apiKey s
      = Some (tt, set_firebasePath "iot"
                    (set_firebaseProjectId (quickFirebaseSetup_projectId url)
                       (set_firebaseDatabaseURL url (set_firebaseApiKey apiKey s))))) /\
  (forall scheme p rest,
      allChars (fun d => negb (Ascii.eqb d ":")) scheme = true ->
      allChars (fun d => negb (Ascii.eqb d ".")) p = true ->
      quickFirebaseSetup_projectId (scheme ++ "://" ++ p ++ "." ++ rest) = p) /\
  (forall url,
      contains url "://" = false -> quickFirebaseSetup_projectId url = EmptyString) /\
  (forall url apiKey s,
      restReady (after (quickFirebaseSetup url apiKey) s) <->
      wifiConnected s = true /\ url <> EmptyString /\ apiKey <> EmptyString).
Proof.
  split; [reflexivity|]. split; [exact quickFirebaseSetup_projectId_of|]. split.
  - intros url H. unfold quickFirebaseSetup_projectId. cbv zeta.
    fold (contains url "://"). rewrite H. reflexivity.
  - intros url apiKey s. unfold restReady. reflexivity.
Qed.

Lemma quickFirebaseSetup_spec_witness :
  quickFirebaseSetup_projectId "https://my-proj.firebaseio.com" = "my-proj".
Proof.
  apply (proj1 (proj2 quickFirebaseSetup_spec) "https" "my-proj" "firebaseio.com");
    reflexivity.
Defined.

(** ** Decimal numerals parse to their value *)

Lemma parseLoop_app {num} `{Number num} (a b : string) (i : Z) (st : ParseState num) :
  parseLoop (a ++ b) i st = parseLoop b (i + JS.len a) (parseLoop a i st).
Proof.
  revert i st. induction a as [|c a IH]; intros i st.
  - cbn. f_equal. unfold JS.len. cbn. lia.
  - cbn [String.append parseLoop]. rewrite IH. f_equal.
    unfold JS.len. cbn [String.length]. lia.
Qed.

Lemma integer_step (i : Z) (c : ascii) (st : ParseState Q) (neg : bool) (acc d : nat) :
  isDigit c = true -> nat_of_ascii c = (48 + d)%nat ->
  readingInteger st neg acc ->
  readingInteger (parseStep i c st) neg (d + 10 * acc).
Proof.
  intros Hc Hd (Hr & Hn & Hdec & Hp). unfold parseStep.
  assert (Hm : (Ascii.eqb c "-" && (i =? 0))%bool = false).
  { destruct (Ascii.eqb_spec c "-") as [->|]; [discriminate Hc | reflexivity]. }
  assert (Hdot : Ascii.eqb c "." = false).
  { destruct (Ascii.eqb_spec c ".") as [->|]; [discriminate Hc | reflexivity]. }
  rewrite Hm, Hdot, Hc, Hdec. cbv zeta. unfold readingInteger.
  cbn [result isNegative hasDecimal decimalPlace fromZ nadd nmul Number_Q].
  split; [|auto]. rewrite Hr, Hd.
  rewrite <- inject_Z_mult, <- inject_Z_plus. apply inject_Z_injective. lia.
Qed.

Lemma integer_loop (u : Decimal.uint) :
  forall (i : Z) (st : ParseState Q) (neg : bool) (acc : nat),
    readingInteger st neg acc ->
    readingInteger (parseLoop (NilEmpty.string_of_uint u) i st) neg
      (Nat.of_uint_acc u acc).
Proof.
  induction u; intros i st neg acc Hst;
    cbn [NilEmpty.string_of_uint parseLoop Nat.of_uint_acc]; [exact Hst | ..];
    rewrite Nat.tail_mul_spec; apply IHu;
    match goal with
    | |- readingInteger (parseStep _ ?c _) _ ?n =>
        let d := eval vm_compute in (nat_of_ascii c - 48)%nat in
        replace n with (d + 10 * acc)%nat by lia;
        apply integer_step; [reflexivity | reflexivity | exact Hst]
    end.
Qed.

Lemma pow10_Q (k : Z) : 0 <= k -> (Qpower (inject_Z 10) k == inject_Z (10 ^ k))%Q.
Proof. intros Hk. symmetry. apply Zpower_Qpower. exact Hk. Qed.

Lemma fraction_step (i : Z) (c : ascii) (st : ParseState Q) (neg : bool) (base : Q)
  (acc k d : nat) :
  isDigit c = true -> nat_of_ascii c = (48 + d)%nat ->
  readingFraction st neg base acc k ->
  readingFraction (parseStep i c st) neg base (d + 10 * acc) (S k).
Proof.
  intros Hc Hd (Hr & Hn & Hdec & Hp). unfold parseStep.
  assert (Hm : (Ascii.eqb c "-" && (i =? 0))%bool = false).
  { destruct (Ascii.eqb_spec c "-") as [->|]; [discriminate Hc | reflexivity]. }
  assert (Hdot : Ascii.eqb c "." = false).
  { destruct (Ascii.eqb_spec c ".") as [->|]; [discriminate Hc | reflexivity]. }
  rewrite Hm, Hdot, Hc, Hdec. cbv zeta. unfold readingFraction.
  cbn [result isNegative hasDecimal decimalPlace fromZ nadd ndiv pow10 Number_Q].
  split; [|split; [exact Hn | split; [reflexivity | lia]]].
  rewrite Hr, Hd, Hp.
  replace (Z.of_nat k + 1) with (Z.of_nat (S k)) by lia.
  rewrite pow10_Q by lia.
  replace (10 ^ Z.of_nat (S k)) with (10 ^ Z.of_nat k * 10)
    by (rewrite Nat2Z.inj_succ, Z.pow_succ_r by lia; lia).
  replace (Z.of_nat (d + 10 * acc)) with (Z.of_nat d + 10 * Z.of_nat acc) by lia.
  replace (Z.of_nat (48 + d) - 48) with (Z.of_nat d) by lia.
  rewrite inject_Z_plus, !inject_Z_mult.
  assert (Hpow : ~ (inject_Z (10 ^ Z.of_nat k) == 0)%Q).
  { intros E. unfold Qeq, inject_Z in E. cbn [Qnum Qden] in E.
    pose proof (Z.pow_pos_nonneg 10 (Z.of_nat k)). lia. }
  field. exact Hpow.
Qed.

Lemma fraction_loop (v : Decimal.uint) :
  forall (i : Z) (st : ParseState Q) (neg : bool) (base : Q) (acc k : nat),
    readingFraction st neg base acc k ->
    readingFraction (parseLoop (NilEmpty.string_of_uint v) i st) neg base
      (Nat.of_uint_acc v acc) (Decimal.nb_digits v + k).
Proof.
  induction v; intros i st neg base acc k Hst;
    cbn [NilEmpty.string_of_uint parseLoop Nat.of_uint_acc Decimal.nb_digits];
    [exact Hst | ..];
    rewrite Nat.tail_mul_spec;
    replace (S (Decimal.nb_digits v) + k)%nat with (Decimal.nb_digits v + S k)%nat by lia;
    apply IHv;
    match goal with
    | |- readingFraction (parseStep _ ?c _) _ _ ?n _ =>
        let d := eval vm_compute in (nat_of_ascii c - 48)%nat in
        replace n with (d + 10 * acc)%nat by lia;
        apply fraction_step; [reflexivity | reflexivity | exact Hst]
    end.
Qed.

Lemma parse_integer (u : Decimal.uint) :
  (parseStringToNumber (num := Q) (NilEmpty.string_of_uint u)
   == inject_Z (Z.of_nat (Nat.of_uint u)))%Q.
Proof.
  unfold parseStringToNumber. cbv zeta.
  destruct (integer_loop u 0 (mkParse (fromZ 0) false false 0) false 0)
    as (Hr & Hn & _); [repeat split; reflexivity|].
  rewrite Hn. exact Hr.
Qed.

Lemma parse_negative (u : Decimal.uint) :
  (parseStringToNumber (num := Q) ("-" ++ NilEmpty.string_of_uint u)
   == - inject_Z (Z.of_nat (Nat.of_uint u)))%Q.
Proof.
  unfold parseStringToNumber. cbv zeta.
  change ("-" ++ NilEmpty.string_of_uint u)
    with (String "-" (NilEmpty.string_of_uint u)).
  cbn [parseLoop].
  destruct (integer_loop u (0 + 1) (parseStep 0 "-" (mkParse (fromZ 0) false false 0))
              true 0) as (Hr & Hn & _); [repeat split; reflexivity|].
  rewrite Hn. cbn [nneg Number_Q]. rewrite Hr. reflexivity.
Qed.

Lemma parse_fraction (u v : Decimal.uint) :
  (parseStringToNumber (num := Q)
     (NilEmpty.string_of_uint u ++ "." ++ NilEmpty.string_of_uint v)
   == inject_Z (Z.of_nat (Nat.of_uint u))
      + inject_Z (Z.of_nat (Nat.of_uint v))
        / inject_Z (10 ^ Z.of_nat (Decimal.nb_digits v)))%Q.
Proof.
  unfold parseStringToNumber. cbv zeta. rewrite parseLoop_app.
  change ("." ++ NilEmpty.string_of_uint v)
    with (String "." (NilEmpty.string_of_uint v)).
  cbn [parseLoop].
  destruct (integer_loop u 0 (mkParse (fromZ 0) false false 0) false 0)
    as (Hr & Hn & Hd & Hp); [repeat split; reflexivity|].
  set (st := parseLoop (NilEmpty.string_of_uint u) 0 _) in *.
  destruct (fraction_loop v (0 + JS.len (NilEmpty.string_of_uint u) + 1)
              (parseStep (0 + JS.len (NilEmpty.string_of_uint u)) "." st)
              false (inject_Z (Z.of_nat (Nat.of_uint u))) 0 0) as (Hr' & Hn' & _).
  { unfold parseStep. cbn [Ascii.eqb Bool.eqb andb]. unfold readingFraction.
    cbn [result isNegative hasDecimal decimalPlace].
    split; [|split; [exact Hn | split; [reflexivity | exact Hp]]].
    rewrite Hr.
    setoid_replace (inject_Z (Z.of_nat 0) / inject_Z (10 ^ Z.of_nat 0))%Q with 0%Q
      by reflexivity.
    change (Nat.of_uint_acc u 0) with (Nat.of_uint u). ring. }
  rewrite Hn'. rewrite Hr'. rewrite Nat.add_0_r. reflexivity.
Qed.

Lemma parseStringToNumber_decimal_parts :
  (forall n : nat,
      parseStringToNumber (num := Q) (JS.ofNat n) == inject_Z (Z.of_nat n))%Q /\
  (forall n : nat,
      parseStringToNumber (num := Q) ("-" ++ JS.ofNat n) == - inject_Z (Z.of_nat n))%Q.
Proof.
  split.
  - intros n. unfold JS.ofNat. rewrite parse_integer.
    rewrite DecimalNat.Unsigned.of_to. reflexivity.
  - intros n. unfold JS.ofNat. rewrite parse_negative.
    rewrite DecimalNat.Unsigned.of_to. reflexivity.
Qed.

(** X15. Over the rationals, where the arithmetic of the parser is exact,
    [parseStringToNumber] inverts decimal notation: the numeral of [n] parses
    to [n] and with a leading minus to [-n]; a digit string parses to its
    decimal value, leading zeros included; and [u.v] parses to [u + v/10^k],
    [k] the number of digits of [v]. *)
Theorem parseStringToNumber_decimal :
  (forall n : nat,
      parseStringToNumber (num := Q) (JS.ofNat n) == inject_Z (Z.of_nat n))%Q /\
  (forall n : nat,
      parseStringToNumber (num := Q) ("-" ++ JS.ofNat n) == - inject_Z (Z.of_nat n))%Q /\
  (forall u : Decimal.uint,
      parseStringToNumber (num := Q) (NilEmpty.string_of_uint u)
      == inject_Z (Z.of_nat (Nat.of_uint u)))%Q /\
  (forall u v : Decimal.uint,
      parseStringToNumber (num := Q)
        (NilEmpty.string_of_uint u ++ "." ++ NilEmpty.string_of_uint v)
      == inject_Z (Z.of_nat (Nat.of_uint u))
         + inject_Z (Z.of_nat (Nat.of_uint v))
           / inject_Z (10 ^ Z.of_nat (Decimal.nb_digits v)))%Q.
Proof.
  split; [|split; [|split]].
  - intros n. unfold JS.ofNat. rewrite parse_integer.
    rewrite DecimalNat.Unsigned.of_to. reflexivity.
  - intros n. unfold JS.ofNat. rewrite parse_negative.
    rewrite DecimalNat.Unsigned.of_to. reflexivity.
  - exact parse_integer.
  - exact parse_fraction.
Qed.

Example parseStringToNumber_decimal_sample :
  (parseStringToNumber (num := Q) "007.250" == 725 # 100)%Q.
Proof.
  change "007.250"
    with (NilEmpty.string_of_uint (Decimal.D0 (Decimal.D0 (Decimal.D7 Decimal.Nil)))
          ++ "." ++
          NilEmpty.string_of_uint (Decimal.D2 (Decimal.D5 (Decimal.D0 Decimal.Nil)))).
  rewrite parse_fraction. reflexivity.
Qed.

(** ** Reading back what the writers store *)

Lemma allChars_impl (p q : ascii -> bool) (s : string) :
  (forall c, p c = true -> q c = true) ->
  allChars p s = true -> allChars q s = true.
Proof.
  intros Hpq. induction s as [|c s IH]; [reflexivity|]. cbn [allChars].
  intros H. apply andb_true_iff in H. destruct H as [Hc Hs].
  rewrite (Hpq c Hc), (IH Hs). reflexivity.
Qed.

Lemma allChars_uint (u : Decimal.uint) :
  allChars isDigit (NilEmpty.string_of_uint u) = true.
Proof. induction u; cbn [NilEmpty.string_of_uint allChars]; auto. Qed.

(** A text without the character [sub] starts with does not hold [sub]. *)
Lemma indexOfAt_absent (c : ascii) (sub' s : string) (i : Z) :
  allChars (fun d => negb (Ascii.eqb d c)) s = true ->
  JS.indexOfAt (String c sub') s i = -1.
Proof.
  revert i. induction s as [|d s IH]; intros i H; [reflexivity|].
  cbn [allChars] in H. apply andb_true_iff in H. destruct H as [Hd Hs].
  cbn [JS.indexOfAt String.prefix].
  destruct (ascii_dec c d) as [->|_].
  - rewrite Ascii.eqb_refl in Hd. discriminate.
  - apply IH. exact Hs.
Qed.

Lemma numeric_without_null (s : string) :
  allChars isNumericChar s = true -> contains s "null" = false.
Proof.
  intros H. unfold contains, JS.indexOf.
  rewrite (indexOfAt_absent "n" "ull" s 0); [reflexivity|].
  apply (allChars_impl isNumericChar); [|exact H].
  intros c Hc. destruct (Ascii.eqb_spec c "n") as [->|]; [discriminate Hc | reflexivity].
Qed.

Lemma takeWhile_all (p : ascii -> bool) (s : string) :
  allChars p s = true -> takeWhile p s = s.
Proof.
  induction s as [|c s IH]; [reflexivity|]. cbn [allChars takeWhile].
  intros H. apply andb_true_iff in H. destruct H as [-> Hs]. rewrite (IH Hs).
  reflexivity.
Qed.

Lemma valueOf_numeric (s : string) :
  allChars isNumericChar s = true -> valueOf s = s.
Proof.
  intros H. unfold valueOf. rewrite (numeric_without_null s H).
  destruct s as [|c s]; [reflexivity|].
  pose proof H as H'. cbn [allChars] in H'. apply andb_true_iff in H'.
  destruct H' as [Hc _].
  assert (Hq : quoted (String c s) = false).
  { cbn [quoted]. destruct (Ascii.eqb_spec c quoteChar) as [->|];
      [discriminate Hc | reflexivity]. }
  rewrite Hq. unfold numericRun. cbn [dropWhile]. rewrite Hc. cbn [negb].
  apply takeWhile_all. exact H.
Qed.

Lemma valueOf_numeral (n : nat) : valueOf (JS.ofNat n) = JS.ofNat n.
Proof.
  apply valueOf_numeric. apply (allChars_impl isDigit); [|apply allChars_uint].
  intros c Hc. unfold isNumericChar. fold (isDigit c). rewrite Hc. reflexivity.
Qed.

Lemma occurs_at_end (sub a : string) : occurs sub (a ++ sub) = true.
Proof.
  induction a as [|c a IH].
  - change (EmptyString ++ sub) with sub. destruct sub as [|d sub].
    + reflexivity.
    + cbn [occurs].
      pose proof (prefix_self_app (String d sub) EmptyString) as P.
      rewrite append_empty_r in P. rewrite P. reflexivity.
  - change (String c a ++ sub) with (String c (a ++ sub)). cbn [occurs].
    rewrite IH. apply orb_true_r.
Qed.

Lemma takeWhile_to_quote (v : string) :
  takeWhile notQuote (v ++ JS.QUOTE) = takeWhile notQuote v.
Proof.
  induction v as [|c v IH]; [reflexivity|].
  change (String c v ++ JS.QUOTE) with (String c (v ++ JS.QUOTE)).
  cbn [takeWhile]. rewrite IH. reflexivity.
Qed.

Lemma valueOf_quoted (v : string) :
  contains (JS.QUOTE ++ v ++ JS.QUOTE) "null" = false ->
  valueOf (JS.QUOTE ++ v ++ JS.QUOTE) = takeWhile notQuote v.
Proof.
  intros Hnull. unfold valueOf. rewrite Hnull.
  change (JS.QUOTE ++ v ++ JS.QUOTE) with (String quoteChar (v ++ JS.QUOTE)).
  cbn [quoted betweenQuotes]. rewrite Ascii.eqb_refl, occurs_at_end. cbn [andb].
  apply takeWhile_to_quote.
Qed.

Lemma readFirebaseNumber_of_string {num : Type} {N : Number num}
  (deviceName v : string) (s s' : State) :
  readFirebaseString deviceName s = Some (v, s') ->
  readFirebaseNumber (num := num) deviceName s
  = Some (if (v =? EmptyString)%string then fromZ 0 else parseStringToNumber v, s').
Proof.
  intros H. unfold readFirebaseNumber. rewrite (bind_eq _ _ _ _ _ H).
  destruct (v =? EmptyString)%string; reflexivity.
Qed.

(** In binary64 the numerals of the dimmer range, 0 to 1024, parse without
    rounding: checked numeral by numeral. *)
Lemma parse_dimmer_range_binary64 (n : nat) :
  (n <= 1024)%nat ->
  (if (JS.ofNat n =? EmptyString)%string then fromZ (num := float) 0
   else parseStringToNumber (num := float) (JS.ofNat n))
  = fromZ (num := float) (Z.of_nat n).
Proof.
  intros Hn.
  assert (Hall :
    forallb
      (fun k =>
         PrimFloat.Leibniz.eqb
           (if (JS.ofNat k =? EmptyString)%string then fromZ (num := float) 0
            else parseStringToNumber (num := float) (JS.ofNat k))
           (fromZ (num := float) (Z.of_nat k)))
      (seq 0 1025) = true) by (vm_compute; reflexivity).
  rewrite forallb_forall in Hall.
  apply FloatAxioms.Leibniz.eqb_spec. apply Hall. apply in_seq. lia.
Qed.

(** X16. Values survive the round trip through a server that answers 200 with
    the stored value as body.  The text between the quotes that
    [firebaseWriteString] puts around its value comes back up to its first
    quote, so unchanged when it holds none (and no [null]); the [1] or [0]
    that [firebaseWriteBoolean] stores comes back through [firebaseIsOn] as
    the boolean written; and the decimal numeral of [n] comes back from
    [readFirebaseString] as it is and from [readFirebaseNumber] as [n]: for
    every [n] where the arithmetic is exact (the rationals), and in binary64,
    the number type at run time, for every [n] of the dimmer range 0 to 1024.
    Larger numerals are rounded by binary64 and are not covered. *)
Theorem stored_values_read_back (deviceName response : string) (s s' : State) :
  readFirebaseString_exchange deviceName s = Some (Some response, s') ->
  contains response "200 OK" = true ->
  0 <= JS.indexOf response CRLFCRLF ->
  (forall dev v,
      exists head,
        firebaseWriteString_json dev v = head ++ (JS.QUOTE ++ v ++ JS.QUOTE) ++ "}}") /\
  (forall dev b,
      exists head,
        firebaseWriteBoolean_json dev b = head ++ JS.ofZ (if b then 1 else 0) ++ "}}") /\
  (forall v,
      bodyOf response = JS.QUOTE ++ v ++ JS.QUOTE ->
      contains (bodyOf response) "null" = false ->
      readFirebaseString deviceName s = Some (takeWhile notQuote v, s') /\
      (allChars notQuote v = true ->
       readFirebaseString deviceName s = Some (v, s'))) /\
  (forall b : bool,
      bodyOf response = JS.ofZ (if b then 1 else 0) ->
      firebaseIsOn deviceName s = Some (b, s') /\
      firebaseIsOff deviceName s = Some (negb b, s')) /\
  (forall n : nat,
      bodyOf response = JS.ofNat n ->
      readFirebaseString deviceName s = Some (JS.ofNat n, s') /\
      (exists q,
          readFirebaseNumber (num := Q) deviceName s = Some (q, s') /\
          (q == inject_Z (Z.of_nat n))%Q) /\
      ((n <= 1024)%nat ->
       readFirebaseNumber (num := float) deviceName s
       = Some (fromZ (Z.of_nat n), s'))).
Proof.
  intros H H200 Hsep.
  assert (Hread : readFirebaseString deviceName s
                  = Some (valueOf (bodyOf response), s')).
  { rewrite (readFirebaseString_of_exchange _ _ _ _ H).
    rewrite readFirebaseString_parse_200 by assumption. reflexivity. }
  split; [|split; [|split; [|split]]].
  - intros dev v.
    exists ("{" ++ JS.QUOTE ++ dev ++ JS.QUOTE ++ ":{" ++ JS.QUOTE ++ "value"
              ++ JS.QUOTE ++ ":").
    unfold firebaseWriteString_json. rewrite !append_assoc. reflexivity.
  - intros dev b.
    exists ("{" ++ JS.QUOTE ++ dev ++ JS.QUOTE ++ ":{" ++ JS.QUOTE ++ "value"
              ++ JS.QUOTE ++ ":").
    unfold firebaseWriteBoolean_json. cbv zeta. rewrite !append_assoc. reflexivity.
  - intros v Hb Hnull. rewrite Hb in Hnull. rewrite Hread, Hb.
    rewrite (valueOf_quoted v Hnull). split; [reflexivity|].
    intros Hv. rewrite (takeWhile_all _ _ Hv). reflexivity.
  - intros b Hb.
    assert (Hv : valueOf (bodyOf response) = if b then "1" else "0")
      by (rewrite Hb; destruct b; reflexivity).
    rewrite Hv in Hread.
    pose proof (readFirebaseBoolean_of_string _ _ _ _ Hread) as Hbool.
    assert (Ht : isTrueText (if b then "1" else "0") = b) by (destruct b; reflexivity).
    rewrite Ht in Hbool. split; [exact Hbool|].
    unfold firebaseIsOff. rewrite (bind_eq _ _ _ _ _ Hbool). reflexivity.
  - intros n Hb. rewrite Hb, valueOf_numeral in Hread.
    split; [exact Hread|]. split.
    + rewrite (readFirebaseNumber_of_string _ _ _ _ Hread).
      destruct (JS.ofNat n =? EmptyString)%string eqn:E.
      * exists (fromZ 0). split; [reflexivity|].
        apply String.eqb_eq in E.
        pose proof (proj1 parseStringToNumber_decimal_parts n) as P.
        rewrite E in P. rewrite <- P. reflexivity.
      * exists (parseStringToNumber (JS.ofNat n)). split; [reflexivity|].
        exact (proj1 parseStringToNumber_decimal_parts n).
    + intros Hn. rewrite (readFirebaseNumber_of_string _ _ _ _ Hread).
      rewrite (parse_dimmer_range_binary64 n Hn). reflexivity.
Qed.

Lemma stored_values_read_back_witness :
  let s := readRun (response200 "1") in
  firebaseIsOn "relay" s = Some (true, after (readFirebaseString_exchange "relay") s) /\
  firebaseIsOff "relay" s = Some (false, after (readFirebaseString_exchange "relay") s).
Proof.
  cbv zeta.
  assert (H : readFirebaseString_exchange "relay" (readRun (response200 "1"))
              = Some (Some (response200 "1"),
                      after (readFirebaseString_exchange "relay")
                        (readRun (response200 "1"))))
    by (vm_compute; reflexivity).
  assert (H200 : contains (response200 "1") "200 OK" = true) by reflexivity.
  assert (Hsep : 0 <= JS.indexOf (response200 "1") CRLFCRLF)
    by (vm_compute; discriminate).
  exact (proj1 (proj2 (proj2 (proj2
           (stored_values_read_back "relay" (response200 "1") _ _ H H200 Hsep))))
           true eq_refl).
Defined.

(** ** The writers *)

Lemma writer_unfold (json : string) (s : State) :
  (base <- get firebasePath ;; sendFirebaseData base json) s
  = sendFirebaseData (firebasePath s) json s.
Proof. reflexivity. Qed.

(** X17. [firebaseWriteString], [firebaseWriteBoolean] and [firebaseSendJSON]
    all PATCH the configured base path, never the node of the device: the
    device name travels in the JSON body only.  A body is sent as built, a
    string value without escaping, and the last-write flag can only be set by
    a call that wrote its request. *)
Theorem writers_patch_the_base_path (s s' : State) (json : string) :
  restReady s ->
  (exists deviceName value,
      json = firebaseWriteString_json deviceName value /\
      firebaseWriteString deviceName value s = Some (tt, s')) \/
  (exists deviceName value,
      json = firebaseWriteBoolean_json deviceName value /\
      firebaseWriteBoolean deviceName value s = Some (tt, s')) \/
  firebaseSendJSON json s = Some (tt, s') ->
  let req :=
    sendFirebaseData_request (cleanPath (firebasePath s))
      (extractHost (firebaseDatabaseURL s)) (firebaseApiKey s) json in
  let intent := line ("AT+CIPSEND=" ++ JS.ofZ (JS.len req)) in
  (exists tail,
      req = "PATCH /" ++ cleanPath (firebasePath s) ++ ".json?auth=" ++ tail) /\
  (exists head, req = head ++ JS.CRLF ++ JS.CRLF ++ json) /\
  ((firebaseDataSent s' = false /\
    serialOut s' = (serialOut s ++ [restOpen s])%list) \/
   (firebaseDataSent s' = false /\
    serialOut s' = (serialOut s ++ [restOpen s; intent; line "AT+CIPCLOSE"])%list) \/
   serialOut s' =
     (serialOut s ++ [restOpen s; intent; line req; line "AT+CIPCLOSE"])%list).
Proof.
  intros R H. cbv zeta.
  assert (Hs : sendFirebaseData (firebasePath s) json s = Some (tt, s')).
  { destruct H as [(d & v & -> & H)|[(d & v & -> & H)|H]];
      [unfold firebaseWriteString in H | unfold firebaseWriteBoolean in H
      | unfold firebaseSendJSON in H];
      rewrite writer_unfold in H; exact H. }
  split; [|split].
  - eexists. unfold sendFirebaseData_request. cbv zeta.
    rewrite !append_assoc. reflexivity.
  - exists ("PATCH " ++ ("/" ++ cleanPath (firebasePath s) ++ ".json?auth="
                          ++ firebaseApiKey s)
              ++ " HTTP/1.1" ++ JS.CRLF
              ++ "Host: " ++ extractHost (firebaseDatabaseURL s) ++ JS.CRLF
              ++ "Content-Type: application/json" ++ JS.CRLF
              ++ "Content-Length: " ++ JS.ofZ (JS.len json) ++ JS.CRLF
              ++ "Connection: close").
    unfold sendFirebaseData_request. rewrite !append_assoc. reflexivity.
  - pose proof (sendFirebaseData_log _ _ _ _ R Hs) as L. cbv zeta in L. exact L.
Qed.

Lemma writers_patch_the_base_path_witness :
  List.length
    (serialOut (after (firebaseWriteBoolean "relay" true) writeRun)) = 4%nat.
Proof.
  assert (R : restReady writeRun).
  { split; [reflexivity|]. split; vm_compute; discriminate. }
  assert (H : firebaseWriteBoolean "relay" true writeRun
              = Some (tt, after (firebaseWriteBoolean "relay" true) writeRun))
    by (vm_compute; reflexivity).
  assert (F : firebaseDataSent (after (firebaseWriteBoolean "relay" true) writeRun)
              = true) by (vm_compute; reflexivity).
  destruct (writers_patch_the_base_path writeRun _
              (firebaseWriteBoolean_json "relay" true) R
              (or_intror (or_introl
                 (ex_intro _ "relay" (ex_intro _ true (conj eq_refl H))))))
    as (_ & _ & [[E _]|[[E _]|L]]).
  - rewrite E in F. discriminate F.
  - rewrite E in F. discriminate F.
  - rewrite L. reflexivity.
Defined.
